(** * Changelogger: parser, version comparator, diff engine, mtime-keyed cache
      and request handlers

    A shallow embedding of [src/parser.ts], [src/utils.ts], [src/cache.ts]
    and [src/server.ts].

    Conventions of the embedding.
    - A JavaScript string is a [string]: a sequence of code units, here the
      code units 0..255.  The character classes of the regular expressions
      ([\s], [\d], [.]) and of [trim] are written out on that range.
    - The numbers read from version labels and the results of comparing
      them are IEEE 754 doubles ([Number.t]): an integer that a double holds,
      an infinity or NaN.  [parseInt] on a run of digits gives the double
      nearest to the integer written, ties to even, as the engines compute
      it; a subtraction is rounded the same way.  Timestamps, modification
      times and times to live are whole milliseconds far below 2^53, where
      doubles are exact, and are kept as [Z]; NaN is [None] where it can
      arise there.
    - [null] and [undefined] are [None].
    - Built-ins of the runtime whose result is not fixed by the repository
      ([localeCompare], [Date], [JSON], the SQLite driver) are interfaces
      (type classes); reference instances make the definitions executable.
      So are [path.join] and [readFileSync]; a file reads the same every time
      it is read within one call.
    - A response is its status, its headers and its body; a JSON body is kept
      as the value that is serialized.  A request is its method, the path of
      its URL and its query parameter [title].  What is written to the console
      is left out. *)

From Stdlib Require Import ZArith NArith Ascii String List Bool Lia.
From stdpp Require Import base option list strings gmap pretty.
Import ListNotations.

Local Open Scope string_scope.
Local Open Scope Z_scope.

(** ** Numbers *)

Module Number.

(** A double that holds an integer, an infinity, or NaN.  In [Finite z] the
    integer [z] is one that a double holds. *)
Inductive t :=
| NaN
| Infinity (negative : bool)
| Finite (z : Z).

(** The double nearest to an integer, ties to the even significand: exact
    below 2^53, [Infinity] from 2^1024 - 2^970 on. *)
Definition round (z : Z) : t :=
  let a := Z.abs z in
  if a <? 2 ^ 53 then Finite z
  else
    let e := Z.log2 a - 52 in
    let q := a / 2 ^ e in
    let r := a mod 2 ^ e in
    let half := 2 ^ (e - 1) in
    let q := if (half <? r) || ((r =? half) && Z.odd q) then q + 1 else q in
    let m := q * 2 ^ e in
    if 2 ^ 1024 <=? m then Infinity (z <? 0) else Finite (Z.sgn z * m).

Definition zero : t := Finite 0.

(** [- a] *)
Definition opp (a : t) : t :=
  match a with
  | NaN => NaN
  | Infinity s => Infinity (negb s)
  | Finite z => Finite (- z)
  end.

(** [a - b] *)
Definition sub (a b : t) : t :=
  match a, b with
  | NaN, _ | _, NaN => NaN
  | Infinity s, Infinity s' => if Bool.eqb s s' then NaN else Infinity s
  | Infinity s, Finite _ => Infinity s
  | Finite _, Infinity s => Infinity (negb s)
  | Finite x, Finite y => round (x - y)
  end.

(** How two numbers compare; [None] when one of them is NaN. *)
Definition compare (a b : t) : option comparison :=
  match a, b with
  | NaN, _ | _, NaN => None
  | Infinity s, Infinity s' =>
      Some (if s then (if s' then Eq else Lt) else (if s' then Gt else Eq))
  | Infinity s, Finite _ => Some (if s then Lt else Gt)
  | Finite _, Infinity s => Some (if s then Gt else Lt)
  | Finite x, Finite y => Some (x ?= y)
  end.

(** [a === b] *)
Definition eqb (a b : t) : bool :=
  match compare a b with Some Eq => true | _ => false end.

(** [a < b], [a <= b], [a > b], [a >= b]: false when one of them is NaN. *)
Definition ltb (a b : t) : bool :=
  match compare a b with Some Lt => true | _ => false end.

Definition leb (a b : t) : bool :=
  match compare a b with Some Lt | Some Eq => true | _ => false end.

Definition gtb (a b : t) : bool :=
  match compare a b with Some Gt => true | _ => false end.

Definition geb (a b : t) : bool :=
  match compare a b with Some Gt | Some Eq => true | _ => false end.

(** Neither NaN nor an infinity. *)
Definition isFinite (a : t) : bool :=
  match a with Finite _ => true | _ => false end.

End Number.

(** ** Strings *)

Module Str.

Definition code (c : ascii) : N := N_of_ascii c.

(** [\s] and the characters removed by [trim]: TAB, LF, VT, FF, CR, SP, NBSP. *)
Definition isWhiteSpace (c : ascii) : bool :=
  let n := code c in
  ((9 <=? n) && (n <=? 13) || (n =? 32) || (n =? 160))%N.

(** The characters [.] does not match: LF and CR. *)
Definition isLineTerminator (c : ascii) : bool :=
  let n := code c in ((n =? 10) || (n =? 13))%N.

(** [\d] *)
Definition isDigit (c : ascii) : bool :=
  let n := code c in ((48 <=? n) && (n <=? 57))%N.

Definition isEmpty (s : string) : bool :=
  match s with EmptyString => true | String _ _ => false end.

Fixpoint trimStart (s : string) : string :=
  match s with
  | EmptyString => EmptyString
  | String c r => if isWhiteSpace c then trimStart r else s
  end.

Fixpoint trimEnd (s : string) : string :=
  match s with
  | EmptyString => EmptyString
  | String c r =>
      let r' := trimEnd r in
      if isWhiteSpace c && isEmpty r' then EmptyString else String c r'
  end.

Definition trim (s : string) : string := trimEnd (trimStart s).

Definition lowerChar (c : ascii) : ascii :=
  let n := code c in
  if ((65 <=? n) && (n <=? 90) || (192 <=? n) && (n <=? 214)
      || (216 <=? n) && (n <=? 222))%N
  then ascii_of_N (n + 32) else c.

Fixpoint toLowerCase (s : string) : string :=
  match s with
  | EmptyString => EmptyString
  | String c r => String (lowerChar c) (toLowerCase r)
  end.

(** The longest prefix whose characters satisfy [p], and the rest. *)
Fixpoint span (p : ascii -> bool) (s : string) : string * string :=
  match s with
  | EmptyString => (EmptyString, EmptyString)
  | String c r =>
      if p c then let '(a, b) := span p r in (String c a, b)
      else (EmptyString, s)
  end.

Definition dropWhile (p : ascii -> bool) (s : string) : string := snd (span p s).
Definition takeWhile (p : ascii -> bool) (s : string) : string := fst (span p s).

Fixpoint all (p : ascii -> bool) (s : string) : bool :=
  match s with
  | EmptyString => true
  | String c r => p c && all p r
  end.

(** [s.split('\n')] *)
Fixpoint splitLines (s : string) : list string :=
  match s with
  | EmptyString => [EmptyString]
  | String c r =>
      if Ascii.eqb c "010"%char then EmptyString :: splitLines r
      else match splitLines r with
           | h :: t => String c h :: t
           | [] => [String c EmptyString]
           end
  end.

(** [lines.join('\n')] *)
Fixpoint joinLines (l : list string) : string :=
  match l with
  | [] => EmptyString
  | [x] => x
  | x :: r => x ++ String "010"%char (joinLines r)
  end.

(** The integer that a string of decimal digits writes. *)
Definition decimal (digits : string) : Z :=
  fold_left (fun acc c => 10 * acc + (Z.of_N (code c) - 48))
            (list_ascii_of_string digits) 0.

(** [parseInt(digits, 10)] on a non-empty string of decimal digits: the
    double nearest to the integer written. *)
Definition parseInt10 (digits : string) : Number.t :=
  Number.round (decimal digits).

(** [s.substring(0, n)] *)
Fixpoint substring0 (n : nat) (s : string) : string :=
  match n, s with
  | S n', String c r => String c (substring0 n' r)
  | _, _ => EmptyString
  end.

(** [s.split(sep)] for a separator of one character. *)
Fixpoint split (sep : ascii) (s : string) : list string :=
  match s with
  | EmptyString => [EmptyString]
  | String c r =>
      if Ascii.eqb c sep then EmptyString :: split sep r
      else match split sep r with
           | h :: t => String c h :: t
           | [] => [String c EmptyString]
           end
  end.

(** [c.repeat(n)] for a string [c] of one character. *)
Fixpoint repeat (c : ascii) (n : nat) : string :=
  match n with
  | O => EmptyString
  | S n' => String c (repeat c n')
  end.

(** [parts.join(sep)] *)
Fixpoint joinWith (sep : string) (parts : list string) : string :=
  match parts with
  | [] => EmptyString
  | [x] => x
  | x :: r => x ++ sep ++ joinWith sep r
  end.

(** No character of [s] is [sep]. *)
Definition without (sep : ascii) (s : string) : bool :=
  all (fun c => negb (Ascii.eqb c sep)) s.

(** [s.startsWith(prefix)] *)
Fixpoint startsWith (s prefix : string) {struct prefix} : bool :=
  match prefix, s with
  | EmptyString, _ => true
  | String a p, String b r => Ascii.eqb a b && startsWith r p
  | String _ _, EmptyString => false
  end.

(** [parseInt(s, 10)]: leading white space is skipped, a sign is read, then
    the longest run of digits; NaN when there is no digit.  (A negative zero
    reads as zero.) *)
Definition parseInt (s : string) : Number.t :=
  let s := trimStart s in
  let negative := match s with String "-" _ => true | _ => false end in
  let s := match s with
           | String "-" r => r
           | String "+" r => r
           | _ => s
           end in
  match takeWhile isDigit s with
  | EmptyString => Number.NaN
  | digits => if negative then Number.opp (parseInt10 digits) else parseInt10 digits
  end.

End Str.

(** ** The runtime's string collation *)

(** [a.localeCompare(b)]: negative, zero or positive. *)
Class Collator := { localeCompare : string -> string -> Z }.

(** What the comparator's order-independence rests on. *)
Class CollatorAntisym `{Collator} : Prop :=
  localeCompare_antisym :
    forall a b, Z.sgn (localeCompare b a) = - Z.sgn (localeCompare a b).

(** Reference collation: lexicographic on code units. *)
Fixpoint codeUnitCompare (a b : string) : Z :=
  match a, b with
  | EmptyString, EmptyString => 0
  | EmptyString, String _ _ => -1
  | String _ _, EmptyString => 1
  | String x a', String y b' =>
      if (Str.code x <? Str.code y)%N then -1
      else if (Str.code y <? Str.code x)%N then 1
      else codeUnitCompare a' b'
  end.

Definition codeUnitCollator : Collator := {| localeCompare := codeUnitCompare |}.

(** ** utils.ts: VersionUtils *)

Module VersionUtils.

Record SemVer := { major : Number.t; minor : Number.t; patch : Number.t }.

(** [(\d+)\.] at the start of [s]: the number and what follows the dot. *)
Definition numberDot (s : string) : option (Number.t * string) :=
  match Str.span Str.isDigit s with
  | (String d ds, String "." r) => Some (Str.parseInt10 (String d ds), r)
  | _ => None
  end.

(** The optional pre-release and build suffixes and the end anchor, on what
    follows the third number: nothing, or a [-] or a [+] followed by anything
    up to the end of the input that holds no line terminator. *)
Definition suffixOk (r : string) : bool :=
  match r with
  | EmptyString => true
  | String c _ =>
      (Ascii.eqb c "-" || Ascii.eqb c "+")
      && Str.all (fun x => negb (Str.isLineTerminator x)) r
  end.

(** The match of the version pattern: three dot-separated runs of digits
    from the start of the input, then the optional suffixes to its end. *)
Definition parseVersion (version : string) : option SemVer :=
  match numberDot version with
  | Some (ma, r1) =>
      match numberDot r1 with
      | Some (mi, r2) =>
          match Str.span Str.isDigit r2 with
          | (String d ds, r3) =>
              if suffixOk r3
              then Some {| major := ma; minor := mi;
                           patch := Str.parseInt10 (String d ds) |}
              else None
          | _ => None
          end
      | None => None
      end
  | None => None
  end.

(** A non-empty run of decimal digits. *)
Definition isNumber (s : string) : bool :=
  negb (Str.isEmpty s) && Str.all Str.isDigit s.

(** The integers of a version whose three numbers are finite: none of its
    numerals was too large for a double. *)
Definition integers (v : SemVer) : option (Z * Z * Z) :=
  match major v, minor v, patch v with
  | Number.Finite x, Number.Finite y, Number.Finite z => Some (x, y, z)
  | _, _, _ => None
  end.

(** The order of triples of integers: by the first, then the second, then
    the third. *)
Definition lexicographic (p q : Z * Z * Z) : comparison :=
  let '(x1, y1, z1) := p in
  let '(x2, y2, z2) := q in
  match x1 ?= x2 with
  | Eq => match y1 ?= y2 with Eq => z1 ?= z2 | c => c end
  | c => c
  end.

Section WithCollator.
Context `{Collator}.

Definition compareVersions (version1 version2 : string) : Number.t :=
  match parseVersion version1, parseVersion version2 with
  | Some v1, Some v2 =>
      if negb (Number.eqb (major v1) (major v2))
      then Number.sub (major v1) (major v2)
      else if negb (Number.eqb (minor v1) (minor v2))
      then Number.sub (minor v1) (minor v2)
      else Number.sub (patch v1) (patch v2)
  | _, _ => Number.round (localeCompare version1 version2)
  end.

Definition isVersionNewer (version baseVersion : string) : bool :=
  Number.gtb (compareVersions version baseVersion) Number.zero.

Definition isVersionInRange (version startVersion endVersion : string) : bool :=
  let minVersion :=
    if Number.leb (compareVersions startVersion endVersion) Number.zero
    then startVersion else endVersion in
  let maxVersion :=
    if Number.leb (compareVersions startVersion endVersion) Number.zero
    then endVersion else startVersion in
  let compareToMin := compareVersions version minVersion in
  let compareToMax := compareVersions version maxVersion in
  Number.geb compareToMin Number.zero && Number.leb compareToMax Number.zero.

End WithCollator.

End VersionUtils.

(** ** types.ts *)

(** [keyof VersionChanges], in the fixed order of the six categories. *)
Inductive SectionKey := Added | Changed | Deprecated | Removed | Fixed | Security.

#[global] Instance SectionKey_eq_dec : EqDecision SectionKey.
Proof. solve_decision. Defined.

Definition sections : list SectionKey :=
  [Added; Changed; Deprecated; Removed; Fixed; Security].

(** The six optional properties of [VersionChanges] and of
    [VersionChangesWithVersion]; an absent property is [None]. *)
Record Changes (E : Type) := {
  added : option (list E);
  changed : option (list E);
  deprecated : option (list E);
  removed : option (list E);
  fixed : option (list E);
  security : option (list E)
}.
Arguments added {E}.
Arguments changed {E}.
Arguments deprecated {E}.
Arguments removed {E}.
Arguments fixed {E}.
Arguments security {E}.

(** The object literal without properties. *)
Definition noChanges {E} : Changes E :=
  {| added := None; changed := None; deprecated := None;
     removed := None; fixed := None; security := None |}.

(** [changes[section]] *)
Definition getSection {E} (c : Changes E) (k : SectionKey) : option (list E) :=
  match k with
  | Added => added c | Changed => changed c | Deprecated => deprecated c
  | Removed => removed c | Fixed => fixed c | Security => security c
  end.

(** [changes[section] = l] *)
Definition setSection {E} (c : Changes E) (k : SectionKey) (l : list E) : Changes E :=
  match k with
  | Added => {| added := Some l; changed := changed c; deprecated := deprecated c;
                removed := removed c; fixed := fixed c; security := security c |}
  | Changed => {| added := added c; changed := Some l; deprecated := deprecated c;
                  removed := removed c; fixed := fixed c; security := security c |}
  | Deprecated => {| added := added c; changed := changed c; deprecated := Some l;
                     removed := removed c; fixed := fixed c; security := security c |}
  | Removed => {| added := added c; changed := changed c; deprecated := deprecated c;
                  removed := Some l; fixed := fixed c; security := security c |}
  | Fixed => {| added := added c; changed := changed c; deprecated := deprecated c;
                removed := removed c; fixed := Some l; security := security c |}
  | Security => {| added := added c; changed := changed c; deprecated := deprecated c;
                   removed := removed c; fixed := fixed c; security := Some l |}
  end.

Record ChangelogEntry := { description : string }.

Definition VersionChanges := Changes ChangelogEntry.

Record Version := {
  version : string;
  date : option string;
  changes : VersionChanges
}.

Record Repository := {
  name : string;
  path : string;
  versions : list Version;
  unreleased : option VersionChanges
}.

Record ChangelogEntryWithVersion := {
  ev_description : string;
  ev_version : string;
  ev_date : option string
}.

Definition VersionChangesWithVersion := Changes ChangelogEntryWithVersion.

Record MarkdownDiff := {
  content : string;
  title : string;
  fromVersion : option string;
  toVersion : option string
}.

(** ** Exceptions and the database handle *)

(** The outcome of an expression that may throw. *)
Inductive result (A : Type) := Ok (a : A) | Throw (message : string).
Arguments Ok {A}.
Arguments Throw {A}.

(** [JSON.stringify] and [JSON.parse] on the cached payload; [JsonText] is
    the serialized form. *)
Class Json := {
  JsonText : Type;
  JSON_stringify : VersionChangesWithVersion -> result JsonText;
  JSON_parse : JsonText -> result VersionChangesWithVersion
}.

(** Serializing never fails on a payload and parsing gives it back. *)
Class JsonRoundTrip `{Json} : Prop :=
  json_round_trip :
    forall d, exists t, JSON_stringify d = Ok t /\ JSON_parse t = Ok d.

(** The ideal codec: the serialized form of a payload stands for itself. *)
Definition idealJson : Json :=
  {| JsonText := VersionChangesWithVersion; JSON_stringify := Ok; JSON_parse := Ok |}.

(** A payload and the environment of a call, for running the cache. *)
Definition samplePayload (label : string) : VersionChangesWithVersion :=
  setSection noChanges Added
    [ {| ev_description := "New feature A"; ev_version := label;
         ev_date := None |} ].

Section WithJson.
Context `{Json}.

(** A row of the table [cache_entries], under its column names. *)
Record Row := {
  key : string;
  repo : string;
  file_mtime : Z;
  data : JsonText;
  created_at : Z
}.

(** A value of a property of a row object. *)
Inductive ColumnValue :=
| IntegerValue (z : Z)
| TextValue (s : string)
| JsonValue (t : JsonText).

(** The object the driver returns for a row of [SELECT *]: one property per
    column, named as the column is. *)
Definition rowObject (r : Row) : list (string * ColumnValue) :=
  [ ("key", TextValue (key r));
    ("repo", TextValue (repo r));
    ("file_mtime", IntegerValue (file_mtime r));
    ("data", JsonValue (data r));
    ("created_at", IntegerValue (created_at r)) ].

(** [object.property]; [None] is [undefined]. *)
Fixpoint property (o : list (string * ColumnValue)) (p : string) : option ColumnValue :=
  match o with
  | [] => None
  | (n, v) :: rest => if String.eqb n p then Some v else property rest p
  end.

(** The numeric reading of a property value in a subtraction; [None] is NaN.
    [undefined] reads as NaN.  The text columns hold keys, names and
    serialized payloads and are never read as numbers by the code; their
    numeric reading is taken to be NaN. *)
Definition toNumber (v : option ColumnValue) : option Z :=
  match v with
  | Some (IntegerValue z) => Some z
  | _ => None
  end.

(** [a - b > c], which is false when the difference is NaN. *)
Definition differenceExceeds (a : Z) (b : option Z) (c : Z) : bool :=
  match b with
  | Some z => a - z >? c
  | None => false
  end.

(** The statements the cache prepares and runs.  Each may throw, and may
    change the database. *)
Class Storage := {
  Database : Type;
  selectByKey : string -> Database -> result (option (list (string * ColumnValue))) * Database;
  insertOrReplace : Row -> Database -> result unit * Database;
  deleteByKey : string -> Database -> result unit * Database
}.

(** Reference database: the table as a finite map from the primary key. *)
Definition memoryStorage : Storage :=
  {| Database := gmap string Row;
     selectByKey := fun k db => (Ok (rowObject <$> (db !! k)), db);
     insertOrReplace := fun r db => (Ok tt, <[key r := r]> db);
     deleteByKey := fun k db => (Ok tt, delete k db) |}.

(** The two statements that delete by another column than the key: the rows
    of a repository, and the rows created before a cutoff, for which the
    driver reports how many rows it deleted. *)
Class Maintenance `{Storage} := {
  deleteByRepo : string -> Database -> result unit * Database;
  deleteCreatedBefore : Z -> Database -> result Z * Database
}.

Definition memoryMaintenance : @Maintenance memoryStorage :=
  @Build_Maintenance memoryStorage
    (fun (r : string) (db : gmap string Row) =>
       (Ok tt, filter (fun kv : string * Row => repo kv.2 <> r) db))
    (fun (cutoff : Z) (db : gmap string Row) =>
       (Ok (Z.of_nat
              (size (filter (fun kv : string * Row => created_at kv.2 < cutoff) db))),
        filter (fun kv : string * Row => cutoff <= created_at kv.2) db)).

Section WithStorage.
Context `{Storage}.

(** Computations on the database that may throw. *)
Definition M (A : Type) : Type := Database -> result A * Database.

Definition ret {A} (a : A) : M A := fun db => (Ok a, db).

Definition bind {A B} (m : M A) (f : A -> M B) : M B :=
  fun db =>
    match m db with
    | (Ok a, db') => f a db'
    | (Throw e, db') => (Throw e, db')
    end.

Definition lift {A} (r : result A) : M A := fun db => (r, db).

(** [try { body } catch (error) { handler }] *)
Definition tryCatch {A} (body : M A) (handler : string -> M A) : M A :=
  fun db =>
    match body db with
    | (Ok a, db') => (Ok a, db')
    | (Throw e, db') => handler e db'
    end.

End WithStorage.
End WithJson.

Declare Scope cache_scope.
Delimit Scope cache_scope with cache.
Notation "'let!' x ':=' m 'in' k" := (bind m (fun x => k))
  (at level 10, x name, m at level 100, k at level 200) : cache_scope.

(** ** cache.ts: CacheManager *)

(** What a call reads from outside the process: the modification time of
    [CHANGELOG.md] under a repository path ([None] when [statSync] throws)
    and the clock. *)
Record Env := {
  fileMtime : string -> option Z;
  now : Z
}.

(** The environment in which the file has modification time [m] and the
    clock reads [t]. *)
Definition envAt (m t : Z) : Env := {| fileMtime := fun _ => Some m; now := t |}.

Module CacheManager.

(** The fields of the object: [enabled], whether [db] is set, [ttlMs]. *)
Record t := {
  enabled : bool;
  hasDb : bool;
  ttlMs : Z
}.

Definition generateCacheKey (repo : string) (fileMtime : Z) (operation params : string)
  : string :=
  repo ++ "_" ++ pretty fileMtime ++ "_" ++ operation ++ "_" ++ params.

Definition getFileMtime (env : Env) (repoPath : string) : option Z :=
  fileMtime env repoPath.

(** A text without the character that separates the parts of a key. *)
Definition noUnderscore (s : string) : bool :=
  Str.all (fun c => negb (Ascii.eqb c "_")) s.

Section WithStorage.
Context `{Storage}.
Local Open Scope cache_scope.

Definition delete (this : t) (key : string) : M unit :=
  if negb (hasDb this) then ret tt
  else tryCatch (deleteByKey key) (fun _ => ret tt).

Definition get (this : t) (env : Env) (repo repoPath operation params : string)
  : M (option VersionChangesWithVersion) :=
  if negb (enabled this) || negb (hasDb this) then ret None
  else
    tryCatch
      (match getFileMtime env repoPath with
       | None => ret None
       | Some fileMtime =>
           let key := generateCacheKey repo fileMtime operation params in
           let! found := selectByKey key in
           match found with
           | None => ret None
           | Some entry =>
               if differenceExceeds (now env)
                    (toNumber (property entry "createdAt")) (ttlMs this)
               then let! _ := delete this key in ret None
               else
                 match property entry "data" with
                 | Some (JsonValue text) =>
                     let! payload := lift (JSON_parse text) in ret (Some payload)
                 | _ => lift (Throw "JSON Parse error")
                 end
           end
       end)
      (fun _ => ret None).

Definition set (this : t) (env : Env) (repo repoPath operation params : string)
    (data : VersionChangesWithVersion) : M unit :=
  if negb (enabled this) || negb (hasDb this) then ret tt
  else
    tryCatch
      (match getFileMtime env repoPath with
       | None => ret tt
       | Some fileMtime =>
           let key := generateCacheKey repo fileMtime operation params in
           let! serializedData := lift (JSON_stringify data) in
           let createdAt := now env in
           insertOrReplace
             {| key := key; repo := repo; file_mtime := fileMtime;
                data := serializedData; created_at := createdAt |}
       end)
      (fun _ => ret tt).

Section WithMaintenance.
Context `{!Maintenance}.

Definition invalidateRepo (this : t) (repo : string) : M unit :=
  if negb (enabled this) || negb (hasDb this) then ret tt
  else tryCatch (deleteByRepo repo) (fun _ => ret tt).

(** The number of deleted rows is only written to the console. *)
Definition cleanup (this : t) (env : Env) : M unit :=
  if negb (enabled this) || negb (hasDb this) then ret tt
  else
    tryCatch
      (let cutoff := now env - ttlMs this in
       let! result := deleteCreatedBefore cutoff in
       ret tt)
      (fun _ => ret tt).

End WithMaintenance.

End WithStorage.
End CacheManager.

(** ** The file system *)

(** [path.join] on its arguments and [readFileSync(path, 'utf-8')], which
    gives the text of the file or throws. *)
Class FileSystem := {
  join : list string -> string;
  readFileSync : string -> result string
}.

(** Joining in two steps is joining at once. *)
Class JoinNested `{FileSystem} : Prop :=
  join_nested : forall a b c, join [join [a; b]; c] = join [a; b; c].

(** Reference file system: paths are joined with a slash, and the files are
    those of a list of paths and texts. *)
Fixpoint slashJoin (parts : list string) : string :=
  match parts with
  | [] => "."
  | [x] => x
  | x :: rest => x ++ "/" ++ slashJoin rest
  end.

Fixpoint readFrom (files : list (string * string)) (p : string) : result string :=
  match files with
  | [] => Throw ("ENOENT: no such file or directory, open '" ++ p ++ "'")
  | (q, text) :: rest => if String.eqb q p then Ok text else readFrom rest p
  end.

Definition listedFiles (files : list (string * string)) : FileSystem :=
  {| join := slashJoin; readFileSync := readFrom files |}.

(** ** parser.ts: ChangelogParser *)

Module ChangelogParser.

Definition notLineTerminator (c : ascii) : bool := negb (Str.isLineTerminator c).

(** [(.+)] at the start of [s]: the longest run without a line terminator,
    when it is not empty. *)
Definition dotPlus (s : string) : option string :=
  match Str.takeWhile notLineTerminator s with
  | EmptyString => None
  | g => Some g
  end.

(** The optional date group of the version header, on what follows the
    closing bracket: white space, a dash, white space, then the date. *)
Definition matchDate (r : string) : option string :=
  match Str.dropWhile Str.isWhiteSpace r with
  | String "-" r' => dotPlus (Str.dropWhile Str.isWhiteSpace r')
  | _ => None
  end.

(** The version header pattern on a trimmed line: two hashes, white space,
    a bracketed non-empty label without a closing bracket in it, and the
    optional date.  The result is the label group and the date group. *)
Definition matchVersionHeader (t : string) : option (string * option string) :=
  match t with
  | String "#" (String "#" r) =>
      match Str.dropWhile Str.isWhiteSpace r with
      | String "[" r1 =>
          match Str.span (fun c => negb (Ascii.eqb c "]")) r1 with
          | (String l ls, String "]" r2) => Some (String l ls, matchDate r2)
          | _ => None
          end
      | _ => None
      end
  | _ => None
  end.

(** White space, at least one character of it, then [(.+)]. *)
Definition spacesThenText (r : string) : option string :=
  match Str.span Str.isWhiteSpace r with
  | (String _ _, rest) => dotPlus rest
  | _ => None
  end.

(** The section header pattern on a trimmed line: three hashes, white space,
    text. *)
Definition matchSectionHeader (t : string) : option string :=
  match t with
  | String "#" (String "#" (String "#" r)) => spacesThenText r
  | _ => None
  end.

(** The list item pattern on a trimmed line: a dash or a star, white space,
    text. *)
Definition matchListItem (t : string) : option string :=
  match t with
  | String c r =>
      if Ascii.eqb c "-" || Ascii.eqb c "*" then spacesThenText r else None
  | EmptyString => None
  end.

(** [validSections.includes(sectionName)], with the key it names. *)
Definition validSection (sectionName : string) : option SectionKey :=
  if String.eqb sectionName "added" then Some Added
  else if String.eqb sectionName "changed" then Some Changed
  else if String.eqb sectionName "deprecated" then Some Deprecated
  else if String.eqb sectionName "removed" then Some Removed
  else if String.eqb sectionName "fixed" then Some Fixed
  else if String.eqb sectionName "security" then Some Security
  else None.

(** The variables of the line loop. *)
Record LoopState := {
  repository : Repository;
  currentVersion : option Version;
  currentSection : option SectionKey;
  isUnreleased : bool
}.

(** "Save previous version if exists", also run after the loop. *)
Definition saveCurrent (st : LoopState) : Repository :=
  let repo := repository st in
  match currentVersion st with
  | Some v =>
      if negb (isUnreleased st)
      then {| name := name repo; path := path repo;
              versions := (versions repo ++ [v])%list;
              unreleased := unreleased repo |}
      else {| name := name repo; path := path repo;
              versions := versions repo;
              unreleased := Some (changes v) |}
  | None => repo
  end.

(** [if (!changes[section]) changes[section] = []] *)
Definition ensureSection (c : VersionChanges) (k : SectionKey) : VersionChanges :=
  match getSection c k with
  | Some _ => c
  | None => setSection c k []
  end.

(** [changes[section].push(entry)], after [ensureSection]. *)
Definition pushEntry (c : VersionChanges) (k : SectionKey) (e : ChangelogEntry)
  : VersionChanges :=
  match getSection c k with
  | Some l => setSection c k (l ++ [e])%list
  | None => setSection c k [e]
  end.

Definition withChanges (v : Version) (c : VersionChanges) : Version :=
  {| version := version v; date := date v; changes := c |}.

(** One iteration of [for (const line of lines)]. *)
Definition step (st : LoopState) (line : string) : LoopState :=
  let trimmedLine := Str.trim line in
  if Str.isEmpty trimmedLine then st
  else
    match matchVersionHeader trimmedLine with
    | Some (g1, g2) =>
        let versionName := Str.trim g1 in
        let dateStr := option_map Str.trim g2 in
        {| repository := saveCurrent st;
           currentVersion :=
             Some {| version := versionName;
                     date := match dateStr with
                             | Some d => if Str.isEmpty d then None else Some d
                             | None => None
                             end;
                     changes := noChanges |};
           currentSection := None;
           isUnreleased := String.eqb (Str.toLowerCase versionName) "unreleased" |}
    | None =>
        match matchSectionHeader trimmedLine, currentVersion st with
        | Some g, Some cv =>
            let sectionName := Str.toLowerCase (Str.trim g) in
            match validSection sectionName with
            | Some k =>
                {| repository := repository st;
                   currentVersion := Some (withChanges cv (ensureSection (changes cv) k));
                   currentSection := Some k;
                   isUnreleased := isUnreleased st |}
            | None => st
            end
        | _, _ =>
            match matchListItem trimmedLine, currentVersion st, currentSection st with
            | Some g, Some cv, Some k =>
                let entry := {| description := Str.trim g |} in
                {| repository := repository st;
                   currentVersion :=
                     Some (withChanges cv
                             (pushEntry (ensureSection (changes cv) k) k entry));
                   currentSection := Some k;
                   isUnreleased := isUnreleased st |}
            | _, _, _ => st
            end
        end
    end.

Definition initial (repoName repoPath : string) : LoopState :=
  {| repository := {| name := repoName; path := repoPath;
                      versions := []; unreleased := None |};
     currentVersion := None;
     currentSection := None;
     isUnreleased := false |}.

(** The loop over an array of lines, then "Add the last version". *)
Definition parseLines (repoName repoPath : string) (lines : list string) : Repository :=
  saveCurrent (fold_left step lines (initial repoName repoPath)).

Definition parseContent (repoName repoPath : string) (content : string) : Repository :=
  parseLines repoName repoPath (Str.splitLines content).

(** *** Kinds of lines, as the loop tells them apart *)

(** The label of a version header line, trimmed. *)
Definition headerLabel (line : string) : option string :=
  match matchVersionHeader (Str.trim line) with
  | Some (g1, _) => Some (Str.trim g1)
  | None => None
  end.

Definition isVersionHeader (line : string) : bool :=
  match headerLabel line with Some _ => true | None => false end.

(** The header of a block that goes to [unreleased]. *)
Definition isUnreleasedHeader (line : string) : bool :=
  match headerLabel line with
  | Some l => String.eqb (Str.toLowerCase l) "unreleased"
  | None => false
  end.

(** The name of a section header line, lower-cased and trimmed. *)
Definition sectionName (line : string) : option string :=
  match matchSectionHeader (Str.trim line) with
  | Some g => Some (Str.toLowerCase (Str.trim g))
  | None => None
  end.

(** The category a section header line activates, when it is one of the six. *)
Definition sectionOf (line : string) : option SectionKey :=
  match sectionName line with
  | Some n => validSection n
  | None => None
  end.

Definition isListItem (line : string) : bool :=
  match matchListItem (Str.trim line) with Some _ => true | None => false end.

(** The date of a version header line, as the loop stores it. *)
Definition headerDate (line : string) : option string :=
  match matchVersionHeader (Str.trim line) with
  | Some (_, Some g2) =>
      let d := Str.trim g2 in if Str.isEmpty d then None else Some d
  | _ => None
  end.

(** The loop state with another repository and another [isUnreleased]. *)
Definition rebase (st : LoopState) (r : Repository) (u : bool) : LoopState :=
  {| repository := r; currentVersion := currentVersion st;
     currentSection := currentSection st; isUnreleased := u |}.

(** [repository.unreleased = c] *)
Definition setUnreleased (r : Repository) (c : VersionChanges) : Repository :=
  {| name := name r; path := path r; versions := versions r;
     unreleased := Some c |}.

(** Nothing follows, or a version header does. *)
Definition blockEnds (post : list string) : bool :=
  match post with
  | [] => true
  | l :: _ => isVersionHeader l
  end.

(** A line inside a block that files nothing under [k] by itself: neither a
    version header nor a header of [k]. *)
Definition besides (k : SectionKey) (line : string) : bool :=
  negb (isVersionHeader line)
  && negb (bool_decide (sectionOf line = Some k)).

(** A line that is no version header, no list item and no header of one of
    the six categories. *)
Definition inert (line : string) : bool :=
  negb (isVersionHeader line) && negb (isListItem line)
  && negb (bool_decide (is_Some (sectionOf line))).


(** Nothing follows, or a header of one of the six categories does. *)
Definition sectionOpens (rest : list string) : bool :=
  match rest with
  | [] => true
  | l :: _ => bool_decide (is_Some (sectionOf l))
  end.

(** What the loop keeps true about blocks headed "unreleased". *)
Definition unreleasedKeptApart (st : LoopState) : Prop :=
  Forall (fun v => Str.toLowerCase (version v) <> "unreleased")
         (versions (repository st))
  /\ forall v, currentVersion st = Some v ->
       isUnreleased st = String.eqb (Str.toLowerCase (version v)) "unreleased".

(** The open block is labelled [l], holds [c] under [k], and [k] is not the
    current section. *)
Definition filedAside (k : SectionKey) (l : string)
    (c : option (list ChangelogEntry)) (st : LoopState) : Prop :=
  exists v, currentVersion st = Some v /\ version v = l
            /\ getSection (changes v) k = c
            /\ currentSection st <> Some k.

(** *** Reading the file *)

Section WithFileSystem.
Context `{FileSystem}.

(** [this.repoPath], as the constructor sets it. *)
Definition repoPathOf (repoName basePath : string) : string :=
  join [basePath; repoName].

Definition parseChangelog (repoName basePath : string) : result Repository :=
  let repoPath := repoPathOf repoName basePath in
  let changelogPath := join [repoPath; "CHANGELOG.md"] in
  match readFileSync changelogPath with
  | Ok content => Ok (parseContent repoName repoPath content)
  | Throw message =>
      Throw ("Failed to read changelog for " ++ repoName ++ ": " ++ message)
  end.

Definition validateRepository (repoName basePath : string) : bool :=
  let changelogPath := join [basePath; repoName; "CHANGELOG.md"] in
  match readFileSync changelogPath with
  | Ok _ => true
  | Throw _ => false
  end.

End WithFileSystem.

(** *** What the result is made of *)

(** The label and the date of a version header line. *)
Definition headerOf (line : string) : option (string * option string) :=
  match headerLabel line with
  | Some l => Some (l, headerDate line)
  | None => None
  end.

(** The labels and dates of the version headers of the lines, in order,
    without those labelled "unreleased". *)
Definition releasedHeaders (lines : list string) : list (string * option string) :=
  List.filter (fun h => negb (String.eqb (Str.toLowerCase (fst h)) "unreleased"))
              (omap headerOf lines).

(** A line that is blank, or starts with something else than a hash, a dash
    or a star. *)
Definition isProse (line : string) : bool :=
  match Str.trim line with
  | EmptyString => true
  | String c _ => negb (Ascii.eqb c "#" || Ascii.eqb c "-" || Ascii.eqb c "*")
  end.

(** The repository [second] appended to the repository [first]: the versions
    of both, the [unreleased] of the second when it has one, the name and
    the path of the first. *)
Definition appendRepository (first second : Repository) : Repository :=
  {| name := name first; path := path first;
     versions := (versions first ++ versions second)%list;
     unreleased := match unreleased second with
                   | Some c => Some c
                   | None => unreleased first
                   end |}.

(** A loop state with [first] put before its repository. *)
Definition graft (first : Repository) (st : LoopState) : LoopState :=
  rebase st (appendRepository first (repository st)) (isUnreleased st).

(** Not empty, and unchanged by [trim]. *)
Definition isTrimmedText (s : string) : bool :=
  negb (Str.isEmpty s) && String.eqb (Str.trim s) s.

Definition wellFormedChanges (c : VersionChanges) : Prop :=
  forall k l, getSection c k = Some l ->
    Forall (fun e => isTrimmedText (description e) = true) l.

(** The label is trimmed, the date is absent or a trimmed text, and so is
    every description. *)
Definition wellFormedVersion (v : Version) : Prop :=
  Str.trim (version v) = version v
  /\ (forall d, date v = Some d -> isTrimmedText d = true)
  /\ wellFormedChanges (changes v).

Definition wellFormedRepository (r : Repository) : Prop :=
  Forall wellFormedVersion (versions r)
  /\ (forall c, unreleased r = Some c -> wellFormedChanges c).

Definition wellFormedState (st : LoopState) : Prop :=
  wellFormedRepository (repository st)
  /\ (forall v, currentVersion st = Some v -> wellFormedVersion v).

End ChangelogParser.

(** A text from its lines. *)
Definition text (lines : list string) : string := Str.joinLines lines.


(** ** utils.ts: TitleUtils *)

Module TitleUtils.

(** The class of markdown formatting characters that the first replacement
    removes: hash, star, underscore, backquote, tilde, square brackets,
    parentheses and braces. *)
Definition isMarkdownChar (c : ascii) : bool :=
  existsb (Ascii.eqb c)
    ["#"; "*"; "_"; "`"; "~"; "["; "]"; "("; ")"; "{"; "}"]%char.

(** The class of the second replacement: the angle brackets. *)
Definition isAngleBracket (c : ascii) : bool :=
  Ascii.eqb c "<" || Ascii.eqb c ">".

(** [s.replace(/[class]/g, '')] *)
Fixpoint removeAll (p : ascii -> bool) (s : string) : string :=
  match s with
  | EmptyString => EmptyString
  | String c r => if p c then removeAll p r else String c (removeAll p r)
  end.

(** [s.replace(/\s+/g, ' ')]; [inRun] tells that the preceding character was
    white space, already replaced. *)
Fixpoint collapseFrom (inRun : bool) (s : string) : string :=
  match s with
  | EmptyString => EmptyString
  | String c r =>
      if Str.isWhiteSpace c
      then if inRun then collapseFrom true r else String " " (collapseFrom true r)
      else String c (collapseFrom false r)
  end.

Definition normalizeWhitespace (s : string) : string := collapseFrom false s.

Definition sanitizeTitle (title : string) : string :=
  if Str.isEmpty title then EmptyString
  else
    let sanitized :=
      Str.trim (normalizeWhitespace
                  (removeAll isAngleBracket (removeAll isMarkdownChar title))) in
    if (128 <? String.length sanitized)%nat
    then Str.trim (Str.substring0 128 sanitized)
    else sanitized.

(** What a sanitized title looks like: none of the removed characters, white
    space only as single spaces between other characters, and at most 128
    characters. *)
Definition isPlainChar (c : ascii) : bool :=
  negb (isMarkdownChar c || isAngleBracket c).

Definition headIsText (s : string) : bool :=
  match s with
  | EmptyString => true
  | String c _ => negb (Str.isWhiteSpace c)
  end.

Fixpoint singleSpaced (s : string) : bool :=
  match s with
  | EmptyString => true
  | String c r =>
      (negb (Str.isWhiteSpace c) || Ascii.eqb c " " && headIsText r)
      && singleSpaced r
  end.

Definition isClean (s : string) : bool :=
  Str.all isPlainChar s && singleSpaced s && String.eqb (Str.trim s) s
  && (String.length s <=? 128)%nat.

End TitleUtils.

(** ** utils.ts: DateUtils *)

(** [new Date(s)] read in local time: the month index, the day of the month
    and the full year; [None] when [getTime()] is NaN. *)
Class Calendar := { localDate : string -> option (nat * Z * Z) }.

(** A runtime to which no string is a date, for running what renders no
    dates. *)
Definition noCalendar : Calendar := {| localDate := fun _ => None |}.

Module DateUtils.

Definition monthNames : list string :=
  ["Jan"; "Feb"; "Mar"; "Apr"; "May"; "Jun";
   "Jul"; "Aug"; "Sep"; "Oct"; "Nov"; "Dec"].

Definition formatShortDate `{Calendar} (dateString : option string) : string :=
  match dateString with
  | None => EmptyString
  | Some s =>
      if Str.isEmpty s then EmptyString
      else match localDate s with
           | None => EmptyString
           | Some (m, day, year) =>
               nth m monthNames "undefined" ++ " " ++ pretty day ++ ", " ++ pretty year
           end
  end.

End DateUtils.

(** ** utils.ts: ChangelogDiffUtils, the part without the cache *)

Module ChangelogDiffUtils.

Import VersionUtils.

(** [!sinceVersion || sinceVersion.trim() === ''] *)
Definition noVersion (sinceVersion : option string) : bool :=
  match sinceVersion with
  | None => true
  | Some s => Str.isEmpty s || Str.isEmpty (Str.trim s)
  end.

Definition filterVersionsSince `{Collator}
    (repository : Repository) (sinceVersion : option string) : list Version :=
  match sinceVersion with
  | Some s =>
      if noVersion sinceVersion then versions repository
      else List.filter (fun v => isVersionNewer (version v) s) (versions repository)
  | None => versions repository
  end.

Definition filterVersionsBetween `{Collator}
    (repository : Repository) (version1 version2 : string) : list Version :=
  List.filter (fun v => isVersionInRange (version v) version1 version2)
              (versions repository).

(** The entries one version contributes to a section. *)
Definition entriesOfVersion (section : SectionKey) (v : Version)
  : list ChangelogEntryWithVersion :=
  match getSection (changes v) section with
  | Some sectionChanges =>
      map (fun entry => {| ev_description := description entry;
                           ev_version := version v;
                           ev_date := date v |}) sectionChanges
  | None => []
  end.

(** The inner loop over the versions. *)
Definition entriesOf (section : SectionKey) (vs : list Version)
  : list ChangelogEntryWithVersion :=
  flat_map (entriesOfVersion section) vs.

(** One iteration of the loop over the sections. *)
Definition combineSection (vs : list Version)
    (combined : VersionChangesWithVersion) (section : SectionKey)
  : VersionChangesWithVersion :=
  let entries := entriesOf section vs in
  if (0 <? length entries)%nat then setSection combined section entries
  else combined.

Definition combineChangesWithVersions (vs : list Version) : VersionChangesWithVersion :=
  fold_left (combineSection vs) sections noChanges.

(** The heading of a section in the rendered document. *)
Definition sectionTitle (k : SectionKey) : string :=
  match k with
  | Added => "Added" | Changed => "Changed" | Deprecated => "Deprecated"
  | Removed => "Removed" | Fixed => "Fixed" | Security => "Security"
  end.

(** A string in a condition: false when absent or empty. *)
Definition truthy (s : option string) : bool :=
  match s with
  | Some x => negb (Str.isEmpty x)
  | None => false
  end.

Definition entryLine `{Calendar} (withDates : bool) (entry : ChangelogEntryWithVersion)
  : string :=
  let entryLine := "- [" ++ ev_version entry ++ "]" in
  let entryLine :=
    if withDates && truthy (ev_date entry)
    then
      let formattedDate := DateUtils.formatShortDate (ev_date entry) in
      if Str.isEmpty formattedDate then entryLine
      else entryLine ++ " (" ++ formattedDate ++ ")"
    else entryLine in
  entryLine ++ " " ++ ev_description entry.

(** The lines one section adds to the document. *)
Definition sectionLines `{Calendar} (withDates : bool)
    (changes : VersionChangesWithVersion) (k : SectionKey) : list string :=
  match getSection changes k with
  | Some (e :: es) =>
      ([("## " ++ sectionTitle k)%string; ""] ++ map (entryLine withDates) (e :: es) ++ [""])%list
  | _ => []
  end.

Definition formatMarkdownDiff `{Calendar} (repoName : string)
    (changes : VersionChangesWithVersion) (title : string) (withDates : bool)
  : MarkdownDiff :=
  let body := flat_map (sectionLines withDates changes) sections in
  let lines :=
    ([("# " ++ title)%string; ""]
     ++ match body with
        | [] => ["No changes found in the specified version range."; ""]
        | _ => body
        end)%list in
  {| content := Str.joinLines lines; title := title;
     fromVersion := None; toVersion := None |}.

Definition findVersionInRepository (repository : Repository) (versionName : string)
  : option Version :=
  List.find (fun v => String.eqb (version v) versionName) (versions repository).

(** *** The cached diffs *)

Section WithCache.
Context `{Collator} `{Calendar} `{Storage}.
Local Open Scope cache_scope.

(** The title of a since-diff. *)
Definition sinceTitle (sinceVersion customTitle : option string) : string :=
  let title := "New updates!" in
  let title :=
    if truthy customTitle then
      let sanitizedTitle := TitleUtils.sanitizeTitle (default "" customTitle) in
      if negb (Str.isEmpty sanitizedTitle) then sanitizedTitle else title
    else title in
  if noVersion sinceVersion then
    if negb (truthy customTitle) then "Complete Changelog" else title
  else title.

(** [sinceVersion || 'complete'] *)
Definition sinceCacheKey (sinceVersion : option string) : string :=
  if truthy sinceVersion then default "" sinceVersion else "complete".

Definition createSinceDiff (cacheManager : CacheManager.t) (env : Env)
    (repository : Repository) (sinceVersion customTitle : option string)
    (withDates : bool) : M MarkdownDiff :=
  let cacheKey := sinceCacheKey sinceVersion in
  let operation := "since" in
  let! cached := CacheManager.get cacheManager env (name repository)
                   (path repository) operation cacheKey in
  let! combinedChanges :=
    match cached with
    | Some c => ret c
    | None =>
        let filteredVersions := filterVersionsSince repository sinceVersion in
        let c := combineChangesWithVersions filteredVersions in
        let! _ := CacheManager.set cacheManager env (name repository)
                    (path repository) operation cacheKey c in
        ret c
    end in
  let title := sinceTitle sinceVersion customTitle in
  ret (formatMarkdownDiff (name repository) combinedChanges title withDates).

Definition rangeMin (version1 version2 : string) : string :=
  if Number.leb (compareVersions version1 version2) Number.zero
  then version1 else version2.

Definition rangeMax (version1 version2 : string) : string :=
  if Number.leb (compareVersions version1 version2) Number.zero
  then version2 else version1.

Definition rangeCacheKey (version1 version2 : string) : string :=
  rangeMin version1 version2 ++ "_" ++ rangeMax version1 version2.

Definition rangeTitle (repository : Repository) (version1 version2 : string) : string :=
  "Changelog Diff: " ++ name repository ++ " (" ++ rangeMin version1 version2
  ++ " to " ++ rangeMax version1 version2 ++ ")".

Definition createRangeDiff (cacheManager : CacheManager.t) (env : Env)
    (repository : Repository) (version1 version2 : string)
    (withDates : bool) : M MarkdownDiff :=
  let minVersion := rangeMin version1 version2 in
  let maxVersion := rangeMax version1 version2 in
  let cacheKey := rangeCacheKey version1 version2 in
  let operation := "diff" in
  let! cached := CacheManager.get cacheManager env (name repository)
                   (path repository) operation cacheKey in
  let! combinedChanges :=
    match cached with
    | Some c => ret c
    | None =>
        let filteredVersions := filterVersionsBetween repository version1 version2 in
        let c := combineChangesWithVersions filteredVersions in
        let! _ := CacheManager.set cacheManager env (name repository)
                    (path repository) operation cacheKey c in
        ret c
    end in
  let diff :=
    formatMarkdownDiff (name repository) combinedChanges
      (rangeTitle repository version1 version2) withDates in
  ret {| content := content diff; title := title diff;
         fromVersion := Some minVersion; toVersion := Some maxVersion |}.

(** The same diffs with the cache left out: what a miss computes. *)
Definition uncachedSinceDiff (repository : Repository)
    (sinceVersion customTitle : option string) (withDates : bool) : MarkdownDiff :=
  formatMarkdownDiff (name repository)
    (combineChangesWithVersions (filterVersionsSince repository sinceVersion))
    (sinceTitle sinceVersion customTitle) withDates.

End WithCache.

End ChangelogDiffUtils.

(** ** server.ts: ChangelogServer *)

(** The variables of the environment the server reads; [None] is unset. *)
Record ProcessEnv := {
  PORT : option string;
  REPOS : option string;
  REPOS_BASE_PATH : option string;
  WITH_DATES : option string
}.

Module ChangelogServer.

Record Config := {
  port : Number.t;
  repos : list string;
  reposBasePath : string;
  withDates : bool
}.

(** [value || fallback] on a string that may be unset. *)
Definition orDefault (value : option string) (fallback : string) : string :=
  if ChangelogDiffUtils.truthy value then default "" value else fallback.

Definition loadConfig (env : ProcessEnv) : Config :=
  let port := Str.parseInt (orDefault (PORT env) "3000") in
  let reposString := orDefault (REPOS env) "" in
  let repos :=
    List.filter (fun repo => (0 <? String.length repo)%nat)
                (map Str.trim (Str.split "," reposString)) in
  let reposBasePath := orDefault (REPOS_BASE_PATH env) "." in
  let withDates :=
    match WITH_DATES env with
    | Some s => String.eqb (Str.toLowerCase s) "true"
    | None => false
    end in
  {| port := port; repos := repos; reposBasePath := reposBasePath;
     withDates := withDates |}.

(** The object of the class. *)
Record t := { config : Config }.

Record VersionInfo := {
  vi_version : string;
  vi_date : option string;
  vi_changes : VersionChanges
}.

(** What the handlers serialize as [data]. *)
Inductive ApiData :=
| RepositoryListData (repositories : list string)
| RepositoryData (repository : Repository)
| VersionInfoData (info : VersionInfo).

Inductive ApiResult :=
| SuccessResponse (data : ApiData)
| ErrorResponse (error : string) (code : option string).

Definition createResponse (data : ApiData) : ApiResult := SuccessResponse data.

Definition createErrorResponse (error : string) (code : option string) : ApiResult :=
  ErrorResponse error code.

(** The body of a response: the value whose serialization it is, a text, or
    nothing. *)
Inductive Body :=
| JsonBody (value : ApiResult)
| TextBody (text : string)
| NoBody.

Record Response := {
  status : Z;
  headers : list (string * string);
  body : Body
}.

(** [headers.set(name, value)]; names are compared without regard to case. *)
Fixpoint setHeader (hs : list (string * string)) (name value : string)
  : list (string * string) :=
  match hs with
  | [] => [(name, value)]
  | (n, v) :: rest =>
      if String.eqb (Str.toLowerCase n) (Str.toLowerCase name)
      then (n, value) :: rest
      else (n, v) :: setHeader rest name value
  end.

(** [headers.get(name)] *)
Fixpoint getHeader (hs : list (string * string)) (name : string) : option string :=
  match hs with
  | [] => None
  | (n, v) :: rest =>
      if String.eqb (Str.toLowerCase n) (Str.toLowerCase name)
      then Some v
      else getHeader rest name
  end.

Definition jsonHeaders : list (string * string) :=
  [("Content-Type", "application/json")].

Definition markdownHeaders : list (string * string) :=
  [("Content-Type", "text/markdown; charset=utf-8")].

Definition corsHeaders : list (string * string) :=
  [("Access-Control-Allow-Origin", "*");
   ("Access-Control-Allow-Methods", "GET, OPTIONS");
   ("Access-Control-Allow-Headers", "Content-Type")].

(** [new Response(JSON.stringify(value), { headers })] *)
Definition jsonResponse (value : ApiResult) : Response :=
  {| status := 200; headers := jsonHeaders; body := JsonBody value |}.

(** [new Response(JSON.stringify(createErrorResponse(error, code)),
    { status, headers })] *)
Definition errorResponse (status : Z) (error code : string) : Response :=
  {| status := status; headers := jsonHeaders;
     body := JsonBody (createErrorResponse error (Some code)) |}.

(** [new Response(content, { headers })] with the markdown content type. *)
Definition markdownResponse (content : string) : Response :=
  {| status := 200; headers := markdownHeaders; body := TextBody content |}.

(** [this.config.repos.includes(repoName)] *)
Definition includes (names : list string) (repoName : string) : bool :=
  existsb (String.eqb repoName) names.

Definition notConfigured (repoName : string) : Response :=
  errorResponse 404
    ("Repository '" ++ repoName ++ "' not found in configuration")
    "REPO_NOT_CONFIGURED".

Definition changelogNotFound (repoName : string) : Response :=
  errorResponse 404
    ("Repository '" ++ repoName ++ "' does not have a valid CHANGELOG.md")
    "CHANGELOG_NOT_FOUND".

(** The request, as the handler reads it: the method, the path of the URL
    and its query parameter [title]. *)
Record Request := {
  method : string;
  pathname : string;
  titleParam : option string
}.

(** A part of a path between slashes: not empty, without a slash. *)
Definition isSegment (s : string) : bool :=
  negb (Str.isEmpty s) && Str.without "/" s.

Section WithFileSystem.
Context `{FileSystem}.

Definition handleGetRepos (this : t) : Response :=
  let validRepos :=
    List.filter
      (fun repo => ChangelogParser.validateRepository repo (reposBasePath (config this)))
      (repos (config this)) in
  jsonResponse (createResponse (RepositoryListData validRepos)).

Definition handleGetRepo (this : t) (repoName : string) : Response :=
  if negb (includes (repos (config this)) repoName) then notConfigured repoName
  else if negb (ChangelogParser.validateRepository repoName
                  (reposBasePath (config this)))
  then changelogNotFound repoName
  else
    match ChangelogParser.parseChangelog repoName (reposBasePath (config this)) with
    | Ok repository => jsonResponse (createResponse (RepositoryData repository))
    | Throw message =>
        errorResponse 500
          ("Failed to parse changelog for repository '" ++ repoName ++ "': "
           ++ message)
          "PARSE_ERROR"
    end.

Definition handleGetVersion (this : t) (repoName versionName : string) : Response :=
  if negb (includes (repos (config this)) repoName) then notConfigured repoName
  else
    match ChangelogParser.parseChangelog repoName (reposBasePath (config this)) with
    | Ok repository =>
        match List.find (fun v => String.eqb (version v) versionName)
                        (versions repository) with
        | None =>
            errorResponse 404
              ("Version '" ++ versionName ++ "' not found in repository '"
               ++ repoName ++ "'")
              "VERSION_NOT_FOUND"
        | Some v =>
            let versionInfo :=
              {| vi_version := version v; vi_date := date v;
                 vi_changes := changes v |} in
            jsonResponse (createResponse (VersionInfoData versionInfo))
        end
    | Throw message =>
        errorResponse 500
          ("Failed to get version '" ++ versionName ++ "' for repository '"
           ++ repoName ++ "': " ++ message)
          "GET_VERSION_ERROR"
    end.

Definition handleGetLatestVersion (this : t) (repoName : string) : Response :=
  if negb (includes (repos (config this)) repoName) then notConfigured repoName
  else
    match ChangelogParser.parseChangelog repoName (reposBasePath (config this)) with
    | Ok repository =>
        match versions repository with
        | [] =>
            errorResponse 404
              ("No versions found in repository '" ++ repoName ++ "'")
              "NO_VERSIONS_FOUND"
        | latestVersion :: _ =>
            let versionInfo :=
              {| vi_version := version latestVersion; vi_date := date latestVersion;
                 vi_changes := changes latestVersion |} in
            jsonResponse (createResponse (VersionInfoData versionInfo))
        end
    | Throw message =>
        errorResponse 500
          ("Failed to get latest version for repository '" ++ repoName ++ "': "
           ++ message)
          "GET_LATEST_ERROR"
    end.

Section WithCache.
Context `{Collator} `{Calendar} `{Json} `{Storage}.
Local Open Scope cache_scope.

Definition handleGetSince (this : t) (cacheManager : CacheManager.t) (env : Env)
    (repoName : string) (sinceVersion customTitle : option string) : M Response :=
  tryCatch
    (if negb (includes (repos (config this)) repoName)
     then ret (notConfigured repoName)
     else if negb (ChangelogParser.validateRepository repoName
                     (reposBasePath (config this)))
     then ret (changelogNotFound repoName)
     else
       let! repository :=
         lift (ChangelogParser.parseChangelog repoName
                 (reposBasePath (config this))) in
       let respond : M Response :=
         let! diff :=
           ChangelogDiffUtils.createSinceDiff cacheManager env repository
             sinceVersion customTitle (withDates (config this)) in
         ret (markdownResponse (content diff)) in
       if negb (ChangelogDiffUtils.noVersion sinceVersion)
       then
         match ChangelogDiffUtils.findVersionInRepository repository
                 (default "" sinceVersion) with
         | None =>
             ret (errorResponse 404
                    ("Base version '" ++ default "" sinceVersion
                     ++ "' not found in repository '" ++ repoName ++ "'")
                    "VERSION_NOT_FOUND")
         | Some _ => respond
         end
       else respond)
    (fun message =>
       ret (errorResponse 500
              ("Failed to generate diff since '" ++ default "null" sinceVersion
               ++ "' for repository '" ++ repoName ++ "': " ++ message)
              "SINCE_DIFF_ERROR")).

Definition handleGetDiff (this : t) (cacheManager : CacheManager.t) (env : Env)
    (repoName version1 version2 : string) : M Response :=
  tryCatch
    (if negb (includes (repos (config this)) repoName)
     then ret (notConfigured repoName)
     else if negb (ChangelogParser.validateRepository repoName
                     (reposBasePath (config this)))
     then ret (changelogNotFound repoName)
     else if String.eqb version1 version2
     then ret (errorResponse 400
                 "Cannot generate diff between identical versions"
                 "IDENTICAL_VERSIONS")
     else
       let! repository :=
         lift (ChangelogParser.parseChangelog repoName
                 (reposBasePath (config this))) in
       let version1Exists :=
         ChangelogDiffUtils.findVersionInRepository repository version1 in
       let version2Exists :=
         ChangelogDiffUtils.findVersionInRepository repository version2 in
       match version1Exists, version2Exists with
       | None, _ =>
           ret (errorResponse 404
                  ("Version '" ++ version1 ++ "' not found in repository '"
                   ++ repoName ++ "'")
                  "VERSION_NOT_FOUND")
       | Some _, None =>
           ret (errorResponse 404
                  ("Version '" ++ version2 ++ "' not found in repository '"
                   ++ repoName ++ "'")
                  "VERSION_NOT_FOUND")
       | Some _, Some _ =>
           let! diff :=
             ChangelogDiffUtils.createRangeDiff cacheManager env repository
               version1 version2 (withDates (config this)) in
           ret (markdownResponse (content diff))
       end)
    (fun message =>
       ret (errorResponse 500
              ("Failed to generate diff between '" ++ version1 ++ "' and '"
               ++ version2 ++ "' for repository '" ++ repoName ++ "': " ++ message)
              "RANGE_DIFF_ERROR")).

(** [Object.entries(corsHeaders).forEach(([key, value]) =>
    response.headers.set(key, value))] *)
Definition withCorsHeaders (response : Response) : Response :=
  {| status := status response;
     headers := fold_left (fun hs kv => setHeader hs (fst kv) (snd kv))
                          corsHeaders (headers response);
     body := body response |}.

Definition invalidPath : Response :=
  errorResponse 404 "Invalid API path" "INVALID_PATH".

(** [titleParam || undefined] *)
Definition titleOrUndefined (titleParam : option string) : option string :=
  if ChangelogDiffUtils.truthy titleParam then titleParam else None.

(** The health check reads the statistics of the database file and the
    clock; it is a parameter here. *)
Definition handleRequest (this : t) (cacheManager : CacheManager.t) (env : Env)
    (handleHealthCheck : M Response) (request : Request) : M Response :=
  let path := pathname request in
  let method := method request in
  if String.eqb method "OPTIONS"
  then ret {| status := 200; headers := corsHeaders; body := NoBody |}
  else if negb (String.eqb method "GET")
  then ret {| status := 405;
              headers := (corsHeaders ++ jsonHeaders)%list;
              body := JsonBody (createErrorResponse
                                  ("Method " ++ method ++ " not allowed")
                                  (Some "METHOD_NOT_ALLOWED")) |}
  else
    let! response :=
      if String.eqb path "/health" then handleHealthCheck
      else if String.eqb path "/repos" then ret (handleGetRepos this)
      else if Str.startsWith path "/repos/" then
        let pathParts :=
          List.filter (fun part => negb (Str.isEmpty part)) (Str.split "/" path) in
        match pathParts with
        | [_; repoName] => ret (handleGetRepo this repoName)
        | [_; repoName; identifier] =>
            if String.eqb identifier "latest"
            then ret (handleGetLatestVersion this repoName)
            else if String.eqb identifier "since"
            then handleGetSince this cacheManager env repoName None
                   (titleOrUndefined (titleParam request))
            else ret (handleGetVersion this repoName identifier)
        | [_; repoName; operation; versionParam] =>
            if String.eqb operation "since"
            then handleGetSince this cacheManager env repoName (Some versionParam)
                   (titleOrUndefined (titleParam request))
            else ret invalidPath
        | [_; repoName; operation; version1; version2] =>
            if String.eqb operation "diff"
            then handleGetDiff this cacheManager env repoName version1 version2
            else ret invalidPath
        | _ => ret invalidPath
        end
      else ret (errorResponse 404 "API endpoint not found" "ENDPOINT_NOT_FOUND") in
    ret (withCorsHeaders response).

End WithCache.
End WithFileSystem.

End ChangelogServer.
(** * Properties *)

(** ** Running the definitions *)

Example parseVersion_suffix :
  VersionUtils.parseVersion "1.0.0-beta.1+build.123"
  = Some {| VersionUtils.major := Number.Finite 1; VersionUtils.minor := Number.Finite 0; VersionUtils.patch := Number.Finite 0 |}.
Proof. reflexivity. Qed.

Example parseVersion_rejects :
  VersionUtils.parseVersion "v1.0.0" = None
  /\ VersionUtils.parseVersion "1.0.0.0" = None
  /\ VersionUtils.parseVersion "1.0" = None.
Proof. repeat split; reflexivity. Qed.

Example parse_fixture :
  ChangelogParser.parseContent "r" "./r"
    (text ["# Changelog"; ""; "## [Unreleased]"; "### Added"; "- soon";
           "## [2.0.0] - 2024-01-01"; ""; "### Added"; "- New feature A";
           "* New feature B"; "### Changed"; "- Updated feature C";
           "## [1.0.0]"; "### Fixed"])
  = {| name := "r"; path := "./r";
       versions :=
         [ {| version := "2.0.0"; date := Some "2024-01-01";
              changes := {| added := Some [ {| description := "New feature A" |};
                                            {| description := "New feature B" |} ];
                            changed := Some [ {| description := "Updated feature C" |} ];
                            deprecated := None; removed := None;
                            fixed := None; security := None |} |};
           {| version := "1.0.0"; date := None;
              changes := {| added := None; changed := None; deprecated := None;
                            removed := None; fixed := Some []; security := None |} |} ];
       unreleased := Some {| added := Some [ {| description := "soon" |} ];
                             changed := None; deprecated := None; removed := None;
                             fixed := None; security := None |} |}.
Proof. reflexivity. Qed.

(** The cases of the repository's unit tests. *)
Example parseVersion_tests :
  VersionUtils.parseVersion "2.5.10"
  = Some {| VersionUtils.major := Number.Finite 2; VersionUtils.minor := Number.Finite 5; VersionUtils.patch := Number.Finite 10 |}
  /\ VersionUtils.parseVersion "1.0.0-alpha.1"
     = Some {| VersionUtils.major := Number.Finite 1; VersionUtils.minor := Number.Finite 0; VersionUtils.patch := Number.Finite 0 |}
  /\ VersionUtils.parseVersion "1.0.0+build.123"
     = Some {| VersionUtils.major := Number.Finite 1; VersionUtils.minor := Number.Finite 0; VersionUtils.patch := Number.Finite 0 |}
  /\ VersionUtils.parseVersion "invalid" = None.
Proof. repeat split; reflexivity. Qed.

Example compareVersions_tests `{Collator} :
  VersionUtils.compareVersions "1.0.0" "1.0.0" = Number.Finite 0
  /\ VersionUtils.compareVersions "1.0.1" "1.0.0" = Number.Finite 1
  /\ VersionUtils.compareVersions "1.0.0" "1.0.1" = Number.Finite (-1)
  /\ VersionUtils.compareVersions "1.1.0" "1.0.9" = Number.Finite 1
  /\ VersionUtils.compareVersions "2.0.0" "1.9.9" = Number.Finite 1.
Proof. repeat split; reflexivity. Qed.

Example compareVersions_fallback_tests :
  Number.ltb (@VersionUtils.compareVersions codeUnitCollator "invalid1" "invalid2")
             Number.zero = true
  /\ Number.ltb (@VersionUtils.compareVersions codeUnitCollator "v1.0.0" "v2.0.0")
                Number.zero = true.
Proof. split; reflexivity. Qed.

(** [parseInt] on numerals from 2^53 on: the nearest double, a tie going to
    the even significand, and [Infinity] from 2^1024 - 2^970 on. *)
Example parseInt10_rounds :
  Str.parseInt10 "9007199254740991" = Number.Finite 9007199254740991
  /\ Str.parseInt10 "9007199254740993" = Number.Finite 9007199254740992
  /\ Str.parseInt10 "9007199254740995" = Number.Finite 9007199254740996
  /\ Str.parseInt10 "18446744073709551615" = Number.Finite 18446744073709551616
  /\ Str.parseInt10 "123456789012345678901234567890"
     = Number.Finite 123456789012345677877719597056
  /\ Number.round (2 ^ 1024 - 2 ^ 970 - 1) = Number.Finite ((2 ^ 53 - 1) * 2 ^ 971)
  /\ Number.round (2 ^ 1024 - 2 ^ 970) = Number.Infinity false.
Proof. vm_compute. repeat split; reflexivity. Qed.

(** Numerals from 2^53 on are read as the nearest double: two labels that
    differ in such a numeral can compare equal. *)
Example compareVersions_rounds `{Collator} :
  Str.parseInt10 "9007199254740993" = Number.Finite 9007199254740992
  /\ VersionUtils.compareVersions "9007199254740993.0.0" "9007199254740992.0.0"
     = Number.Finite 0.
Proof. split; reflexivity. Qed.

Example isVersionInRange_tests `{Collator} :
  VersionUtils.isVersionInRange "1.1.0" "1.0.0" "2.0.0" = true
  /\ VersionUtils.isVersionInRange "1.0.0" "1.0.0" "2.0.0" = true
  /\ VersionUtils.isVersionInRange "2.0.0" "1.0.0" "2.0.0" = true
  /\ VersionUtils.isVersionInRange "0.9.0" "1.0.0" "2.0.0" = false
  /\ VersionUtils.isVersionInRange "2.1.0" "1.0.0" "2.0.0" = false
  /\ VersionUtils.isVersionInRange "1.5.0" "2.0.0" "1.0.0" = true.
Proof. repeat split; reflexivity. Qed.

Example sanitizeTitle_tests :
  TitleUtils.sanitizeTitle "" = ""
  /\ TitleUtils.sanitizeTitle
       "**Bold** _italic_ `code` ~strike~ [link] {brace} (paren)"
     = "Bold italic code strike link brace paren"
  /\ TitleUtils.sanitizeTitle
       "  **My#  Super*  Long   Title**   with special chars   "
     = "My Super Long Title with special chars"
  /\ TitleUtils.sanitizeTitle "**Dangerous** <script>Title</script>"
     = "Dangerous scriptTitle/script"
  /\ TitleUtils.sanitizeTitle "###***```~~~" = "".
Proof. repeat split; reflexivity. Qed.

(** The repository of the unit tests of the diff engine. *)
Example diff_tests `{Collator} `{Calendar} :
  let entry d := {| description := d |} in
  let mockRepository :=
    {| name := "test-repo"; path := "./non-existent-repo";
       versions :=
         [ {| version := "2.1.0"; date := Some "2024-01-15";
              changes := setSection
                           (setSection noChanges Added
                              [entry "Real-time notifications"])
                           Fixed [entry "Memory leak fix"] |};
           {| version := "2.0.0"; date := Some "2023-12-01";
              changes := setSection
                           (setSection
                              (setSection noChanges Added [entry "UI redesign"])
                              Changed [entry "API changes"])
                           Removed [entry "Legacy system"] |};
           {| version := "1.0.0"; date := Some "2023-10-01";
              changes := setSection noChanges Added [entry "Initial release"] |} ];
       unreleased := None |} in
  map version (ChangelogDiffUtils.filterVersionsSince mockRepository (Some "1.0.0"))
  = ["2.1.0"; "2.0.0"]
  /\ ChangelogDiffUtils.filterVersionsSince mockRepository (Some "2.1.0") = []
  /\ map version
       (ChangelogDiffUtils.filterVersionsBetween mockRepository "2.0.0" "1.0.0")
     = ["2.0.0"; "1.0.0"]
  /\ added (ChangelogDiffUtils.combineChangesWithVersions
              (firstn 2 (versions mockRepository)))
     = Some [ {| ev_description := "Real-time notifications";
                 ev_version := "2.1.0"; ev_date := Some "2024-01-15" |};
              {| ev_description := "UI redesign";
                 ev_version := "2.0.0"; ev_date := Some "2023-12-01" |} ]
  /\ content (ChangelogDiffUtils.formatMarkdownDiff "test-repo"
                (ChangelogDiffUtils.combineChangesWithVersions []) "T" false)
     = text ["# T"; ""; "No changes found in the specified version range."; ""].
Proof. repeat split; reflexivity. Qed.

(** ** The line loop of the parser *)

Section ParserFacts.
Import ChangelogParser.

Local Ltac ascii_cases c :=
  destruct c as [[] [] [] [] [] [] [] []]; try discriminate.

Lemma matchSectionHeader_shape t g :
  matchSectionHeader t = Some g ->
  exists r, t = String "#" (String "#" (String "#" r)).
Proof.
  destruct t as [|c1 [|c2 [|c3 r]]]; try discriminate;
    unfold matchSectionHeader.
  - ascii_cases c1.
  - ascii_cases c1. ascii_cases c2.
  - ascii_cases c1. ascii_cases c2. ascii_cases c3. eauto.
Qed.

Lemma section_header_is_no_version_header t g :
  matchSectionHeader t = Some g -> matchVersionHeader t = None.
Proof. intros [r ->]%matchSectionHeader_shape. reflexivity. Qed.

Lemma section_header_is_no_list_item t g :
  matchSectionHeader t = Some g -> matchListItem t = None.
Proof. intros [r ->]%matchSectionHeader_shape. reflexivity. Qed.

Lemma fold_step_app l1 l2 st :
  fold_left step (l1 ++ l2)%list st = fold_left step l2 (fold_left step l1 st).
Proof. apply fold_left_app. Qed.

End ParserFacts.

(** C1, as the code has it.  A section header whose name is none of the six
    categories leaves the variables of the loop as they are, the current
    section included: the lines after it are read as if the header were not
    there, so a list item that follows is filed under the section that was
    current before the header, and is dropped only when none was. *)
Theorem unrecognized_section_keeps_state
    (st : ChangelogParser.LoopState) (line n : string) :
  ChangelogParser.sectionName line = Some n ->
  ChangelogParser.validSection n = None ->
  ChangelogParser.step st line = st
  /\ forall rest,
       fold_left ChangelogParser.step (line :: rest) st
       = fold_left ChangelogParser.step rest st.
Proof.
  intros Hname Hbad.
  assert (Hstep : ChangelogParser.step st line = st).
  { unfold ChangelogParser.sectionName in Hname.
    destruct (ChangelogParser.matchSectionHeader (Str.trim line)) as [g|] eqn:Hsec;
      [|discriminate].
    injection Hname as <-.
    unfold ChangelogParser.step.
    destruct (matchSectionHeader_shape _ _ Hsec) as [r Hr].
    rewrite (section_header_is_no_version_header _ _ Hsec).
    rewrite (section_header_is_no_list_item _ _ Hsec).
    rewrite Hsec, Hbad, Hr. simpl.
    destruct (ChangelogParser.currentVersion st); reflexivity. }
  split; [exact Hstep|].
  intros rest. simpl. now rewrite Hstep.
Qed.

Lemma unrecognized_section_keeps_state_witness :
  let st := fold_left ChangelogParser.step ["## [1.0.0]"; "### Added"]
              (ChangelogParser.initial "r" "./r") in
  ChangelogParser.step st "### Notes" = st.
Proof.
  intros st.
  apply (unrecognized_section_keeps_state st "### Notes" "notes");
    reflexivity.
Defined.

(** C1, refuted as stated: after the unrecognized header [### Notes] the
    current section is still [Added], and the item below it is filed there. *)
Lemma unrecognized_section_not_unset :
  ChangelogParser.currentSection
    (fold_left ChangelogParser.step
       ["## [1.0.0]"; "### Added"; "- a"; "### Notes"]
       (ChangelogParser.initial "r" "./r")) = Some Added
  /\ ChangelogParser.parseContent "r" "./r"
       (text ["## [1.0.0]"; "### Added"; "- a"; "### Notes"; "- b"])
     = {| name := "r"; path := "./r";
          versions :=
            [ {| version := "1.0.0"; date := None;
                 changes := {| added := Some [ {| description := "a" |};
                                               {| description := "b" |} ];
                               changed := None; deprecated := None;
                               removed := None; fixed := None;
                               security := None |} |} ];
          unreleased := None |}.
Proof. split; reflexivity. Qed.

(** The cases of one iteration of the loop. *)
Ltac step_cases st line :=
  unfold ChangelogParser.step;
  destruct (Str.isEmpty (Str.trim line)) eqn:?;
  [ | destruct (ChangelogParser.matchVersionHeader (Str.trim line))
        as [[? [?|]]|] eqn:?;
      [ | | destruct (ChangelogParser.matchSectionHeader (Str.trim line))
              as [?|] eqn:?;
            destruct (ChangelogParser.currentVersion st) as [?|] eqn:?;
            try destruct (ChangelogParser.validSection _) as [?|] eqn:?;
            try destruct (ChangelogParser.matchListItem (Str.trim line))
                  as [?|] eqn:?;
            try destruct (ChangelogParser.currentSection st) as [?|] eqn:? ] ].

Section ParserBlocks.
Import ChangelogParser.

Lemma blank_is_no_header line :
  Str.isEmpty (Str.trim line) = true -> isVersionHeader line = false.
Proof.
  unfold isVersionHeader, headerLabel.
  destruct (Str.trim line); [reflexivity|discriminate].
Qed.

(** A version header closes the open block and opens a new one. *)
Lemma step_header st line l :
  headerLabel line = Some l ->
  step st line
  = {| repository := saveCurrent st;
       currentVersion := Some {| version := l; date := headerDate line;
                                 changes := noChanges |};
       currentSection := None;
       isUnreleased := String.eqb (Str.toLowerCase l) "unreleased" |}.
Proof.
  unfold headerLabel, headerDate, step.
  destruct (Str.trim line) as [|c t] eqn:Ht; [discriminate|].
  cbn [Str.isEmpty].
  destruct (matchVersionHeader (String c t)) as [[g1 [g2|]]|]; try discriminate;
    intros [= <-]; reflexivity.
Qed.

(** Any other line leaves the repository and [isUnreleased] alone, and what
    it does to the open block does not depend on them. *)
Lemma step_rebase st line r u :
  isVersionHeader line = false ->
  step (rebase st r u) line = rebase (step st line) r u.
Proof.
  unfold isVersionHeader, headerLabel. intros Hh.
  step_cases st line; try discriminate; cbn [rebase currentVersion currentSection];
    repeat match goal with H : _ = _ |- _ => rewrite H end; try reflexivity.
Qed.

Lemma rebase_self st : rebase st (repository st) (isUnreleased st) = st.
Proof. destruct st; reflexivity. Qed.

Lemma step_keeps_repository st line :
  isVersionHeader line = false ->
  repository (step st line) = repository st
  /\ isUnreleased (step st line) = isUnreleased st.
Proof.
  intros Hh. rewrite <- (rebase_self st) at 1 3.
  rewrite step_rebase by assumption. split; reflexivity.
Qed.

Lemma fold_rebase body st r u :
  Forall (fun l => isVersionHeader l = false) body ->
  fold_left step body (rebase st r u) = rebase (fold_left step body st) r u.
Proof.
  intros Hb. revert st. induction Hb as [|l body Hl _ IH]; intros st; simpl.
  - reflexivity.
  - rewrite step_rebase by assumption. apply IH.
Qed.

Lemma fold_keeps_repository body st :
  Forall (fun l => isVersionHeader l = false) body ->
  repository (fold_left step body st) = repository st
  /\ isUnreleased (fold_left step body st) = isUnreleased st.
Proof.
  intros Hb. rewrite <- (rebase_self st) at 1 3.
  rewrite fold_rebase by assumption. split; reflexivity.
Qed.

(** Inside a block the open version stays open, under its label. *)
Lemma step_keeps_open st line v :
  isVersionHeader line = false ->
  currentVersion st = Some v ->
  exists v', currentVersion (step st line) = Some v' /\ version v' = version v
             /\ date v' = date v.
Proof.
  unfold isVersionHeader, headerLabel. intros Hh Hv.
  step_cases st line; try discriminate; simplify_eq; cbn; eauto.
Qed.

Lemma fold_keeps_open body st v :
  Forall (fun l => isVersionHeader l = false) body ->
  currentVersion st = Some v ->
  exists v', currentVersion (fold_left step body st) = Some v'
             /\ version v' = version v /\ date v' = date v.
Proof.
  intros Hb. revert st v. induction Hb as [|l body Hl _ IH]; intros st v Hv; simpl.
  - eauto.
  - destruct (step_keeps_open st l v Hl Hv) as (v1 & H1 & H2 & H3).
    destruct (IH _ _ H1) as (v2 & ? & ? & ?).
    exists v2. repeat split; congruence.
Qed.

End ParserBlocks.

Section UnreleasedFacts.
Import ChangelogParser.

Lemma saveCurrent_marked st c :
  isUnreleased st = false ->
  saveCurrent (rebase st (setUnreleased (repository st) c) false)
  = setUnreleased (saveCurrent st) c.
Proof.
  intros Hu. unfold saveCurrent, rebase, setUnreleased. cbn.
  destruct (currentVersion st); rewrite ?Hu; reflexivity.
Qed.

Lemma unreleased_header_is_header line :
  isUnreleasedHeader line = true -> isVersionHeader line = true.
Proof.
  unfold isUnreleasedHeader, isVersionHeader.
  destruct (headerLabel line); [reflexivity|discriminate].
Qed.

(** Once [unreleased] is set and no block headed "unreleased" is open, lines
    other than such headers run as they would without it, and leave it. *)
Lemma step_marked st line c :
  isUnreleased st = false ->
  isUnreleasedHeader line = false ->
  step (rebase st (setUnreleased (repository st) c) false) line
  = rebase (step st line) (setUnreleased (repository (step st line)) c) false
  /\ isUnreleased (step st line) = false.
Proof.
  intros Hu Hl.
  destruct (headerLabel line) as [l|] eqn:Hh.
  - unfold isUnreleasedHeader in Hl. rewrite Hh in Hl.
    rewrite !(step_header _ _ _ Hh), Hl.
    rewrite saveCurrent_marked by assumption. split; reflexivity.
  - assert (Hn : isVersionHeader line = false)
      by (unfold isVersionHeader; now rewrite Hh).
    destruct (step_keeps_repository st line Hn) as [Hr Hi].
    rewrite step_rebase by assumption. rewrite Hr, Hi. split; [reflexivity|assumption].
Qed.

Lemma fold_marked ls st c :
  Forall (fun l => isUnreleasedHeader l = false) ls ->
  isUnreleased st = false ->
  fold_left step ls (rebase st (setUnreleased (repository st) c) false)
  = rebase (fold_left step ls st)
      (setUnreleased (repository (fold_left step ls st)) c) false
  /\ isUnreleased (fold_left step ls st) = false.
Proof.
  intros Hls. revert st. induction Hls as [|l ls Hl _ IH]; intros st Hu; simpl.
  - split; [reflexivity|assumption].
  - destruct (step_marked st l c Hu Hl) as [-> Hu'].
    apply IH. assumption.
Qed.

Lemma saveCurrent_kept_apart st :
  unreleasedKeptApart st ->
  Forall (fun v => Str.toLowerCase (version v) <> "unreleased")
         (versions (saveCurrent st)).
Proof.
  intros [Hvs Hcur]. unfold saveCurrent.
  destruct (currentVersion st) as [v|] eqn:Hv; [|assumption].
  specialize (Hcur v eq_refl).
  destruct (isUnreleased st); cbn; [assumption|].
  apply Forall_app. split; [assumption|].
  constructor; [|constructor].
  intros Heq. rewrite Heq in Hcur. discriminate.
Qed.

Lemma step_kept_apart st line :
  unreleasedKeptApart st -> unreleasedKeptApart (step st line).
Proof.
  intros Hinv.
  destruct (headerLabel line) as [l|] eqn:Hh.
  - rewrite (step_header _ _ _ Hh). split; cbn.
    + apply saveCurrent_kept_apart. assumption.
    + intros v [= <-]. reflexivity.
  - assert (Hn : isVersionHeader line = false)
      by (unfold isVersionHeader; now rewrite Hh).
    destruct (step_keeps_repository st line Hn) as [Hr Hi].
    destruct Hinv as [Hvs Hcur]. split.
    + rewrite Hr. assumption.
    + intros v' Hv'. rewrite Hi.
      destruct (currentVersion st) as [v|] eqn:Hv.
      * destruct (step_keeps_open st line v Hn Hv) as (v1 & H1 & H2 & _).
        rewrite Hv' in H1. injection H1 as <-. rewrite H2. apply Hcur. reflexivity.
      * exfalso. revert Hv'. unfold isVersionHeader, headerLabel in Hn.
        unfold step. rewrite Hv.
        destruct (Str.isEmpty (Str.trim line)); [congruence|].
        destruct (matchVersionHeader (Str.trim line)) as [[? ?]|]; [discriminate|].
        destruct (matchSectionHeader (Str.trim line));
          destruct (matchListItem (Str.trim line)); congruence.
Qed.

Lemma fold_kept_apart ls st :
  unreleasedKeptApart st -> unreleasedKeptApart (fold_left step ls st).
Proof.
  revert st. induction ls as [|l ls IH]; intros st Hinv; simpl; [assumption|].
  apply IH, step_kept_apart, Hinv.
Qed.

Lemma versions_never_unreleased n p lines :
  Forall (fun v => Str.toLowerCase (version v) <> "unreleased")
         (versions (parseLines n p lines)).
Proof.
  apply saveCurrent_kept_apart, fold_kept_apart.
  split; [constructor|]. intros v [=].
Qed.

(** The block headed "unreleased" that no other such block follows. *)
Lemma last_unreleased_block n p pre hdr body post :
  isUnreleasedHeader hdr = true ->
  Forall (fun l => isVersionHeader l = false) body ->
  blockEnds post = true ->
  Forall (fun l => isUnreleasedHeader l = false) post ->
  let r := parseLines n p (pre ++ hdr :: body ++ post) in
  unreleased r = unreleased (parseLines n p (hdr :: body))
  /\ is_Some (unreleased r)
  /\ versions r = versions (parseLines n p (pre ++ post)).
Proof.
  intros Hhdr Hbody Hends Hpost. cbv zeta.
  unfold parseLines. rewrite !fold_step_app. cbn [fold_left].
  set (s1 := fold_left step pre (initial n p)).
  unfold isUnreleasedHeader in Hhdr.
  destruct (headerLabel hdr) as [l|] eqn:Hl; [|discriminate].
  rewrite !(step_header _ _ _ Hl), Hhdr.
  set (v0 := {| version := l; date := headerDate hdr; changes := noChanges |}).
  set (alone := {| repository := saveCurrent (initial n p);
                   currentVersion := Some v0; currentSection := None;
                   isUnreleased := true |}).
  change {| repository := saveCurrent s1; currentVersion := Some v0;
            currentSection := None; isUnreleased := true |}
    with (rebase alone (saveCurrent s1) true).
  rewrite fold_step_app, fold_rebase by assumption.
  destruct (fold_keeps_open body alone v0 Hbody eq_refl) as (vB & HvB & _).
  destruct (fold_keeps_repository body alone Hbody) as [_ Hu].
  set (sB := fold_left step body alone) in *.
  cbn in Hu.
  assert (Halone : unreleased (saveCurrent sB) = Some (changes vB)).
  { unfold saveCurrent. rewrite HvB, Hu. reflexivity. }
  assert (Hsave : saveCurrent (rebase sB (saveCurrent s1) true)
                  = setUnreleased (saveCurrent s1) (changes vB)).
  { unfold saveCurrent at 1. cbn. rewrite HvB. reflexivity. }
  rewrite Halone.
  destruct post as [|h post'].
  - cbn [fold_left]. rewrite Hsave. cbn. eauto.
  - cbn in Hends. inversion Hpost as [|? ? Hh Hpost']; subst.
    cbn [fold_left].
    destruct (headerLabel h) as [l'|] eqn:Hl';
      [|unfold isVersionHeader in Hends; rewrite Hl' in Hends; discriminate].
    unfold isUnreleasedHeader in Hh. rewrite Hl' in Hh.
    rewrite !(step_header _ _ _ Hl'), Hh, Hsave.
    set (s2 := {| repository := saveCurrent s1;
                  currentVersion := Some {| version := l'; date := headerDate h;
                                            changes := noChanges |};
                  currentSection := None; isUnreleased := false |}).
    assert (Hs2 : {| repository := setUnreleased (saveCurrent s1) (changes vB);
                     currentVersion :=
                       Some {| version := l'; date := headerDate h;
                               changes := noChanges |};
                     currentSection := None; isUnreleased := false |}
                  = rebase s2 (setUnreleased (repository s2) (changes vB)) false)
      by reflexivity.
    rewrite Hs2.
    destruct (fold_marked post' s2 (changes vB) Hpost' eq_refl) as [-> Hu2].
    rewrite saveCurrent_marked by assumption. cbn. eauto.
Qed.

End UnreleasedFacts.

(** C6, as the code has it.  For every changelog text, no block whose label
    is "unreleased" (compared case-insensitively) is ever an element of
    [versions].  The [unreleased] field holds the changes of the last such
    block of the file, wherever that block stands: it is what parsing the
    block alone gives, and the versions are those of the file without the
    block.  An earlier such block is replaced by a later one. *)
Theorem unreleased_block_extracted
    (n p content : string) (pre : list string) (hdr : string)
    (body post : list string) :
  Str.splitLines content = (pre ++ hdr :: body ++ post)%list ->
  ChangelogParser.isUnreleasedHeader hdr = true ->
  Forall (fun l => ChangelogParser.isVersionHeader l = false) body ->
  ChangelogParser.blockEnds post = true ->
  Forall (fun l => ChangelogParser.isUnreleasedHeader l = false) post ->
  let r := ChangelogParser.parseContent n p content in
  unreleased r = unreleased (ChangelogParser.parseLines n p (hdr :: body))
  /\ is_Some (unreleased r)
  /\ versions r = versions (ChangelogParser.parseLines n p (pre ++ post))
  /\ Forall (fun v => Str.toLowerCase (version v) <> "unreleased") (versions r).
Proof.
  intros Hsplit Hhdr Hbody Hends Hpost r. subst r.
  unfold ChangelogParser.parseContent. rewrite Hsplit.
  destruct (last_unreleased_block n p pre hdr body post Hhdr Hbody Hends Hpost)
    as (H1 & H2 & H3).
  repeat split; try assumption.
  apply versions_never_unreleased.
Qed.

Lemma unreleased_block_extracted_witness :
  let r := ChangelogParser.parseContent "r" "./r"
             (text ["## [2.0.0] - 2024-01-01"; "### Fixed"; "- f";
                    "## [Unreleased]"; "### Added"; "- soon";
                    "## [1.0.0]"; "### Added"; "- first"]) in
  unreleased r
  = Some {| added := Some [ {| description := "soon" |} ]; changed := None;
            deprecated := None; removed := None; fixed := None;
            security := None |}
  /\ map version (versions r) = ["2.0.0"; "1.0.0"].
Proof.
  intros r.
  destruct (unreleased_block_extracted "r" "./r"
              (text ["## [2.0.0] - 2024-01-01"; "### Fixed"; "- f";
                     "## [Unreleased]"; "### Added"; "- soon";
                     "## [1.0.0]"; "### Added"; "- first"])
              ["## [2.0.0] - 2024-01-01"; "### Fixed"; "- f"]
              "## [Unreleased]" ["### Added"; "- soon"]
              ["## [1.0.0]"; "### Added"; "- first"])
    as (H1 & _ & H3 & _).
  - reflexivity.
  - reflexivity.
  - repeat constructor.
  - reflexivity.
  - repeat constructor.
  - fold r in H1, H3. rewrite H1, H3. split; reflexivity.
Defined.

(** C6, refuted as stated: of two blocks headed "unreleased" the first is
    stored neither in [unreleased], which holds the second, nor anywhere
    else; its entry is lost. *)
Lemma earlier_unreleased_block_replaced :
  ChangelogParser.parseContent "r" "./r"
    (text ["## [Unreleased]"; "### Added"; "- a"; "## [unreleased]"])
  = {| name := "r"; path := "./r"; versions := [];
       unreleased := Some noChanges |}.
Proof. reflexivity. Qed.

(** The example of C6: one block headed [Unreleased] with one bullet under
    [### Added]. *)
Example unreleased_example :
  let r := ChangelogParser.parseContent "r" "./r"
             (text ["## [Unreleased]"; "### Added"; "- one"; "## [1.0.0]"]) in
  option_map (fun c => option_map (@length _) (added c)) (unreleased r)
  = Some (Some 1%nat)
  /\ map version (versions r) = ["1.0.0"].
Proof. split; reflexivity. Qed.

(** ** Sections of a change-set *)

Lemma getSection_setSection {E} (c : Changes E) k l :
  getSection (setSection c k l) k = Some l.
Proof. destruct k; reflexivity. Qed.

Lemma getSection_setSection_ne {E} (c : Changes E) k k' l :
  k <> k' -> getSection (setSection c k' l) k = getSection c k.
Proof. destruct k, k'; intros Hne; try reflexivity; congruence. Qed.

Lemma getSection_ensure_ne c k k' :
  k <> k' ->
  getSection (ChangelogParser.ensureSection c k') k = getSection c k.
Proof.
  intros Hne. unfold ChangelogParser.ensureSection.
  destruct (getSection c k'); [reflexivity|].
  now apply getSection_setSection_ne.
Qed.

Lemma getSection_ensure c k :
  getSection (ChangelogParser.ensureSection c k) k
  = Some (default [] (getSection c k)).
Proof.
  unfold ChangelogParser.ensureSection.
  destruct (getSection c k) eqn:Hk; cbn; [assumption|].
  apply getSection_setSection.
Qed.

Lemma getSection_push_ne c k k' e :
  k <> k' ->
  getSection (ChangelogParser.pushEntry c k' e) k = getSection c k.
Proof.
  intros Hne. unfold ChangelogParser.pushEntry.
  destruct (getSection c k'); now apply getSection_setSection_ne.
Qed.

Section BareHeaderFacts.
Import ChangelogParser.

Lemma besides_no_header k line :
  besides k line = true -> isVersionHeader line = false.
Proof. unfold besides. now intros [?%negb_true_iff _]%andb_true_iff. Qed.

Lemma besides_other_section k line :
  besides k line = true -> sectionOf line <> Some k.
Proof.
  unfold besides. intros [_ H%negb_true_iff]%andb_true_iff.
  now apply bool_decide_eq_false in H.
Qed.

Lemma sectionOf_no_header line k :
  sectionOf line = Some k -> isVersionHeader line = false.
Proof.
  unfold sectionOf, sectionName, isVersionHeader, headerLabel.
  destruct (matchSectionHeader (Str.trim line)) as [g|] eqn:Hs; [|discriminate].
  now rewrite (section_header_is_no_version_header _ _ Hs).
Qed.

Lemma inert_no_header line : inert line = true -> isVersionHeader line = false.
Proof.
  unfold inert.
  now intros [[?%negb_true_iff _]%andb_true_iff _]%andb_true_iff.
Qed.

(** A line that activates nothing and files nothing changes nothing. *)
Lemma step_inert st line : inert line = true -> step st line = st.
Proof.
  unfold inert, isVersionHeader, isListItem, sectionOf, sectionName, headerLabel.
  intros [[H1%negb_true_iff H2%negb_true_iff]%andb_true_iff
          H3%negb_true_iff]%andb_true_iff.
  apply bool_decide_eq_false in H3.
  step_cases st line; try reflexivity; try discriminate;
    repeat match goal with H : _ = _ |- _ => rewrite H in * end;
    try discriminate; try reflexivity.
  all: exfalso; apply H3; eauto.
Qed.

Lemma fold_inert ls st :
  Forall (fun l => inert l = true) ls -> fold_left step ls st = st.
Proof.
  intros H. induction H as [|l ls Hl _ IH]; simpl; [reflexivity|].
  now rewrite step_inert.
Qed.

(** Lines besides [k] leave what is filed under [k] as it is. *)
Lemma step_filedAside k l c st line :
  besides k line = true ->
  filedAside k l c st -> filedAside k l c (step st line).
Proof.
  intros Hb (v & Hv & Hl & Hc & Hs).
  pose proof (besides_no_header _ _ Hb) as Hh.
  pose proof (besides_other_section _ _ Hb) as Ho.
  unfold isVersionHeader, headerLabel in Hh.
  unfold sectionOf, sectionName in Ho.
  unfold filedAside.
  step_cases st line; try discriminate; simplify_eq; cbn;
    try (exists v; repeat split; assumption).
  all: eexists; repeat split; cbn; try reflexivity;
    rewrite ?getSection_push_ne, ?getSection_ensure_ne by congruence;
    try assumption; congruence.
Qed.

Lemma fold_filedAside k l c ls st :
  Forall (fun x => besides k x = true) ls ->
  filedAside k l c st -> filedAside k l c (fold_left step ls st).
Proof.
  intros H. revert st. induction H as [|x ls Hx _ IH]; intros st Hst; simpl.
  - assumption.
  - apply IH. now apply step_filedAside.
Qed.

(** The header of [k] makes the key present; nothing is filed yet when it
    was absent. *)
Lemma step_section st line k v :
  sectionOf line = Some k ->
  currentVersion st = Some v ->
  step st line
  = {| repository := repository st;
       currentVersion := Some (withChanges v (ensureSection (changes v) k));
       currentSection := Some k;
       isUnreleased := isUnreleased st |}.
Proof.
  unfold sectionOf, sectionName. intros Hs Hv.
  destruct (matchSectionHeader (Str.trim line)) as [g|] eqn:Hm; [|discriminate].
  unfold step.
  destruct (matchSectionHeader_shape _ _ Hm) as [r Hr].
  rewrite (section_header_is_no_version_header _ _ Hm), Hm, Hv, Hs, Hr.
  reflexivity.
Qed.

(** Versions are only ever appended. *)
Lemma saveCurrent_keeps_versions st v :
  In v (versions (repository st)) -> In v (versions (saveCurrent st)).
Proof.
  unfold saveCurrent. destruct (currentVersion st); [|auto].
  destruct (isUnreleased st); cbn; [auto|]. intros. apply in_or_app. auto.
Qed.

Lemma step_keeps_versions st line v :
  In v (versions (repository st)) -> In v (versions (repository (step st line))).
Proof.
  intros Hin.
  destruct (headerLabel line) as [l|] eqn:Hh.
  - rewrite (step_header _ _ _ Hh). cbn. now apply saveCurrent_keeps_versions.
  - assert (Hn : isVersionHeader line = false)
      by (unfold isVersionHeader; now rewrite Hh).
    destruct (step_keeps_repository st line Hn) as [-> _]. assumption.
Qed.

Lemma fold_keeps_versions ls st v :
  In v (versions (repository st)) ->
  In v (versions (repository (fold_left step ls st))).
Proof.
  revert st. induction ls as [|l ls IH]; intros st Hin; simpl; [assumption|].
  apply IH. now apply step_keeps_versions.
Qed.

(** A block that is not headed "unreleased" ends up among the versions. *)
Lemma closed_block_is_a_version post st v :
  currentVersion st = Some v ->
  isUnreleased st = false ->
  blockEnds post = true ->
  In v (versions (saveCurrent (fold_left step post st))).
Proof.
  intros Hv Hu Hends.
  assert (Hsave : In v (versions (saveCurrent st))).
  { unfold saveCurrent. rewrite Hv, Hu. cbn. apply in_or_app. right. now left. }
  destruct post as [|h post']; [exact Hsave|].
  cbn in Hends. unfold isVersionHeader in Hends.
  destruct (headerLabel h) as [l|] eqn:Hh; [|discriminate].
  cbn [fold_left]. rewrite (step_header _ _ _ Hh).
  apply saveCurrent_keeps_versions, fold_keeps_versions. exact Hsave.
Qed.

End BareHeaderFacts.

(** ** Combining versions *)

Section CombineFacts.
Import ChangelogDiffUtils.

(** A category is a key of the combined changes exactly when some version
    has an entry for it, and then holds all of them in order. *)
Lemma getSection_combine vs k :
  getSection (combineChangesWithVersions vs) k
  = match entriesOf k vs with [] => None | es => Some es end.
Proof.
  unfold combineChangesWithVersions, sections. cbn [fold_left].
  unfold combineSection.
  destruct k;
    destruct (entriesOf Added vs), (entriesOf Changed vs),
             (entriesOf Deprecated vs), (entriesOf Removed vs),
             (entriesOf Fixed vs), (entriesOf Security vs);
    reflexivity.
Qed.

Lemma entriesOf_app k vs1 vs2 :
  entriesOf k (vs1 ++ vs2)%list = (entriesOf k vs1 ++ entriesOf k vs2)%list.
Proof. apply flat_map_app. Qed.

Lemma entriesOfVersion_empty k v :
  getSection (changes v) k = Some [] \/ getSection (changes v) k = None ->
  entriesOfVersion k v = [].
Proof. unfold entriesOfVersion. intros [-> | ->]; reflexivity. Qed.

(** A version without entries in a category adds nothing to it. *)
Lemma combine_skips_empty k v vs1 vs2 :
  entriesOfVersion k v = [] ->
  getSection (combineChangesWithVersions (vs1 ++ v :: vs2)) k
  = getSection (combineChangesWithVersions (vs1 ++ vs2)) k.
Proof.
  intros He. rewrite !getSection_combine, !entriesOf_app.
  cbn [entriesOf flat_map]. now rewrite He.
Qed.

(** The combined changes never hold a category with an empty list. *)
Lemma combine_never_empty vs k :
  getSection (combineChangesWithVersions vs) k <> Some [].
Proof. rewrite getSection_combine. destruct (entriesOf k vs); discriminate. Qed.

End CombineFacts.

(** C10, as the code has it.  In every changelog text, take a version block
    not headed "unreleased" in which the header of a recognized category [k]
    stands once, with no list item between it and the next header of a
    recognized category, the next version header or the end.  The parsed
    version has the key [k], bound to the empty list.  Combining versions
    gives a category no key unless some version has an entry for it; this
    version has none, so the result for [k] is the same with and without
    it. *)
Theorem bare_section_header
    (n p content : string) (pre : list string) (hdr l : string)
    (body1 : list string) (sec : string) (k : SectionKey)
    (quiet rest post : list string) :
  Str.splitLines content
  = (pre ++ hdr :: body1 ++ sec :: quiet ++ rest ++ post)%list ->
  ChangelogParser.headerLabel hdr = Some l ->
  Str.toLowerCase l <> "unreleased" ->
  Forall (fun x => ChangelogParser.besides k x = true) body1 ->
  ChangelogParser.sectionOf sec = Some k ->
  Forall (fun x => ChangelogParser.inert x = true) quiet ->
  ChangelogParser.sectionOpens rest = true ->
  Forall (fun x => ChangelogParser.besides k x = true) rest ->
  ChangelogParser.blockEnds post = true ->
  exists v,
    In v (versions (ChangelogParser.parseContent n p content))
    /\ version v = l
    /\ getSection (changes v) k = Some []
    /\ getSection (ChangelogDiffUtils.combineChangesWithVersions [v]) k = None
    /\ forall vs1 vs2,
         getSection (ChangelogDiffUtils.combineChangesWithVersions
                       (vs1 ++ v :: vs2)) k
         = getSection (ChangelogDiffUtils.combineChangesWithVersions
                         (vs1 ++ vs2)) k.
Proof.
  intros Hsplit Hl Hrel Hb1 Hsec Hquiet Hopens Hrest Hends.
  unfold ChangelogParser.parseContent, ChangelogParser.parseLines.
  rewrite Hsplit. rewrite fold_step_app. cbn [fold_left].
  rewrite (step_header _ _ _ Hl).
  apply String.eqb_neq in Hrel. rewrite Hrel.
  set (s1 := fold_left ChangelogParser.step pre (ChangelogParser.initial n p)).
  set (sH := {| ChangelogParser.repository := ChangelogParser.saveCurrent s1;
                ChangelogParser.currentVersion :=
                  Some {| version := l; date := ChangelogParser.headerDate hdr;
                          changes := noChanges |};
                ChangelogParser.currentSection := None;
                ChangelogParser.isUnreleased := false |}).
  (* the lines of the block are no version headers *)
  assert (Hbody : Forall (fun x => ChangelogParser.isVersionHeader x = false)
                         (body1 ++ sec :: quiet ++ rest)%list).
  { apply Forall_app. split.
    - eapply Forall_impl; [exact Hb1|]. intros x. apply besides_no_header.
    - constructor; [now apply (sectionOf_no_header _ k)|].
      apply Forall_app. split.
      + eapply Forall_impl; [exact Hquiet|]. intros x. apply inert_no_header.
      + eapply Forall_impl; [exact Hrest|]. intros x. apply besides_no_header. }
  replace (body1 ++ sec :: quiet ++ rest ++ post)%list
    with ((body1 ++ sec :: quiet ++ rest) ++ post)%list
    by (rewrite <- !app_assoc; cbn; now rewrite <- app_assoc).
  rewrite fold_step_app.
  destruct (fold_keeps_repository _ sH Hbody) as [_ Hu]. cbn in Hu.
  (* what is filed under [k] in the block *)
  assert (Hfiled : exists v,
            ChangelogParser.currentVersion
              (fold_left ChangelogParser.step (body1 ++ sec :: quiet ++ rest) sH)
            = Some v /\ version v = l /\ getSection (changes v) k = Some []).
  { rewrite fold_step_app. cbn [fold_left].
    assert (H0 : ChangelogParser.filedAside k l None sH).
    { exists {| version := l; date := ChangelogParser.headerDate hdr;
                changes := noChanges |}.
      repeat split; try reflexivity.
      - destruct k; reflexivity.
      - discriminate. }
    destruct (fold_filedAside k l None body1 sH Hb1 H0) as (v1 & Hv1 & Hl1 & Hc1 & _).
    rewrite (step_section _ _ _ _ Hsec Hv1).
    rewrite fold_step_app, (fold_inert quiet) by assumption.
    destruct rest as [|x rest'].
    - cbn. eexists. repeat split; cbn; [assumption|].
      rewrite getSection_ensure, Hc1. reflexivity.
    - cbn in Hopens. apply bool_decide_eq_true in Hopens.
      destruct Hopens as [k' Hk'].
      apply Forall_cons in Hrest as [Hx Hrest'].
      pose proof (besides_other_section _ _ Hx) as Hne.
      cbn [fold_left].
      erewrite step_section by (try exact Hk'; reflexivity).
      match goal with
      | |- context [fold_left _ rest' ?s] =>
          assert (H1 : ChangelogParser.filedAside k l (Some []) s)
      end.
      { eexists. repeat split; cbn; try reflexivity; try assumption.
        - rewrite getSection_ensure_ne by congruence.
          rewrite getSection_ensure, Hc1. reflexivity.
        - congruence. }
      destruct (fold_filedAside k l (Some []) rest' _ Hrest' H1)
        as (v2 & Hv2 & Hl2 & Hc2 & _).
      eauto. }
  destruct Hfiled as (v & Hv & Hlv & Hc).
  exists v. repeat split; try assumption.
  - now apply closed_block_is_a_version.
  - rewrite getSection_combine. cbn.
    rewrite entriesOfVersion_empty by now left. reflexivity.
  - intros vs1 vs2. apply combine_skips_empty, entriesOfVersion_empty. now left.
Qed.

Lemma bare_section_header_witness :
  exists v,
    In v (versions (ChangelogParser.parseContent "r" "./r"
            (text ["# Changelog"; "## [2.0.0]"; "### Fixed"; "- f";
                   "### Added"; ""; "### Notes"; "### Changed"; "- c";
                   "## [1.0.0]"])))
    /\ version v = "2.0.0"
    /\ getSection (changes v) Added = Some [].
Proof.
  destruct (bare_section_header "r" "./r"
              (text ["# Changelog"; "## [2.0.0]"; "### Fixed"; "- f";
                     "### Added"; ""; "### Notes"; "### Changed"; "- c";
                     "## [1.0.0]"])
              ["# Changelog"] "## [2.0.0]" "2.0.0" ["### Fixed"; "- f"]
              "### Added" Added [""; "### Notes"] ["### Changed"; "- c"]
              ["## [1.0.0]"])
    as (v & H1 & H2 & H3 & _).
  - reflexivity.
  - reflexivity.
  - discriminate.
  - repeat constructor.
  - reflexivity.
  - repeat constructor.
  - reflexivity.
  - repeat constructor.
  - reflexivity.
  - exists v. auto.
Defined.

(** C10, refuted as stated: the second [### Added] header is followed by no
    list item, yet [added] is bound to the entry filed under the first one,
    and combining keeps the category. *)
Lemma bare_header_after_items :
  let r := ChangelogParser.parseContent "r" "./r"
             (text ["## [1.0.0]"; "### Added"; "- a"; "### Added"]) in
  r = {| name := "r"; path := "./r";
         versions :=
           [ {| version := "1.0.0"; date := None;
                changes := {| added := Some [ {| description := "a" |} ];
                              changed := None; deprecated := None;
                              removed := None; fixed := None;
                              security := None |} |} ];
         unreleased := None |}
  /\ getSection (ChangelogDiffUtils.combineChangesWithVersions (versions r)) Added
     = Some [ {| ev_description := "a"; ev_version := "1.0.0"; ev_date := None |} ].
Proof. split; reflexivity. Qed.

(** ** Trimming *)

Lemma all_trimStart s :
  Str.all Str.isWhiteSpace (Str.trimStart s) = Str.all Str.isWhiteSpace s.
Proof.
  induction s as [|c r IH]; cbn; [reflexivity|].
  destruct (Str.isWhiteSpace c) eqn:Hc; cbn; [assumption|now rewrite Hc].
Qed.

Lemma isEmpty_trimEnd s :
  Str.isEmpty (Str.trimEnd s) = Str.all Str.isWhiteSpace s.
Proof.
  induction s as [|c r IH]; cbn; [reflexivity|].
  rewrite <- IH.
  destruct (Str.isWhiteSpace c), (Str.isEmpty (Str.trimEnd r)); reflexivity.
Qed.

(** A string trims to the empty string exactly when it is white space only. *)
Lemma isEmpty_trim s : Str.isEmpty (Str.trim s) = Str.all Str.isWhiteSpace s.
Proof. unfold Str.trim. now rewrite isEmpty_trimEnd, all_trimStart. Qed.

Lemma noVersion_Some s :
  ChangelogDiffUtils.noVersion (Some s) = Str.all Str.isWhiteSpace s.
Proof.
  unfold ChangelogDiffUtils.noVersion. rewrite isEmpty_trim.
  destruct s; reflexivity.
Qed.

(** ** Numbers *)

Section NumberFacts.
Import Number.

Lemma round_small z : Z.abs z < 2 ^ 53 -> round z = Finite z.
Proof.
  intros Hz. unfold round.
  destruct (Z.ltb_spec (Z.abs z) (2 ^ 53)); [reflexivity|lia].
Qed.

(** Rounding keeps the sign, and only zero rounds to zero. *)
Lemma round_compare_zero z : compare (round z) zero = Some (z ?= 0).
Proof.
  unfold round, zero.
  destruct (Z.ltb_spec (Z.abs z) (2 ^ 53)) as [Hs|Hl]; [reflexivity|].
  cbv zeta.
  set (a := Z.abs z) in *. set (e := Z.log2 a - 52).
  assert (Ha : 0 < a) by lia.
  assert (He : 0 < e).
  { assert (53 <= Z.log2 a) by (apply Z.log2_le_pow2; lia). unfold e. lia. }
  assert (Hq : 0 < a / 2 ^ e).
  { apply Z.div_str_pos. split; [apply Z.pow_pos_nonneg; lia|].
    transitivity (2 ^ Z.log2 a); [apply Z.pow_le_mono_r; unfold e; lia|].
    apply Z.log2_spec. assumption. }
  set (q := a / 2 ^ e) in *.
  set (q' := if (2 ^ (e - 1) <? a mod 2 ^ e)
                || ((a mod 2 ^ e =? 2 ^ (e - 1)) && Z.odd q)
             then q + 1 else q).
  assert (Hq' : 0 < q') by (unfold q'; destruct (_ || _); lia).
  assert (Hm : 0 < q' * 2 ^ e)
    by (apply Z.mul_pos_pos; [assumption|apply Z.pow_pos_nonneg; lia]).
  assert (Hz : z <> 0) by (unfold a in Ha; lia).
  destruct (Z.leb_spec (2 ^ 1024) (q' * 2 ^ e)).
  - cbn. destruct (Z.ltb_spec z 0), (Z.compare_spec z 0); try reflexivity; lia.
  - cbn [compare].
    destruct (Z.compare_spec z 0) as [Hz0|Hz0|Hz0]; [contradiction| |].
    + rewrite (Z.sgn_neg z) by assumption.
      apply f_equal, Z.compare_lt_iff. lia.
    + rewrite (Z.sgn_pos z) by assumption.
      apply f_equal, Z.compare_gt_iff. lia.
Qed.

Lemma round_opp z : round (- z) = opp (round z).
Proof.
  unfold round. rewrite Z.abs_opp.
  destruct (Z.abs z <? 2 ^ 53) eqn:Hs; [reflexivity|]. cbv zeta.
  apply Z.ltb_ge in Hs.
  assert (Hz : z <> 0) by lia.
  match goal with
  | |- context [if ?c then Infinity _ else _] => destruct c
  end; cbn [opp].
  - f_equal. destruct (Z.ltb_spec (- z) 0), (Z.ltb_spec z 0); cbn; try reflexivity; lia.
  - f_equal. rewrite Z.sgn_opp. lia.
Qed.

Lemma number_compare_opp a :
  compare (opp a) zero = CompOpp <$> compare a zero.
Proof.
  destruct a as [|[]|z]; cbn; try reflexivity.
  f_equal. destruct (Z.compare_spec z 0), (Z.compare_spec (- z) 0);
    cbn; try reflexivity; lia.
Qed.

Lemma number_sub_opp a b : sub b a = opp (sub a b).
Proof.
  destruct a as [|[]|x], b as [|[]|y]; cbn; try reflexivity.
  rewrite <- round_opp. f_equal. lia.
Qed.

Lemma number_eqb_eq a b : eqb a b = true -> a = b.
Proof.
  destruct a as [|[]|x], b as [|[]|y]; cbn; try discriminate; try reflexivity.
  unfold eqb. cbn. destruct (Z.compare_spec x y); try discriminate.
  now intros _; subst.
Qed.

Lemma number_eqb_sym a b : eqb a b = eqb b a.
Proof.
  destruct a as [|[]|x], b as [|[]|y]; cbn; try reflexivity.
  unfold eqb. cbn. rewrite (Z.compare_antisym x y).
  destruct (x ?= y); reflexivity.
Qed.

(** The sign of a difference of two different numbers is how they compare. *)
Lemma number_compare_sub a b :
  eqb a b = false -> compare (sub a b) zero = compare a b.
Proof.
  destruct a as [|[]|x], b as [|[]|y]; cbn; try reflexivity; try discriminate.
  intros _. rewrite round_compare_zero. f_equal. symmetry. apply Z.compare_sub.
Qed.

(** The difference of two equal numbers is zero, or NaN for infinities. *)
Lemma number_sub_diag a : sub a a = if isFinite a then zero else NaN.
Proof. destruct a as [|[]|x]; cbn; try reflexivity. now rewrite Z.sub_diag. Qed.

Lemma number_compare_refl a : compare a a = if a is NaN then None else Some Eq.
Proof. destruct a as [|[]|x]; cbn; try reflexivity. now rewrite Z.compare_refl. Qed.

Lemma number_compare_antisym a b : compare b a = CompOpp <$> compare a b.
Proof.
  destruct a as [|[]|x], b as [|[]|y]; cbn; try reflexivity.
  now rewrite (Z.compare_antisym x y).
Qed.

Lemma round_not_NaN z : round z <> NaN.
Proof.
  unfold round. destruct (Z.abs z <? 2 ^ 53); [discriminate|]. cbv zeta.
  match goal with
  | |- context [if ?c then Infinity _ else _] => destruct c
  end; discriminate.
Qed.

(** Two numbers, none of them NaN, are the same or one is below the other. *)
Lemma number_compare_apart a b :
  a <> NaN -> b <> NaN -> eqb a b = false ->
  compare a b = Some Lt \/ compare a b = Some Gt.
Proof.
  unfold eqb. destruct a as [|[]|x], b as [|[]|y]; cbn; try contradiction; auto;
    try discriminate.
  destruct (x ?= y); auto. discriminate.
Qed.

End NumberFacts.

(** ** The version comparator *)

Section ComparatorFacts.
Import VersionUtils.
Context `{Collator}.

Lemma compareVersions_parsed a b va vb :
  parseVersion a = Some va -> parseVersion b = Some vb ->
  compareVersions a b
  = if negb (Number.eqb (major va) (major vb))
    then Number.sub (major va) (major vb)
    else if negb (Number.eqb (minor va) (minor vb))
    then Number.sub (minor va) (minor vb)
    else Number.sub (patch va) (patch vb).
Proof. intros Ha Hb. unfold compareVersions. now rewrite Ha, Hb. Qed.

(** Swapping the arguments of [compareVersions] flips the sign; NaN stays
    NaN. *)
Lemma compareVersions_antisym `{!CollatorAntisym} a b :
  Number.compare (compareVersions b a) Number.zero
  = CompOpp <$> Number.compare (compareVersions a b) Number.zero.
Proof.
  unfold compareVersions.
  destruct (parseVersion a) as [va|], (parseVersion b) as [vb|].
  2-4: rewrite !round_compare_zero; cbn; f_equal;
       pose proof (localeCompare_antisym a b) as Hs;
       destruct (Z.compare_spec (localeCompare a b) 0),
                (Z.compare_spec (localeCompare b a) 0); cbn; try reflexivity; lia.
  rewrite (number_eqb_sym (major vb)), (number_eqb_sym (minor vb)).
  destruct (Number.eqb (major va) (major vb)); cbn [negb];
    [|rewrite number_sub_opp; apply number_compare_opp].
  destruct (Number.eqb (minor va) (minor vb)); cbn [negb];
    rewrite number_sub_opp; apply number_compare_opp.
Qed.

(** The bounds are put in the same order whichever way they are given, as
    long as one of them compares below the other. *)
Lemma range_bounds_swap `{!CollatorAntisym} lo hi :
  Number.ltb (compareVersions lo hi) Number.zero
  || Number.gtb (compareVersions lo hi) Number.zero = true ->
  Number.leb (compareVersions lo hi) Number.zero
  = negb (Number.leb (compareVersions hi lo) Number.zero).
Proof.
  unfold Number.ltb, Number.gtb, Number.leb.
  rewrite (compareVersions_antisym lo hi).
  destruct (Number.compare (compareVersions lo hi) Number.zero) as [[]|];
    cbn; (reflexivity || discriminate).
Qed.

(** The numbers of a label that parses are never NaN. *)
Lemma parseVersion_numbers s v :
  parseVersion s = Some v ->
  major v <> Number.NaN /\ minor v <> Number.NaN /\ patch v <> Number.NaN.
Proof.
  unfold parseVersion, numberDot.
  destruct (Str.span Str.isDigit s) as [[|d ds] [|c r1]]; try discriminate.
  destruct c as [[] [] [] [] [] [] [] []]; try discriminate.
  destruct (Str.span Str.isDigit r1) as [[|d2 ds2] [|c2 r2]]; try discriminate.
  destruct c2 as [[] [] [] [] [] [] [] []]; try discriminate.
  destruct (Str.span Str.isDigit r2) as [[|d3 ds3] r3]; try discriminate.
  destruct (suffixOk r3); [|discriminate].
  intros [= <-]. cbn. repeat split; apply round_not_NaN.
Qed.

(** Bounds that parse and of which none compares below the other stand for
    the same triple. *)
Lemma compareVersions_tie_parsed v lo hi vv vlo vhi :
  parseVersion v = Some vv -> parseVersion lo = Some vlo ->
  parseVersion hi = Some vhi ->
  Number.ltb (compareVersions lo hi) Number.zero
  || Number.gtb (compareVersions lo hi) Number.zero = false ->
  compareVersions v lo = compareVersions v hi.
Proof.
  intros Hv Hlo Hhi.
  destruct (parseVersion_numbers lo vlo Hlo) as (Nma & Nmi & Npa).
  destruct (parseVersion_numbers hi vhi Hhi) as (Nma' & Nmi' & Npa').
  rewrite (compareVersions_parsed _ _ _ _ Hlo Hhi),
          (compareVersions_parsed _ _ _ _ Hv Hlo),
          (compareVersions_parsed _ _ _ _ Hv Hhi).
  assert (Hapart : forall a b, a <> Number.NaN -> b <> Number.NaN ->
            Number.eqb a b = false ->
            Number.ltb (Number.sub a b) Number.zero
            || Number.gtb (Number.sub a b) Number.zero = false -> False).
  { intros a b Ha Hb Hab. unfold Number.ltb, Number.gtb.
    rewrite (number_compare_sub _ _ Hab).
    destruct (number_compare_apart a b Ha Hb Hab) as [-> | ->]; discriminate. }
  destruct (Number.eqb (major vlo) (major vhi)) eqn:Ema; cbn [negb];
    [|intros Hc; destruct (Hapart _ _ Nma Nma' Ema Hc)].
  destruct (Number.eqb (minor vlo) (minor vhi)) eqn:Emi; cbn [negb];
    [|intros Hc; destruct (Hapart _ _ Nmi Nmi' Emi Hc)].
  destruct (Number.eqb (patch vlo) (patch vhi)) eqn:Epa;
    [|intros Hc; destruct (Hapart _ _ Npa Npa' Epa Hc)].
  intros _. apply number_eqb_eq in Ema, Emi, Epa. now rewrite Ema, Emi, Epa.
Qed.

End ComparatorFacts.

Lemma codeUnitCompare_antisym a b :
  Z.sgn (codeUnitCompare b a) = - Z.sgn (codeUnitCompare a b).
Proof.
  revert b. induction a as [|x a IH]; intros [|y b]; cbn; try reflexivity.
  destruct (N.ltb_spec (Str.code x) (Str.code y)),
           (N.ltb_spec (Str.code y) (Str.code x)); try reflexivity; try lia.
  apply IH.
Qed.

(** C9.  Without a version (null, the empty string, or white space only)
    [filterVersionsSince] gives back every version in the stored order; with
    any other argument it gives exactly the versions newer than it, in their
    stored order, whether or not the argument is a label of the file: with
    the labels 2.1.0, 2.0.0, 1.5.2, 1.0.0 and the boundary 1.5.1, which is
    none of them, the first three. *)
Theorem filterVersionsSince_spec `{Collator}
    (repo : Repository) (n p : string) (u : option VersionChanges)
    (d : string -> option string) (c : string -> VersionChanges) :
  ChangelogDiffUtils.filterVersionsSince repo None = versions repo
  /\ ChangelogDiffUtils.filterVersionsSince repo (Some "") = versions repo
  /\ (forall s,
        ChangelogDiffUtils.filterVersionsSince repo (Some s)
        = if Str.all Str.isWhiteSpace s then versions repo
          else List.filter
                 (fun v => VersionUtils.isVersionNewer (version v) s)
                 (versions repo))
  /\ map version
       (ChangelogDiffUtils.filterVersionsSince
          {| name := n; path := p;
             versions :=
               map (fun l => {| version := l; date := d l; changes := c l |})
                   ["2.1.0"; "2.0.0"; "1.5.2"; "1.0.0"];
             unreleased := u |}
          (Some "1.5.1"))
     = ["2.1.0"; "2.0.0"; "1.5.2"].
Proof.
  assert (Hgen : forall s,
            ChangelogDiffUtils.filterVersionsSince repo (Some s)
            = if Str.all Str.isWhiteSpace s then versions repo
              else List.filter
                     (fun v => VersionUtils.isVersionNewer (version v) s)
                     (versions repo)).
  { intros s. unfold ChangelogDiffUtils.filterVersionsSince.
    now rewrite noVersion_Some. }
  split; [reflexivity|].
  split; [apply (Hgen "")|].
  split; [exact Hgen|].
  reflexivity.
Qed.

(** When the order of the bounds does not matter.  [isVersionInRange v lo hi]
    equals [isVersionInRange v hi lo] for all strings, parsing as version
    triples or not, whenever one bound compares below the other, the string
    comparison of the fallback being antisymmetric in sign; and also when
    [v], [lo] and [hi] all parse as version triples. *)
Lemma isVersionInRange_symmetric `{Collator} `{!CollatorAntisym}
    (v lo hi : string) :
  Number.ltb (VersionUtils.compareVersions lo hi) Number.zero
  || Number.gtb (VersionUtils.compareVersions lo hi) Number.zero = true
  \/ (is_Some (VersionUtils.parseVersion v)
      /\ is_Some (VersionUtils.parseVersion lo)
      /\ is_Some (VersionUtils.parseVersion hi)) ->
  VersionUtils.isVersionInRange v lo hi = VersionUtils.isVersionInRange v hi lo.
Proof.
  intros Hcase. unfold VersionUtils.isVersionInRange.
  destruct (Number.ltb (VersionUtils.compareVersions lo hi) Number.zero
            || Number.gtb (VersionUtils.compareVersions lo hi) Number.zero)
    eqn:Hord.
  - rewrite (range_bounds_swap lo hi Hord).
    destruct (Number.leb (VersionUtils.compareVersions hi lo) Number.zero);
      reflexivity.
  - destruct Hcase as [Hne|([vv Hv] & [vlo Hlo] & [vhi Hhi])]; [discriminate|].
    pose proof (compareVersions_tie_parsed v lo hi _ _ _ Hv Hlo Hhi Hord) as Hsame.
    destruct (Number.leb (VersionUtils.compareVersions lo hi) Number.zero),
             (Number.leb (VersionUtils.compareVersions hi lo) Number.zero);
      cbv zeta; rewrite ?Hsame; reflexivity.
Qed.

(** Under any collation: bounds that parse and compare equal, and a label
    that does not parse and sorts between them as a string, are told apart
    by the order of the bounds. *)
Lemma isVersionInRange_between_tied_bounds `{Collator} (v lo hi : string) :
  VersionUtils.parseVersion v = None ->
  VersionUtils.compareVersions lo hi = Number.zero ->
  VersionUtils.compareVersions hi lo = Number.zero ->
  localeCompare v lo > 0 ->
  localeCompare v hi < 0 ->
  VersionUtils.isVersionInRange v lo hi = true
  /\ VersionUtils.isVersionInRange v hi lo = false.
Proof.
  intros Hv Htie Htie' Hlo Hhi.
  unfold VersionUtils.isVersionInRange. rewrite Htie, Htie'. cbn.
  unfold VersionUtils.compareVersions. rewrite Hv.
  unfold Number.geb, Number.leb. rewrite !round_compare_zero.
  destruct (Z.compare_spec (localeCompare v lo) 0),
           (Z.compare_spec (localeCompare v hi) 0);
    first [split; reflexivity | exfalso; lia].
Qed.

(** C4 at its failing inputs.  Bounds that compare equal are taken in the
    order given, and a label that does not parse is compared with each of
    them as a string.  [1.0.0] and [1.0.0-rc.1] parse to the same triple, and
    the label [1.0.0 LTS] sorts between them: it is in the range in one order
    of the bounds and not in the other, and so the versions selected between
    the two labels, both of them labels of the file, depend on the order in
    which they are given.  The same with [01.0.0], [1.0.0] and [0x], and with
    two numerals that are read as the same double. *)
Theorem isVersionInRange_not_symmetric :
  @VersionUtils.isVersionInRange codeUnitCollator
    "1.0.0 LTS" "1.0.0" "1.0.0-rc.1" = true
  /\ @VersionUtils.isVersionInRange codeUnitCollator
       "1.0.0 LTS" "1.0.0-rc.1" "1.0.0" = false
  /\ map version
       (@ChangelogDiffUtils.filterVersionsBetween codeUnitCollator
          (ChangelogParser.parseContent "r" "./r"
             (text ["## [1.0.0 LTS]"; "### Fixed"; "- c";
                    "## [1.0.0]"; "### Added"; "- b";
                    "## [1.0.0-rc.1]"; "### Added"; "- a"]))
          "1.0.0" "1.0.0-rc.1")
     = ["1.0.0 LTS"; "1.0.0"; "1.0.0-rc.1"]
  /\ map version
       (@ChangelogDiffUtils.filterVersionsBetween codeUnitCollator
          (ChangelogParser.parseContent "r" "./r"
             (text ["## [1.0.0 LTS]"; "### Fixed"; "- c";
                    "## [1.0.0]"; "### Added"; "- b";
                    "## [1.0.0-rc.1]"; "### Added"; "- a"]))
          "1.0.0-rc.1" "1.0.0")
     = ["1.0.0"; "1.0.0-rc.1"]
  /\ @VersionUtils.isVersionInRange codeUnitCollator "0x" "01.0.0" "1.0.0" = true
  /\ @VersionUtils.isVersionInRange codeUnitCollator "0x" "1.0.0" "01.0.0" = false
  /\ @VersionUtils.isVersionInRange codeUnitCollator
       "9007199254740992.5" "9007199254740993.0.0" "9007199254740992.0.0" = false
  /\ @VersionUtils.isVersionInRange codeUnitCollator
       "9007199254740992.5" "9007199254740992.0.0" "9007199254740993.0.0" = true.
Proof. vm_compute. repeat split; reflexivity. Qed.

(** Numerals too large for a double are read as [Infinity], and the
    difference of two of them is NaN, which is neither below nor above zero:
    two such bounds are taken in the order opposite to the one given, and a
    label that does not parse and sorts between them as a string is in the
    range in one order of the bounds and not in the other. *)
Example isVersionInRange_with_infinite_numbers :
  Str.parseInt10 (Str.repeat "8" 309) = Number.Infinity false
  /\ @VersionUtils.compareVersions codeUnitCollator
       ("1.0." ++ Str.repeat "8" 309) ("1.0." ++ Str.repeat "9" 309)
     = Number.NaN
  /\ @VersionUtils.isVersionInRange codeUnitCollator "1.0.9 "
       ("1.0." ++ Str.repeat "8" 309) ("1.0." ++ Str.repeat "9" 309) = false
  /\ @VersionUtils.isVersionInRange codeUnitCollator "1.0.9 "
       ("1.0." ++ Str.repeat "9" 309) ("1.0." ++ Str.repeat "8" 309) = true.
Proof. vm_compute. repeat split; reflexivity. Qed.

(** ** The cache *)

Section CacheOutcomes.
Context `{Json} `{Storage}.

(** [get] and [set] return: whatever is thrown inside is caught. *)
Lemma get_returns this env repo repoPath operation params db :
  exists r db',
    CacheManager.get this env repo repoPath operation params db = (Ok r, db').
Proof.
  unfold CacheManager.get.
  destruct (negb (CacheManager.enabled this) || negb (CacheManager.hasDb this));
    [unfold ret; eauto|].
  unfold tryCatch.
  match goal with |- context [match ?b db with _ => _ end] => destruct (b db) as [[r|e] db'] end;
    unfold ret; eauto.
Qed.

Lemma set_returns this env repo repoPath operation params data db :
  exists db',
    CacheManager.set this env repo repoPath operation params data db = (Ok tt, db').
Proof.
  unfold CacheManager.set.
  destruct (negb (CacheManager.enabled this) || negb (CacheManager.hasDb this));
    [unfold ret; eauto|].
  unfold tryCatch.
  match goal with |- context [match ?b db with _ => _ end] => destruct (b db) as [[[]|e] db'] end;
    unfold ret; eauto.
Qed.

(** An unreadable file: [get] misses and [set] does nothing. *)
Lemma get_unreadable this env repo repoPath operation params db :
  CacheManager.getFileMtime env repoPath = None ->
  CacheManager.get this env repo repoPath operation params db = (Ok None, db).
Proof.
  intros Hm. unfold CacheManager.get. rewrite Hm.
  destruct (negb (CacheManager.enabled this) || negb (CacheManager.hasDb this));
    reflexivity.
Qed.

Lemma set_unreadable this env repo repoPath operation params data db :
  CacheManager.getFileMtime env repoPath = None ->
  CacheManager.set this env repo repoPath operation params data db = (Ok tt, db).
Proof.
  intros Hm. unfold CacheManager.set. rewrite Hm.
  destruct (negb (CacheManager.enabled this) || negb (CacheManager.hasDb this));
    reflexivity.
Qed.

(** A lookup that throws is a miss; an insertion that throws is dropped. *)
Lemma get_storage_failure this env repo repoPath operation params db m e db' :
  CacheManager.getFileMtime env repoPath = Some m ->
  selectByKey (CacheManager.generateCacheKey repo m operation params) db
  = (Throw e, db') ->
  exists db'',
    CacheManager.get this env repo repoPath operation params db = (Ok None, db'').
Proof.
  intros Hm Hsel. unfold CacheManager.get.
  destruct (negb (CacheManager.enabled this) || negb (CacheManager.hasDb this));
    [unfold ret; eauto|].
  unfold tryCatch, bind. rewrite Hm, Hsel. unfold ret. eauto.
Qed.

Lemma set_serialization_failure this env repo repoPath operation params data db e :
  JSON_stringify data = Throw e ->
  CacheManager.set this env repo repoPath operation params data db = (Ok tt, db).
Proof.
  intros Hs. unfold CacheManager.set.
  destruct (negb (CacheManager.enabled this) || negb (CacheManager.hasDb this));
    [reflexivity|].
  unfold tryCatch, bind, lift, ret. rewrite Hs.
  destruct (CacheManager.getFileMtime env repoPath); reflexivity.
Qed.

End CacheOutcomes.

Lemma length_append (a b : string) :
  String.length (a ++ b) = (String.length a + String.length b)%nat.
Proof.
  induction a as [|x a IH]; [reflexivity|].
  change (String x a ++ b) with (String x (a ++ b)). cbn. now rewrite IH.
Qed.

(** Right cancellation for strings. *)
Lemma append_inv_tail (a b t : string) : a ++ t = b ++ t -> a = b.
Proof.
  intros Heq.
  assert (Hl : String.length a = String.length b).
  { apply (f_equal String.length) in Heq.
    rewrite !length_append in Heq. lia. }
  revert b Heq Hl. induction a as [|x a IH]; intros [|y b] Heq Hl;
    try discriminate; [reflexivity|].
  change (String x (a ++ t) = String y (b ++ t)) in Heq.
  injection Heq as -> Heq. f_equal. apply IH; [assumption|].
  cbn in Hl. lia.
Qed.

(** The key tells modification times apart. *)
Lemma generateCacheKey_mtime repo m1 m2 operation params :
  CacheManager.generateCacheKey repo m1 operation params
  = CacheManager.generateCacheKey repo m2 operation params ->
  m1 = m2.
Proof.
  unfold CacheManager.generateCacheKey. intros Heq.
  apply String.app_inj in Heq.
  change ("_" ++ pretty m1 ++ "_" ++ operation ++ "_" ++ params)
    with (String "_" (pretty m1 ++ "_" ++ operation ++ "_" ++ params)) in Heq.
  change ("_" ++ pretty m2 ++ "_" ++ operation ++ "_" ++ params)
    with (String "_" (pretty m2 ++ "_" ++ operation ++ "_" ++ params)) in Heq.
  injection Heq as Heq.
  apply append_inv_tail in Heq. now apply (inj pretty) in Heq.
Qed.

Section MemoryCache.
Context `{Json} `{!JsonRoundTrip}.
#[local] Existing Instance memoryStorage.

Lemma selectByKey_memory k (db : gmap string Row) :
  selectByKey k db = (Ok (rowObject <$> db !! k), db).
Proof. reflexivity. Qed.

(** On the reference database, [set] stores the row under the derived key. *)
Lemma set_stores this env repo repoPath operation params data m
    (db : gmap string Row) :
  CacheManager.enabled this = true -> CacheManager.hasDb this = true ->
  CacheManager.getFileMtime env repoPath = Some m ->
  exists t,
    JSON_parse t = Ok data
    /\ CacheManager.set this env repo repoPath operation params data db
       = (Ok tt,
          <[CacheManager.generateCacheKey repo m operation params :=
              {| key := CacheManager.generateCacheKey repo m operation params;
                 repo := repo; file_mtime := m; data := t;
                 created_at := now env |}]> db).
Proof.
  intros He Hd Hm. destruct (json_round_trip data) as (t & Hs & Hp).
  exists t. split; [assumption|].
  unfold CacheManager.set, tryCatch, bind, lift, ret.
  rewrite He, Hd, Hm, Hs. reflexivity.
Qed.

(** A row found under the key is served, whatever its age: the row object
    has no property [createdAt]. *)
Lemma get_serves this env repo repoPath operation params m r d
    (db : gmap string Row) :
  CacheManager.enabled this = true -> CacheManager.hasDb this = true ->
  CacheManager.getFileMtime env repoPath = Some m ->
  db !! CacheManager.generateCacheKey repo m operation params = Some r ->
  JSON_parse (data r) = Ok d ->
  CacheManager.get this env repo repoPath operation params db = (Ok (Some d), db).
Proof.
  intros He Hd Hm Hr Hp.
  unfold CacheManager.get, tryCatch, bind, lift, ret.
  rewrite He, Hd, Hm. cbn [negb orb]. cbv beta zeta.
  rewrite (selectByKey_memory
             (CacheManager.generateCacheKey repo m operation params) db), Hr.
  cbn. rewrite Hp. reflexivity.
Qed.

Lemma get_misses this env repo repoPath operation params m
    (db : gmap string Row) :
  CacheManager.getFileMtime env repoPath = Some m ->
  db !! CacheManager.generateCacheKey repo m operation params = None ->
  CacheManager.get this env repo repoPath operation params db = (Ok None, db).
Proof.
  intros Hm Hr. unfold CacheManager.get, tryCatch, bind, lift, ret.
  destruct (negb (CacheManager.enabled this) || negb (CacheManager.hasDb this));
    [reflexivity|].
  rewrite Hm. cbv beta zeta.
  rewrite (selectByKey_memory
             (CacheManager.generateCacheKey repo m operation params) db), Hr.
  reflexivity.
Qed.

End MemoryCache.

(** C7, as the code has it.  With the cache enabled, a database that does not
    fail and a readable source file: a [get] with the arguments of the
    preceding [set], the file unchanged and the age of the record within the
    time to live, returns the payload written.  After a [set], a [get] with
    the same repository, operation and parameters made when the file has
    another modification time misses, provided the database held no record
    under the key of that modification time (one written when the file had
    it before). *)
Theorem cache_round_trip_and_invalidation `{Json} `{!JsonRoundTrip}
    (this : CacheManager.t) (written read : Env)
    (repo repoPath operation params : string)
    (data : VersionChangesWithVersion) (m : Z) (db : gmap string Row) :
  CacheManager.enabled this = true -> CacheManager.hasDb this = true ->
  fileMtime written repoPath = Some m ->
  fileMtime read repoPath = Some m ->
  now read - now written <= CacheManager.ttlMs this ->
  let db1 :=
    snd (@CacheManager.set _ memoryStorage this written repo repoPath
           operation params data db) in
  @CacheManager.get _ memoryStorage this read repo repoPath operation params db1
  = (Ok (Some data), db1)
  /\ forall (changed : Env) (m' : Z),
       fileMtime changed repoPath = Some m' -> m' <> m ->
       db !! CacheManager.generateCacheKey repo m' operation params = None ->
       @CacheManager.get _ memoryStorage this changed repo repoPath operation
         params db1
       = (Ok None, db1).
Proof.
  intros He Hd Hw Hr Hage db1.
  destruct (set_stores this written repo repoPath operation params data m db
              He Hd Hw) as (t & Hp & Hset).
  subst db1. rewrite Hset. cbn [snd]. split.
  - eapply get_serves; try eassumption.
    + apply lookup_insert_eq.
    + exact Hp.
  - intros changed m' Hc Hne Hfresh.
    eapply get_misses; [eassumption|].
    rewrite lookup_insert_ne; [assumption|].
    intros Heq. apply generateCacheKey_mtime in Heq. congruence.
Qed.

Lemma idealJson_round_trip : @JsonRoundTrip idealJson.
Proof. intros d. exists d. split; reflexivity. Qed.

Lemma cache_round_trip_and_invalidation_witness :
  let cm := {| CacheManager.enabled := true; CacheManager.hasDb := true;
               CacheManager.ttlMs := 3600000 |} in
  let db1 :=
    snd (@CacheManager.set idealJson memoryStorage cm (envAt 100 0)
           "test-repo" "./test-cache-repo" "since" "1.0.0"
           (samplePayload "2.0.0") ∅) in
  @CacheManager.get idealJson memoryStorage cm (envAt 100 5)
    "test-repo" "./test-cache-repo" "since" "1.0.0" db1
  = (Ok (Some (samplePayload "2.0.0")), db1)
  /\ @CacheManager.get idealJson memoryStorage cm (envAt 200 5)
       "test-repo" "./test-cache-repo" "since" "1.0.0" db1
     = (Ok None, db1).
Proof.
  intros cm db1.
  destruct (@cache_round_trip_and_invalidation idealJson idealJson_round_trip
              cm (envAt 100 0) (envAt 100 5)
              "test-repo" "./test-cache-repo" "since" "1.0.0"
              (samplePayload "2.0.0") 100 ∅)
    as [Hhit Hmiss].
  - reflexivity.
  - reflexivity.
  - reflexivity.
  - reflexivity.
  - cbn. lia.
  - split; [exact Hhit|].
    apply (Hmiss (envAt 200 5) 200); [reflexivity|lia|reflexivity].
Defined.

(** C7, refuted as stated.  A change of the modification time does not by
    itself make the [get] miss.  First, a record is written while the file
    has modification time 200, another after the file changed to 100; the
    file then changes back to 200, and the [get] that follows the last [set]
    returns the first payload.  Second, with modification times that only
    grow: the repository [app_200_since], whose file has modification time
    300, wrote a record under the parameters [x]; the repository [app] writes
    one under the parameters [300_since_x] while its file has modification
    time 100; its file then changes to 200, and the [get] that follows
    returns the payload of the other repository, whose key is the same. *)
Lemma get_hits_when_mtime_returns :
  let cm := {| CacheManager.enabled := true; CacheManager.hasDb := true;
               CacheManager.ttlMs := 3600000 |} in
  let db1 :=
    snd (@CacheManager.set idealJson memoryStorage cm (envAt 200 0)
           "test-repo" "./test-cache-repo" "since" "1.0.0"
           (samplePayload "first") ∅) in
  let db2 :=
    snd (@CacheManager.set idealJson memoryStorage cm (envAt 100 1)
           "test-repo" "./test-cache-repo" "since" "1.0.0"
           (samplePayload "second") db1) in
  let before (t : Z) : Env :=
    {| fileMtime := fun p => if String.eqb p "./app" then Some 100 else Some 300;
       now := t |} in
  let after (t : Z) : Env :=
    {| fileMtime := fun p => if String.eqb p "./app" then Some 200 else Some 300;
       now := t |} in
  let db3 :=
    snd (@CacheManager.set idealJson memoryStorage cm (before 0)
           "app_200_since" "./app_200_since" "since" "x"
           (samplePayload "other") ∅) in
  let db4 :=
    snd (@CacheManager.set idealJson memoryStorage cm (before 1)
           "app" "./app" "since" "300_since_x"
           (samplePayload "own") db3) in
  @CacheManager.get idealJson memoryStorage cm (envAt 200 2)
    "test-repo" "./test-cache-repo" "since" "1.0.0" db2
  = (Ok (Some (samplePayload "first")), db2)
  /\ @CacheManager.get idealJson memoryStorage cm (after 2)
       "app" "./app" "since" "300_since_x" db4
     = (Ok (Some (samplePayload "other")), db4).
Proof. vm_compute. split; reflexivity. Qed.

(** C8 at its failing input.  A record written at time 0 is looked up at
    time 5000 with a time to live of 1000: its age exceeds the time to live,
    yet [get] returns its payload and leaves it in the database.  The row
    object carries the creation time under [created_at]; [createdAt], which
    the check reads, is undefined, and the comparison with NaN is false. *)
Theorem expired_record_is_served :
  let cm := {| CacheManager.enabled := true; CacheManager.hasDb := true;
               CacheManager.ttlMs := 1000 |} in
  let db1 :=
    snd (@CacheManager.set idealJson memoryStorage cm (envAt 100 0)
           "test-repo" "./test-cache-repo" "since" "1.0.0"
           (samplePayload "2.0.0") ∅) in
  (created_at <$> db1 !! CacheManager.generateCacheKey "test-repo" 100 "since" "1.0.0")
  = Some 0
  /\ (5000 - 0 >? CacheManager.ttlMs cm) = true
  /\ @CacheManager.get idealJson memoryStorage cm (envAt 100 5000)
       "test-repo" "./test-cache-repo" "since" "1.0.0" db1
     = (Ok (Some (samplePayload "2.0.0")), db1).
Proof. vm_compute. repeat split; reflexivity. Qed.

(** ** The cached diffs *)

Section DiffOutcomes.
Import ChangelogDiffUtils.
Context `{Collator} `{Calendar} `{Json} `{Storage}.

(** The title of a since-diff, case by case. *)
Lemma sinceTitle_cases sinceVersion customTitle :
  sinceTitle sinceVersion customTitle
  = if truthy customTitle
       && negb (Str.isEmpty (TitleUtils.sanitizeTitle (default "" customTitle)))
    then TitleUtils.sanitizeTitle (default "" customTitle)
    else if noVersion sinceVersion && negb (truthy customTitle)
         then "Complete Changelog"
         else "New updates!".
Proof.
  unfold sinceTitle.
  destruct (truthy customTitle), (noVersion sinceVersion); cbn;
    destruct (Str.isEmpty (TitleUtils.sanitizeTitle (default "" customTitle)));
    reflexivity.
Qed.

(** [createSinceDiff] returns, with the title [sinceTitle] resolves. *)
Lemma createSinceDiff_returns cm env repository sinceVersion customTitle withDates db :
  exists d db',
    createSinceDiff cm env repository sinceVersion customTitle withDates db
    = (Ok d, db')
    /\ title d = sinceTitle sinceVersion customTitle.
Proof.
  unfold createSinceDiff, bind.
  destruct (get_returns cm env (name repository) (path repository) "since"
              (sinceCacheKey sinceVersion) db) as (r & db1 & ->).
  destruct r as [c|].
  - unfold ret. eexists _, _. split; reflexivity.
  - destruct (set_returns cm env (name repository) (path repository) "since"
                (sinceCacheKey sinceVersion)
                (combineChangesWithVersions
                   (filterVersionsSince repository sinceVersion)) db1)
      as (db2 & ->).
    unfold ret. eexists _, _. split; reflexivity.
Qed.

(** [createRangeDiff] returns, with the bounds in the order [rangeMin] and
    [rangeMax] put them. *)
Lemma createRangeDiff_returns cm env repository version1 version2 withDates db :
  exists d db',
    createRangeDiff cm env repository version1 version2 withDates db
    = (Ok d, db')
    /\ title d = rangeTitle repository version1 version2
    /\ fromVersion d = Some (rangeMin version1 version2)
    /\ toVersion d = Some (rangeMax version1 version2).
Proof.
  unfold createRangeDiff, bind.
  destruct (get_returns cm env (name repository) (path repository) "diff"
              (rangeCacheKey version1 version2) db) as (r & db1 & ->).
  destruct r as [c|].
  - unfold ret. eexists _, _. repeat split; reflexivity.
  - destruct (set_returns cm env (name repository) (path repository) "diff"
                (rangeCacheKey version1 version2)
                (combineChangesWithVersions
                   (filterVersionsBetween repository version1 version2)) db1)
      as (db2 & ->).
    unfold ret. eexists _, _. repeat split; reflexivity.
Qed.

End DiffOutcomes.

(** Bounds of which one compares below the other are put in the same order
    whichever way they are given: the same key and the same title. *)
Lemma range_bounds_order_independent `{Collator} `{!CollatorAntisym}
    (repository : Repository) (version1 version2 : string) :
  Number.ltb (VersionUtils.compareVersions version1 version2) Number.zero
  || Number.gtb (VersionUtils.compareVersions version1 version2) Number.zero
  = true ->
  ChangelogDiffUtils.rangeMin version1 version2
  = ChangelogDiffUtils.rangeMin version2 version1
  /\ ChangelogDiffUtils.rangeMax version1 version2
     = ChangelogDiffUtils.rangeMax version2 version1
  /\ ChangelogDiffUtils.rangeCacheKey version1 version2
     = ChangelogDiffUtils.rangeCacheKey version2 version1
  /\ ChangelogDiffUtils.rangeTitle repository version1 version2
     = ChangelogDiffUtils.rangeTitle repository version2 version1.
Proof.
  intros Hne.
  assert (Hmin : ChangelogDiffUtils.rangeMin version1 version2
                 = ChangelogDiffUtils.rangeMin version2 version1).
  { unfold ChangelogDiffUtils.rangeMin.
    rewrite (range_bounds_swap version1 version2 Hne).
    destruct (Number.leb (VersionUtils.compareVersions version2 version1)
                         Number.zero); reflexivity. }
  assert (Hmax : ChangelogDiffUtils.rangeMax version1 version2
                 = ChangelogDiffUtils.rangeMax version2 version1).
  { unfold ChangelogDiffUtils.rangeMax.
    rewrite (range_bounds_swap version1 version2 Hne).
    destruct (Number.leb (VersionUtils.compareVersions version2 version1)
                         Number.zero); reflexivity. }
  unfold ChangelogDiffUtils.rangeCacheKey, ChangelogDiffUtils.rangeTitle.
  rewrite Hmin, Hmax. repeat split; reflexivity.
Qed.

(** The title of a since-diff, for every input.  [createSinceDiff] always
    returns, and its title is: the sanitized custom title, if a custom title
    is given and something is left of it after sanitization; otherwise
    "Complete Changelog", if no since version is given (null or blank) and no
    custom title is given either (absent or the empty string); otherwise
    "New updates!". *)
Lemma since_title_resolution
    `{Collator} `{Calendar} `{Json} `{Storage}
    (cm : CacheManager.t) (env : Env) (repository : Repository)
    (sinceVersion customTitle : option string) (withDates : bool)
    (db : Database) :
  exists d db',
    ChangelogDiffUtils.createSinceDiff cm env repository sinceVersion
      customTitle withDates db = (Ok d, db')
    /\ title d
       = if ChangelogDiffUtils.truthy customTitle
            && negb (Str.isEmpty
                       (TitleUtils.sanitizeTitle (default "" customTitle)))
         then TitleUtils.sanitizeTitle (default "" customTitle)
         else if ChangelogDiffUtils.noVersion sinceVersion
                 && negb (ChangelogDiffUtils.truthy customTitle)
              then "Complete Changelog"
              else "New updates!".
Proof.
  destruct (createSinceDiff_returns cm env repository sinceVersion customTitle
              withDates db) as (d & db' & Hd & Ht).
  exists d, db'. split; [assumption|].
  rewrite Ht. apply sinceTitle_cases.
Qed.

(** C3 at its failing input.  Nothing is left of the custom title [***###]
    after sanitization and no since version is given (null, or white space
    only): the title is "New updates!", where the request without a custom
    title is titled "Complete Changelog".  With a since version the unusable
    title gives the title of the request without a custom title; without one
    it does not, because the fallback to the title of the complete changelog
    is guarded by the custom title as given, not as sanitized. *)
Theorem unusable_title_on_complete_changelog :
  TitleUtils.sanitizeTitle "***###" = ""
  /\ ChangelogDiffUtils.sinceTitle None None = "Complete Changelog"
  /\ ChangelogDiffUtils.sinceTitle None (Some "***###") = "New updates!"
  /\ ChangelogDiffUtils.sinceTitle (Some "   ") (Some "***###") = "New updates!"
  /\ ChangelogDiffUtils.sinceTitle (Some "1.0.0") (Some "***###")
     = ChangelogDiffUtils.sinceTitle (Some "1.0.0") None
  /\ title <$>
       (match fst (@ChangelogDiffUtils.createSinceDiff codeUnitCollator
                     noCalendar idealJson memoryStorage
                     {| CacheManager.enabled := true; CacheManager.hasDb := true;
                        CacheManager.ttlMs := 3600000 |}
                     (envAt 100 0)
                     (ChangelogParser.parseContent "r" "./r"
                        (text ["## [1.0.0]"; "### Added"; "- a"]))
                     None (Some "***###") false ∅) with
        | Ok d => Some d
        | Throw _ => None
        end)
     = Some "New updates!".
Proof. vm_compute. repeat split; reflexivity. Qed.

(** The titles the repository's tests expect. *)
Example sinceTitle_tests :
  ChangelogDiffUtils.sinceTitle (Some "1.0.0") None = "New updates!"
  /\ ChangelogDiffUtils.sinceTitle (Some "1.0.0") (Some "My Custom Title")
     = "My Custom Title"
  /\ ChangelogDiffUtils.sinceTitle (Some "1.0.0") (Some "**Dangerous** _Title_")
     = "Dangerous Title"
  /\ ChangelogDiffUtils.sinceTitle (Some "1.0.0") (Some "***###") = "New updates!"
  /\ ChangelogDiffUtils.sinceTitle None None = "Complete Changelog"
  /\ ChangelogDiffUtils.sinceTitle (Some "") (Some "All Changes Ever")
     = "All Changes Ever"
  /\ ChangelogDiffUtils.sinceTitle (Some "   ") None = "Complete Changelog".
Proof. repeat split; reflexivity. Qed.

(** C5 at its failing input.  [1.0.0] and [1.0.0-beta] parse to the same
    triple and compare equal, so the bounds are taken in the order given:
    the two orders give different cache keys, titles and [fromVersion]. *)
Theorem range_diff_depends_on_order_of_tied_bounds
    `{Collator} `{Calendar} `{Json} `{Storage}
    (cm : CacheManager.t) (env : Env) (repository : Repository)
    (withDates : bool) (db : Database) :
  VersionUtils.compareVersions "1.0.0" "1.0.0-beta" = Number.Finite 0
  /\ ChangelogDiffUtils.rangeCacheKey "1.0.0" "1.0.0-beta" = "1.0.0_1.0.0-beta"
  /\ ChangelogDiffUtils.rangeCacheKey "1.0.0-beta" "1.0.0" = "1.0.0-beta_1.0.0"
  /\ exists d1 d2 db1 db2,
       ChangelogDiffUtils.createRangeDiff cm env repository
         "1.0.0" "1.0.0-beta" withDates db = (Ok d1, db1)
       /\ ChangelogDiffUtils.createRangeDiff cm env repository
            "1.0.0-beta" "1.0.0" withDates db = (Ok d2, db2)
       /\ fromVersion d1 = Some "1.0.0" /\ toVersion d1 = Some "1.0.0-beta"
       /\ fromVersion d2 = Some "1.0.0-beta" /\ toVersion d2 = Some "1.0.0"
       /\ title d1 <> title d2.
Proof.
  split; [reflexivity|]. split; [reflexivity|]. split; [reflexivity|].
  destruct (createRangeDiff_returns cm env repository "1.0.0" "1.0.0-beta"
              withDates db) as (d1 & db1 & E1 & Ht1 & Hf1 & Hto1).
  destruct (createRangeDiff_returns cm env repository "1.0.0-beta" "1.0.0"
              withDates db) as (d2 & db2 & E2 & Ht2 & Hf2 & Hto2).
  exists d1, d2, db1, db2. repeat split; try assumption.
  rewrite Ht1, Ht2. unfold ChangelogDiffUtils.rangeTitle.
  intros Heq. apply String.app_inj in Heq. apply String.app_inj in Heq.
  apply String.app_inj in Heq. discriminate Heq.
Qed.

(** On a miss the since-diff is the computation without the cache. *)
Lemma createSinceDiff_on_miss `{Collator} `{Calendar} `{Json}
    (cm : CacheManager.t) (env : Env) (repository : Repository)
    (sinceVersion customTitle : option string) (withDates : bool) (m : Z)
    (db : gmap string Row) :
  fileMtime env (path repository) = Some m ->
  db !! CacheManager.generateCacheKey (name repository) m "since"
          (ChangelogDiffUtils.sinceCacheKey sinceVersion) = None ->
  fst (@ChangelogDiffUtils.createSinceDiff _ _ _ memoryStorage cm env repository
         sinceVersion customTitle withDates db)
  = Ok (ChangelogDiffUtils.uncachedSinceDiff repository sinceVersion
          customTitle withDates).
Proof.
  intros Hm Hmiss.
  unfold ChangelogDiffUtils.createSinceDiff, bind.
  rewrite (@get_misses _ cm env (name repository) (path repository) "since"
             (ChangelogDiffUtils.sinceCacheKey sinceVersion) m db Hm Hmiss).
  destruct (@set_returns _ memoryStorage cm env (name repository)
              (path repository) "since"
              (ChangelogDiffUtils.sinceCacheKey sinceVersion)
              (ChangelogDiffUtils.combineChangesWithVersions
                 (ChangelogDiffUtils.filterVersionsSince repository sinceVersion))
              db) as (db2 & ->).
  reflexivity.
Qed.

(** On a hit it renders the payload found, whatever request stored it. *)
Lemma createSinceDiff_on_hit `{Collator} `{Calendar} `{Json}
    (cm : CacheManager.t) (env : Env) (repository : Repository)
    (sinceVersion customTitle : option string) (withDates : bool) (m : Z)
    (r : Row) (d : VersionChangesWithVersion) (db : gmap string Row) :
  CacheManager.enabled cm = true -> CacheManager.hasDb cm = true ->
  fileMtime env (path repository) = Some m ->
  db !! CacheManager.generateCacheKey (name repository) m "since"
          (ChangelogDiffUtils.sinceCacheKey sinceVersion) = Some r ->
  JSON_parse (data r) = Ok d ->
  fst (@ChangelogDiffUtils.createSinceDiff _ _ _ memoryStorage cm env repository
         sinceVersion customTitle withDates db)
  = Ok (ChangelogDiffUtils.formatMarkdownDiff (name repository) d
          (ChangelogDiffUtils.sinceTitle sinceVersion customTitle) withDates).
Proof.
  intros He Hd Hm Hhit Hp.
  unfold ChangelogDiffUtils.createSinceDiff, bind.
  rewrite (@get_serves _ cm env (name repository) (path repository) "since"
             (ChangelogDiffUtils.sinceCacheKey sinceVersion) m r d db
             He Hd Hm Hhit Hp).
  reflexivity.
Qed.

(** C2 at its failing input.  The changelog has a version labelled
    [complete].  The request without a version is cached under the marker
    "complete"; the request since the version [complete] then derives the
    same key and is served the payload of the whole changelog, where the
    computation without the cache finds no version newer than [complete]. *)
Theorem since_diff_served_the_complete_changelog `{Calendar} :
  let cm := {| CacheManager.enabled := true; CacheManager.hasDb := true;
               CacheManager.ttlMs := 3600000 |} in
  let repository :=
    ChangelogParser.parseContent "r" "./r"
      (text ["## [2.0.0]"; "### Added"; "- x";
             "## [complete]"; "### Added"; "- y"]) in
  let first :=
    @ChangelogDiffUtils.createSinceDiff codeUnitCollator _ idealJson
      memoryStorage cm (envAt 100 0) repository None None false ∅ in
  let second :=
    @ChangelogDiffUtils.createSinceDiff codeUnitCollator _ idealJson
      memoryStorage cm (envAt 100 1) repository (Some "complete") None false
      (snd first) in
  ChangelogDiffUtils.sinceCacheKey None
  = ChangelogDiffUtils.sinceCacheKey (Some "complete")
  /\ fst second
     = Ok {| content := text ["# New updates!"; ""; "## Added"; "";
                              "- [2.0.0] x"; "- [complete] y"; ""];
             title := "New updates!"; fromVersion := None; toVersion := None |}
  /\ @ChangelogDiffUtils.uncachedSinceDiff codeUnitCollator _ repository
       (Some "complete") None false
     = {| content := text ["# New updates!"; "";
                           "No changes found in the specified version range.";
                           ""];
          title := "New updates!"; fromVersion := None; toVersion := None |}.
Proof. vm_compute. repeat split; reflexivity. Qed.

(** With the cache disabled the same request is computed afresh. *)
Example since_diff_without_cache `{Calendar} :
  let cm := {| CacheManager.enabled := false; CacheManager.hasDb := false;
               CacheManager.ttlMs := 3600000 |} in
  let repository :=
    ChangelogParser.parseContent "r" "./r"
      (text ["## [2.0.0]"; "### Added"; "- x";
             "## [complete]"; "### Added"; "- y"]) in
  fst (@ChangelogDiffUtils.createSinceDiff codeUnitCollator _ idealJson
         memoryStorage cm (envAt 100 1) repository (Some "complete") None false ∅)
  = Ok (@ChangelogDiffUtils.uncachedSinceDiff codeUnitCollator _ repository
          (Some "complete") None false).
Proof. vm_compute. reflexivity. Qed.

(** * Further properties *)

(** ** parser.ts: the result of the line loop *)

Section HeaderFacts.
Import ChangelogParser.

(** Outside a block, a line that is no version header opens none. *)
Lemma step_keeps_closed st line :
  isVersionHeader line = false ->
  currentVersion st = None ->
  step st line = st.
Proof.
  unfold isVersionHeader, headerLabel. intros Hh Hv.
  step_cases st line; try discriminate; try reflexivity; congruence.
Qed.

Lemma releasedHeaders_cons line lines :
  releasedHeaders (line :: lines)
  = (releasedHeaders [line] ++ releasedHeaders lines)%list.
Proof.
  unfold releasedHeaders. cbn [omap list_omap].
  destruct (headerOf line); cbn; [|reflexivity].
  destruct (negb _); reflexivity.
Qed.

Lemma saveCurrent_step_headers st line :
  unreleasedKeptApart st ->
  map (fun v => (version v, date v)) (versions (saveCurrent (step st line)))
  = (map (fun v => (version v, date v)) (versions (saveCurrent st))
     ++ releasedHeaders [line])%list.
Proof.
  intros [_ Hcur].
  destruct (headerLabel line) as [l|] eqn:Hh.
  - rewrite (step_header _ _ _ Hh).
    unfold releasedHeaders, headerOf. cbn [omap list_omap]. rewrite Hh.
    cbn [List.filter fst].
    unfold saveCurrent at 1. cbn.
    destruct (String.eqb (Str.toLowerCase l) "unreleased"); cbn.
    + now rewrite app_nil_r.
    + now rewrite map_app.
  - assert (Hn : isVersionHeader line = false)
      by (unfold isVersionHeader; now rewrite Hh).
    unfold releasedHeaders, headerOf. cbn [omap list_omap]. rewrite Hh.
    cbn. rewrite app_nil_r.
    destruct (currentVersion st) as [v|] eqn:Hv.
    + destruct (step_keeps_open st line v Hn Hv) as (v' & Hv' & Hl & Hd).
      destruct (step_keeps_repository st line Hn) as [Hr Hu].
      unfold saveCurrent. rewrite Hv', Hv, Hr, Hu.
      destruct (isUnreleased st); cbn; [reflexivity|].
      rewrite !map_app. cbn. now rewrite Hl, Hd.
    + now rewrite step_keeps_closed.
Qed.

Lemma fold_headers lines st :
  unreleasedKeptApart st ->
  map (fun v => (version v, date v))
      (versions (saveCurrent (fold_left step lines st)))
  = (map (fun v => (version v, date v)) (versions (saveCurrent st))
     ++ releasedHeaders lines)%list.
Proof.
  revert st. induction lines as [|l lines IH]; intros st Hinv; cbn [fold_left].
  - unfold releasedHeaders. cbn. now rewrite app_nil_r.
  - rewrite IH by now apply step_kept_apart.
    rewrite saveCurrent_step_headers by assumption.
    rewrite (releasedHeaders_cons l lines). now rewrite app_assoc.
Qed.

(** Prose and blank lines change nothing. *)
Lemma step_prose st line : isProse line = true -> step st line = st.
Proof.
  unfold isProse, step.
  destruct (Str.trim line) as [|c r]; [reflexivity|].
  destruct c as [[] [] [] [] [] [] [] []]; cbn; try discriminate;
    intros _; destruct (currentVersion st); reflexivity.
Qed.

Lemma fold_without_prose lines st :
  fold_left step (List.filter (fun l => negb (isProse l)) lines) st
  = fold_left step lines st.
Proof.
  revert st. induction lines as [|l lines IH]; intros st; [reflexivity|].
  cbn [List.filter fold_left].
  destruct (isProse l) eqn:Hp; cbn [negb fold_left].
  - rewrite (step_prose st l Hp). apply IH.
  - apply IH.
Qed.

End HeaderFacts.

(** X1.  The versions of the parsed repository are the version headers of
    the text, in the order of the text, each with its trimmed label and its
    date, without the headers labelled "unreleased": nothing is sorted,
    merged or dropped, and a header without a date gives a version without
    one. *)
Theorem versions_follow_headers (n p content : string) :
  map (fun v => (version v, date v))
      (versions (ChangelogParser.parseContent n p content))
  = ChangelogParser.releasedHeaders (Str.splitLines content).
Proof.
  unfold ChangelogParser.parseContent, ChangelogParser.parseLines.
  rewrite fold_headers; [reflexivity|].
  split; [constructor|]. intros v [=].
Qed.

(** X2.  Blank lines and lines of prose (lines that, once trimmed, start
    with something else than a hash, a dash or a star) never change the
    result: the text without them parses to the same repository. *)
Theorem prose_is_ignored (n p : string) (lines : list string) :
  ChangelogParser.parseLines n p
    (List.filter (fun l => negb (ChangelogParser.isProse l)) lines)
  = ChangelogParser.parseLines n p lines.
Proof.
  unfold ChangelogParser.parseLines. now rewrite fold_without_prose.
Qed.

Section AppendFacts.
Import ChangelogParser.

Lemma saveCurrent_graft first st :
  saveCurrent (graft first st) = appendRepository first (saveCurrent st).
Proof.
  unfold saveCurrent, graft, rebase, appendRepository. cbn.
  destruct (currentVersion st); [|reflexivity].
  destruct (isUnreleased st); cbn; [reflexivity|].
  now rewrite app_assoc.
Qed.

Lemma step_graft first st line :
  step (graft first st) line = graft first (step st line).
Proof.
  destruct (headerLabel line) as [l|] eqn:Hh.
  - rewrite !(step_header _ _ _ Hh), saveCurrent_graft. reflexivity.
  - assert (Hn : isVersionHeader line = false)
      by (unfold isVersionHeader; now rewrite Hh).
    unfold graft. rewrite step_rebase by assumption.
    destruct (step_keeps_repository st line Hn) as [-> ->]. reflexivity.
Qed.

Lemma fold_graft first lines st :
  fold_left step lines (graft first st) = graft first (fold_left step lines st).
Proof.
  revert st. induction lines as [|l lines IH]; intros st; cbn [fold_left];
    [reflexivity|].
  rewrite step_graft. apply IH.
Qed.

Lemma appendRepository_nothing first n p :
  appendRepository first
    {| name := n; path := p; versions := []; unreleased := None |}
  = first.
Proof.
  destruct first. unfold appendRepository. cbn. now rewrite app_nil_r.
Qed.

End AppendFacts.

(** X3.  Parsing is compositional at version headers: when the second of two
    runs of lines is empty or starts with a version header, parsing the two
    runs one after the other gives the versions of the first followed by
    those of the second, and the [unreleased] of the second when it has one,
    else that of the first. *)
Theorem parse_appended (n p n' p' : string) (a b : list string) :
  ChangelogParser.blockEnds b = true ->
  ChangelogParser.parseLines n p (a ++ b)
  = ChangelogParser.appendRepository
      (ChangelogParser.parseLines n p a) (ChangelogParser.parseLines n' p' b).
Proof.
  intros Hb. unfold ChangelogParser.parseLines. rewrite fold_step_app.
  set (s1 := fold_left ChangelogParser.step a (ChangelogParser.initial n p)).
  destruct b as [|h b'].
  - cbn. now rewrite appendRepository_nothing.
  - cbn in Hb. unfold ChangelogParser.isVersionHeader in Hb.
    destruct (ChangelogParser.headerLabel h) as [l|] eqn:Hl; [|discriminate].
    cbn [fold_left]. rewrite !(step_header _ _ _ Hl).
    match goal with
    | |- context [fold_left _ b' ?s2] =>
        match goal with
        | |- _ = ChangelogParser.appendRepository _
                   (ChangelogParser.saveCurrent (fold_left _ b' ?s0)) =>
            assert (Hs : s2 = ChangelogParser.graft
                               (ChangelogParser.saveCurrent s1) s0)
        end
    end.
    { unfold ChangelogParser.graft, ChangelogParser.rebase. cbn.
      now rewrite appendRepository_nothing. }
    rewrite Hs, fold_graft, saveCurrent_graft. reflexivity.
Qed.

Lemma parse_appended_witness :
  map version
    (versions (ChangelogParser.parseLines "r" "./r"
                 (["# Changelog"; "## [2.0.0]"; "### Added"; "- b"]
                  ++ ["## [1.0.0]"; "### Added"; "- a"])))
  = ["2.0.0"; "1.0.0"].
Proof.
  rewrite (parse_appended "r" "./r" "r" "./r"
             ["# Changelog"; "## [2.0.0]"; "### Added"; "- b"]
             ["## [1.0.0]"; "### Added"; "- a"]); reflexivity.
Defined.

Section DroppedFacts.
Import ChangelogParser.

(** With no current section, a line that is neither a version header nor
    the header of a recognized category changes nothing. *)
Lemma step_without_section st line :
  currentSection st = None ->
  isVersionHeader line = false ->
  sectionOf line = None ->
  step st line = st.
Proof.
  unfold isVersionHeader, headerLabel, sectionOf, sectionName.
  intros Hs Hh Hk.
  step_cases st line; try discriminate; try reflexivity;
    repeat match goal with H : _ = _ |- _ => rewrite H in * end;
    try discriminate; try reflexivity; congruence.
Qed.

Lemma fold_without_section lines st :
  currentSection st = None ->
  Forall (fun l => isVersionHeader l = false /\ sectionOf l = None) lines ->
  fold_left step lines st = st.
Proof.
  intros Hs Hl. induction Hl as [|l lines [Hh Hk] _ IH]; cbn [fold_left];
    [reflexivity|].
  now rewrite step_without_section.
Qed.

Lemma fold_closed lines st :
  currentVersion st = None ->
  Forall (fun l => isVersionHeader l = false) lines ->
  fold_left step lines st = st.
Proof.
  intros Hv Hl. induction Hl as [|l lines Hh _ IH]; cbn [fold_left];
    [reflexivity|].
  now rewrite step_keeps_closed.
Qed.

End DroppedFacts.

(** X4.  What the parser drops.  Everything before the first version header
    is ignored, section headers and list items included.  After a version
    header, list items and any other lines are dropped until the header of
    a recognized category or the next version header. *)
Theorem lines_outside_sections_are_dropped
    (n p : string) (pre rest before : list string)
    (hdr : string) (junk after : list string) :
  Forall (fun l => ChangelogParser.isVersionHeader l = false) pre ->
  ChangelogParser.isVersionHeader hdr = true ->
  Forall (fun l => ChangelogParser.isVersionHeader l = false
                   /\ ChangelogParser.sectionOf l = None) junk ->
  ChangelogParser.parseLines n p (pre ++ rest)
  = ChangelogParser.parseLines n p rest
  /\ ChangelogParser.parseLines n p (before ++ hdr :: junk ++ after)
     = ChangelogParser.parseLines n p (before ++ hdr :: after).
Proof.
  intros Hpre Hhdr Hjunk. unfold ChangelogParser.parseLines. split.
  - rewrite fold_step_app, (fold_closed pre) by (assumption || reflexivity).
    reflexivity.
  - rewrite !fold_step_app. cbn [fold_left]. rewrite fold_step_app.
    unfold ChangelogParser.isVersionHeader in Hhdr.
    destruct (ChangelogParser.headerLabel hdr) as [l|] eqn:Hl; [|discriminate].
    rewrite (fold_without_section junk); [reflexivity| |assumption].
    now rewrite (step_header _ _ _ Hl).
Qed.

Lemma lines_outside_sections_are_dropped_witness :
  ChangelogParser.parseLines "r" "./r"
    (["### Added"; "- before any version"] ++ ["## [1.0.0]"; "### Added"; "- a"])
  = ChangelogParser.parseLines "r" "./r" ["## [1.0.0]"; "### Added"; "- a"]
  /\ ChangelogParser.parseLines "r" "./r"
       ([] ++ "## [1.0.0]" :: ["- no section yet"; "### Notes"; "* nor here"]
           ++ ["### Added"; "- a"])
     = ChangelogParser.parseLines "r" "./r"
         ([] ++ "## [1.0.0]" :: ["### Added"; "- a"]).
Proof.
  apply (lines_outside_sections_are_dropped "r" "./r"
           ["### Added"; "- before any version"]
           ["## [1.0.0]"; "### Added"; "- a"] []
           "## [1.0.0]" ["- no section yet"; "### Notes"; "* nor here"]
           ["### Added"; "- a"]).
  - repeat constructor.
  - reflexivity.
  - repeat constructor.
Defined.

(** ** Trimmed texts *)

Lemma trimEnd_trimEnd s : Str.trimEnd (Str.trimEnd s) = Str.trimEnd s.
Proof.
  induction s as [|c r IH]; [reflexivity|].
  cbn [Str.trimEnd].
  destruct (Str.isWhiteSpace c && Str.isEmpty (Str.trimEnd r)) eqn:Hc;
    [reflexivity|].
  cbn [Str.trimEnd]. rewrite IH, Hc. reflexivity.
Qed.

Lemma trimStart_trimEnd_fixed s :
  Str.trimStart s = s -> Str.trimStart (Str.trimEnd s) = Str.trimEnd s.
Proof.
  destruct s as [|c r]; [reflexivity|].
  cbn [Str.trimStart Str.trimEnd].
  destruct (Str.isWhiteSpace c) eqn:Hc.
  - intros Heq. exfalso.
    assert (Hall : Str.all Str.isWhiteSpace (Str.trimStart r)
                   = Str.all Str.isWhiteSpace (String c r)) by now rewrite Heq.
    assert (Hlen : String.length (Str.trimStart r) = String.length (String c r))
      by now rewrite Heq.
    clear -Hlen.
    assert (Hle : forall t, (String.length (Str.trimStart t) <= String.length t)%nat).
    { induction t as [|x t IHt]; cbn; [lia|].
      destruct (Str.isWhiteSpace x); cbn; lia. }
    specialize (Hle r). cbn in Hlen. lia.
  - intros _. cbn. now rewrite Hc.
Qed.

Lemma trimStart_trimStart s : Str.trimStart (Str.trimStart s) = Str.trimStart s.
Proof.
  induction s as [|c r IH]; [reflexivity|].
  cbn [Str.trimStart]. destruct (Str.isWhiteSpace c) eqn:Hc; [assumption|].
  cbn [Str.trimStart]. now rewrite Hc.
Qed.

(** Trimming what is trimmed changes nothing. *)
Lemma trim_trim s : Str.trim (Str.trim s) = Str.trim s.
Proof.
  unfold Str.trim.
  rewrite (trimStart_trimEnd_fixed (Str.trimStart s)) by apply trimStart_trimStart.
  apply trimEnd_trimEnd.
Qed.

Lemma isTrimmedText_trim s :
  Str.isEmpty (Str.trim s) = false ->
  ChangelogParser.isTrimmedText (Str.trim s) = true.
Proof.
  intros He. unfold ChangelogParser.isTrimmedText.
  rewrite He, trim_trim, String.eqb_refl. reflexivity.
Qed.

(** What [span] leaves starts with a character that fails the test. *)
Lemma span_rest p s :
  match snd (Str.span p s) with
  | EmptyString => True
  | String c _ => p c = false
  end.
Proof.
  induction s as [|c r IH]; cbn; [exact I|].
  destruct (p c) eqn:Hc; cbn; [|assumption].
  destruct (Str.span p r); exact IH.
Qed.

(** A text group that follows white space trims to something. *)
Lemma spacesThenText_not_blank r g :
  ChangelogParser.spacesThenText r = Some g ->
  Str.isEmpty (Str.trim g) = false.
Proof.
  unfold ChangelogParser.spacesThenText, ChangelogParser.dotPlus, Str.takeWhile.
  pose proof (span_rest Str.isWhiteSpace r) as Hrest.
  destruct (Str.span Str.isWhiteSpace r) as [[|w ws] rest]; [discriminate|].
  cbn [snd] in Hrest.
  destruct rest as [|c rest']; [discriminate|].
  cbn [Str.span].
  destruct (ChangelogParser.notLineTerminator c); [|discriminate].
  destruct (Str.span ChangelogParser.notLineTerminator rest') as [g1 g2].
  cbn [fst]. intros [= <-].
  unfold Str.trim. cbn [Str.trimStart]. rewrite Hrest.
  cbn [Str.trimEnd]. rewrite Hrest. reflexivity.
Qed.

Section WellFormedFacts.
Import ChangelogParser.

Lemma wellFormed_noChanges : wellFormedChanges noChanges.
Proof. intros k l. destruct k; discriminate. Qed.

Lemma wellFormed_setSection c k l :
  wellFormedChanges c ->
  Forall (fun e => isTrimmedText (description e) = true) l ->
  wellFormedChanges (setSection c k l).
Proof.
  intros Hc Hl k' l'.
  destruct (decide (k' = k)) as [->|Hne].
  - rewrite getSection_setSection. now intros [= <-].
  - rewrite getSection_setSection_ne by assumption. apply Hc.
Qed.

Lemma wellFormed_ensureSection c k :
  wellFormedChanges c -> wellFormedChanges (ensureSection c k).
Proof.
  intros Hc. unfold ensureSection.
  destruct (getSection c k); [assumption|].
  apply wellFormed_setSection; [assumption|constructor].
Qed.

Lemma wellFormed_pushEntry c k e :
  wellFormedChanges c ->
  isTrimmedText (description e) = true ->
  wellFormedChanges (pushEntry c k e).
Proof.
  intros Hc He. unfold pushEntry.
  destruct (getSection c k) as [l|] eqn:Hk;
    apply wellFormed_setSection; try assumption.
  - apply Forall_app. split; [now apply (Hc k)|]. now constructor.
  - now constructor.
Qed.

Lemma wellFormed_saveCurrent st :
  wellFormedState st -> wellFormedRepository (saveCurrent st).
Proof.
  intros [[Hvs Hun] Hcur]. unfold saveCurrent.
  destruct (currentVersion st) as [v|]; [|now split].
  specialize (Hcur v eq_refl).
  destruct (isUnreleased st); cbn; split; cbn.
  - assumption.
  - intros c [= <-]. apply Hcur.
  - apply Forall_app. split; [assumption|]. now constructor.
  - assumption.
Qed.

Lemma wellFormed_step st line :
  wellFormedState st -> wellFormedState (step st line).
Proof.
  intros Hst.
  destruct (headerLabel line) as [l|] eqn:Hh.
  - rewrite (step_header _ _ _ Hh). split; cbn.
    + now apply wellFormed_saveCurrent.
    + intros v [= <-]. repeat split; cbn.
      * unfold headerLabel in Hh.
        destruct (matchVersionHeader (Str.trim line)) as [[g1 ?]|]; [|discriminate].
        injection Hh as <-. apply trim_trim.
      * unfold headerDate.
        destruct (matchVersionHeader (Str.trim line)) as [[? [g2|]]|];
          try discriminate.
        destruct (Str.isEmpty (Str.trim g2)) eqn:He; [discriminate|].
        intros d [= <-]. now apply isTrimmedText_trim.
      * apply wellFormed_noChanges.
  - unfold headerLabel in Hh.
    step_cases st line; try discriminate; try exact Hst;
      destruct Hst as [Hrepo Hcur];
      (split; [exact Hrepo|]);
      intros v' Hv'; cbn in Hv'; injection Hv' as <-;
      match goal with
      | Hv : currentVersion st = Some ?v |- _ =>
          destruct (Hcur v Hv) as (Hl & Hd & Hc)
      end;
      (split; [|split]); cbn; try assumption;
      try (now apply wellFormed_ensureSection).
    all: apply wellFormed_pushEntry; [now apply wellFormed_ensureSection|].
    all: cbn; apply isTrimmedText_trim.
    all: match goal with
         | Hm : matchListItem _ = Some _ |- _ =>
             unfold matchListItem in Hm;
             destruct (Str.trim line) as [|c r]; [discriminate|];
             destruct (Ascii.eqb c "-" || Ascii.eqb c "*"); [|discriminate];
             now apply spacesThenText_not_blank in Hm
         end.
Qed.

Lemma wellFormed_fold lines st :
  wellFormedState st -> wellFormedState (fold_left step lines st).
Proof.
  revert st. induction lines as [|l lines IH]; intros st Hst; cbn [fold_left];
    [assumption|].
  apply IH, wellFormed_step, Hst.
Qed.

End WellFormedFacts.

(** X5.  Whatever the text, the parsed repository is well formed: every
    version label is trimmed; a date is either absent or a non-empty trimmed
    text, never the empty string; and every entry, in the versions and in
    [unreleased], has a non-empty description without white space at its
    ends. *)
Theorem parsed_repository_well_formed (n p content : string) :
  ChangelogParser.wellFormedRepository (ChangelogParser.parseContent n p content).
Proof.
  unfold ChangelogParser.parseContent, ChangelogParser.parseLines.
  apply wellFormed_saveCurrent, wellFormed_fold.
  split; [split|]; cbn.
  - apply Forall_nil_2.
  - intros c [=].
  - intros v [=].
Qed.

(** ** parser.ts: reading the file *)

Section NameFacts.
Import ChangelogParser.

Lemma saveCurrent_name st :
  name (saveCurrent st) = name (repository st)
  /\ path (saveCurrent st) = path (repository st).
Proof.
  unfold saveCurrent. destruct (currentVersion st); [|now split].
  destruct (isUnreleased st); now split.
Qed.

Lemma step_name st line :
  name (repository (step st line)) = name (repository st)
  /\ path (repository (step st line)) = path (repository st).
Proof.
  destruct (headerLabel line) as [l|] eqn:Hh.
  - rewrite (step_header _ _ _ Hh). apply saveCurrent_name.
  - assert (Hn : isVersionHeader line = false)
      by (unfold isVersionHeader; now rewrite Hh).
    destruct (step_keeps_repository st line Hn) as [-> _]. now split.
Qed.

Lemma parseLines_name n p lines :
  name (parseLines n p lines) = n /\ path (parseLines n p lines) = p.
Proof.
  unfold parseLines.
  assert (H : forall st,
            name (repository (fold_left step lines st)) = name (repository st)
            /\ path (repository (fold_left step lines st)) = path (repository st)).
  { induction lines as [|l lines IH]; intros st; cbn [fold_left]; [now split|].
    destruct (IH (step st l)) as [-> ->]. apply step_name. }
  destruct (saveCurrent_name (fold_left step lines (initial n p))) as [-> ->].
  apply (H (initial n p)).
Qed.

End NameFacts.

(** X6.  A repository validates exactly when its changelog can be read, and
    then [parseChangelog] returns a repository under the given name, with
    the joined base path and name as its path; otherwise it throws an error
    whose message names the repository and carries the message of the read
    failure.  Validation joins the three path parts at once and parsing in
    two steps, which [path.join] does not tell apart. *)
Theorem validated_repository_parses `{FileSystem} `{!JoinNested}
    (repoName basePath : string) :
  (ChangelogParser.validateRepository repoName basePath = true ->
   exists r,
     ChangelogParser.parseChangelog repoName basePath = Ok r
     /\ name r = repoName /\ path r = join [basePath; repoName])
  /\ (ChangelogParser.validateRepository repoName basePath = false ->
      exists message,
        ChangelogParser.parseChangelog repoName basePath
        = Throw ("Failed to read changelog for " ++ repoName ++ ": " ++ message)).
Proof.
  unfold ChangelogParser.validateRepository, ChangelogParser.parseChangelog,
    ChangelogParser.repoPathOf.
  rewrite join_nested.
  destruct (readFileSync (join [basePath; repoName; "CHANGELOG.md"]))
    as [content|message]; split; try discriminate; intros _.
  - eexists. split; [reflexivity|].
    unfold ChangelogParser.parseContent. apply parseLines_name.
  - eauto.
Qed.

Lemma append_assoc (a b c : string) : (a ++ b) ++ c = a ++ (b ++ c).
Proof.
  induction a as [|x a IH]; [reflexivity|].
  change (String x ((a ++ b) ++ c) = String x (a ++ (b ++ c))).
  now rewrite IH.
Qed.

Lemma slashJoin_nested files : @JoinNested (listedFiles files).
Proof.
  intros a b c. cbn. rewrite append_assoc.
  change (String "/" b ++ "/" ++ c) with ("/" ++ b ++ "/" ++ c). reflexivity.
Qed.

Lemma validated_repository_parses_witness :
  let files := [("./test-repo/CHANGELOG.md",
                 text ["# Changelog"; "## [1.0.0]"; "### Added"; "- a"])] in
  (exists r,
     @ChangelogParser.parseChangelog (listedFiles files) "test-repo" "." = Ok r
     /\ name r = "test-repo" /\ path r = "./test-repo")
  /\ exists message,
       @ChangelogParser.parseChangelog (listedFiles files) "other" "."
       = Throw ("Failed to read changelog for other: " ++ message).
Proof.
  intros files. split.
  - apply (@validated_repository_parses (listedFiles files)
             (slashJoin_nested files) "test-repo" "."). reflexivity.
  - apply (@validated_repository_parses (listedFiles files)
             (slashJoin_nested files) "other" "."). reflexivity.
Defined.

(** ** utils.ts: VersionUtils *)

Lemma span_spec p s :
  s = fst (Str.span p s) ++ snd (Str.span p s)
  /\ Str.all p (fst (Str.span p s)) = true.
Proof.
  induction s as [|c r [IHe IHa]]; cbn; [now split|].
  destruct (p c) eqn:Hc; cbn; [|now split].
  destruct (Str.span p r) as [a b]. cbn in *. split.
  - change (String c r = String c (a ++ b)). now rewrite <- IHe.
  - now rewrite Hc.
Qed.

Lemma span_app p a rest :
  Str.all p a = true ->
  match rest with EmptyString => True | String c _ => p c = false end ->
  Str.span p (a ++ rest) = (a, rest).
Proof.
  intros Ha Hrest. induction a as [|x a IH].
  - destruct rest as [|c r]; [reflexivity|]. cbn.
    change ("" ++ String c r) with (String c r). cbn. now rewrite Hrest.
  - cbn in Ha. apply andb_true_iff in Ha as [Hx Ha].
    change (String x a ++ rest) with (String x (a ++ rest)).
    cbn. rewrite Hx, (IH Ha). reflexivity.
Qed.

Section VersionFacts.
Import VersionUtils.

Lemma numberDot_accepts a r :
  isNumber a = true ->
  numberDot (a ++ "." ++ r) = Some (Str.parseInt10 a, r).
Proof.
  unfold isNumber, numberDot. intros [Hne Ha]%andb_true_iff.
  rewrite (span_app Str.isDigit a ("." ++ r) Ha) by reflexivity.
  destruct a; [discriminate|]. reflexivity.
Qed.

Lemma numberDot_shape s n r :
  numberDot s = Some (n, r) ->
  exists a, s = a ++ "." ++ r /\ isNumber a = true /\ n = Str.parseInt10 a.
Proof.
  unfold numberDot, isNumber.
  destruct (span_spec Str.isDigit s) as [He Ha].
  destruct (Str.span Str.isDigit s) as [[|d ds] [|c rest]]; try discriminate.
  cbn [fst snd] in *.
  destruct c as [[] [] [] [] [] [] [] []]; try discriminate.
  intros [= <- <-]. exists (String d ds). repeat split; assumption.
Qed.

Lemma suffixOk_head suffix :
  suffixOk suffix = true ->
  match suffix with EmptyString => True | String c _ => Str.isDigit c = false end.
Proof.
  destruct suffix as [|c r]; [trivial|]. unfold suffixOk.
  intros [Hc _]%andb_true_iff.
  destruct c as [[] [] [] [] [] [] [] []]; try discriminate; reflexivity.
Qed.

End VersionFacts.

(** X7.  [parseVersion] accepts exactly the strings made of three non-empty
    runs of digits separated by dots, followed by nothing or by a suffix that
    starts with a dash or a plus and holds no line break; it returns the
    three numbers and nothing of the suffix.  Any other string (a [v] in
    front, two or four components) gives null. *)
Theorem parseVersion_language (s : string) (v : VersionUtils.SemVer) :
  VersionUtils.parseVersion s = Some v
  <-> exists a b c suffix,
        s = a ++ "." ++ b ++ "." ++ c ++ suffix
        /\ VersionUtils.isNumber a = true
        /\ VersionUtils.isNumber b = true
        /\ VersionUtils.isNumber c = true
        /\ VersionUtils.suffixOk suffix = true
        /\ v = {| VersionUtils.major := Str.parseInt10 a;
                  VersionUtils.minor := Str.parseInt10 b;
                  VersionUtils.patch := Str.parseInt10 c |}.
Proof.
  split.
  - unfold VersionUtils.parseVersion.
    destruct (VersionUtils.numberDot s) as [[ma r1]|] eqn:H1; [|discriminate].
    destruct (VersionUtils.numberDot r1) as [[mi r2]|] eqn:H2; [|discriminate].
    destruct (numberDot_shape _ _ _ H1) as (a & -> & Ha & ->).
    destruct (numberDot_shape _ _ _ H2) as (b & -> & Hb & ->).
    destruct (span_spec Str.isDigit r2) as [He Hc].
    destruct (Str.span Str.isDigit r2) as [[|d ds] r3]; [discriminate|].
    cbn [fst snd] in *.
    destruct (VersionUtils.suffixOk r3) eqn:Hs; [|discriminate].
    intros [= <-]. exists a, b, (String d ds), r3.
    repeat split; try assumption.
    + now rewrite He.
  - intros (a & b & c & suffix & -> & Ha & Hb & Hc & Hs & ->).
    unfold VersionUtils.parseVersion.
    rewrite (numberDot_accepts a _ Ha), (numberDot_accepts b _ Hb).
    unfold VersionUtils.isNumber in Hc. apply andb_true_iff in Hc as [Hne Hc].
    rewrite (span_app Str.isDigit c suffix Hc (suffixOk_head _ Hs)).
    destruct c; [discriminate|]. now rewrite Hs.
Qed.

Section ParsedOrder.
Import VersionUtils.
Context `{Collator}.

Lemma lexicographic_refl p : lexicographic p p = Eq.
Proof. destruct p as [[x y] z]. cbn. now rewrite !Z.compare_refl. Qed.

Lemma lexicographic_antisym p q : lexicographic q p = CompOpp (lexicographic p q).
Proof.
  destruct p as [[x1 y1] z1], q as [[x2 y2] z2]. cbn.
  rewrite (Z.compare_antisym x2 x1), (Z.compare_antisym y2 y1),
          (Z.compare_antisym z2 z1).
  destruct (x2 ?= x1), (y2 ?= y1), (z2 ?= z1); reflexivity.
Qed.

Lemma lexicographic_eq p q : lexicographic p q = Eq <-> p = q.
Proof.
  destruct p as [[x1 y1] z1], q as [[x2 y2] z2]. cbn.
  destruct (Z.compare_spec x1 x2), (Z.compare_spec y1 y2), (Z.compare_spec z1 z2);
    split; try discriminate; try (intros [= ? ? ?]; lia); intros _; congruence.
Qed.

(** What [lexicographic] says, in inequalities. *)
Lemma lexicographic_spec p q :
  let '(x1, y1, z1) := p in
  let '(x2, y2, z2) := q in
  match lexicographic p q with
  | Lt => x1 < x2 \/ x1 = x2 /\ (y1 < y2 \/ y1 = y2 /\ z1 < z2)
  | Eq => x1 = x2 /\ y1 = y2 /\ z1 = z2
  | Gt => x2 < x1 \/ x1 = x2 /\ (y2 < y1 \/ y1 = y2 /\ z2 < z1)
  end.
Proof.
  destruct p as [[x1 y1] z1], q as [[x2 y2] z2]. cbn.
  destruct (Z.compare_spec x1 x2), (Z.compare_spec y1 y2), (Z.compare_spec z1 z2);
    lia.
Qed.

Lemma lexicographic_trans p q r :
  lexicographic p q <> Gt -> lexicographic q r <> Gt -> lexicographic p r <> Gt.
Proof.
  pose proof (lexicographic_spec p q) as Hpq.
  pose proof (lexicographic_spec q r) as Hqr.
  pose proof (lexicographic_spec p r) as Hpr.
  destruct p as [[x1 y1] z1], q as [[x2 y2] z2], r as [[x3 y3] z3].
  destruct (lexicographic (x1, y1, z1) (x2, y2, z2));
    destruct (lexicographic (x2, y2, z2) (x3, y3, z3));
    destruct (lexicographic (x1, y1, z1) (x3, y3, z3));
    intros H1 H2; try discriminate; try contradiction; exfalso; lia.
Qed.

Lemma lexicographic_strict_trans p q r :
  lexicographic p q = Gt -> lexicographic q r = Gt -> lexicographic p r = Gt.
Proof.
  pose proof (lexicographic_spec p q) as Hpq.
  pose proof (lexicographic_spec q r) as Hqr.
  pose proof (lexicographic_spec p r) as Hpr.
  destruct p as [[x1 y1] z1], q as [[x2 y2] z2], r as [[x3 y3] z3].
  destruct (lexicographic (x1, y1, z1) (x2, y2, z2));
    destruct (lexicographic (x2, y2, z2) (x3, y3, z3));
    destruct (lexicographic (x1, y1, z1) (x3, y3, z3));
    intros H1 H2; try discriminate; try reflexivity; exfalso; lia.
Qed.

(** A number compares equal to zero only when it is zero. *)
Lemma number_compare_zero_eq a :
  Number.compare a Number.zero = Some Eq <-> a = Number.zero.
Proof.
  destruct a as [|[]|z]; cbn; split; try discriminate.
  - intros [= Hz]. apply Z.compare_eq in Hz. now subst.
  - intros [= ->]. reflexivity.
Qed.

(** On labels with finite numbers, the sign of the comparison is the order of
    the triples of integers. *)
Lemma compareVersions_lex a b va vb pa pb :
  parseVersion a = Some va -> parseVersion b = Some vb ->
  integers va = Some pa -> integers vb = Some pb ->
  Number.compare (compareVersions a b) Number.zero = Some (lexicographic pa pb).
Proof.
  intros Ha Hb Ia Ib. rewrite (compareVersions_parsed a b va vb Ha Hb).
  unfold integers in Ia, Ib.
  destruct va as [[| |x1] [| |y1] [| |z1]]; try discriminate.
  destruct vb as [[| |x2] [| |y2] [| |z2]]; try discriminate.
  cbn in Ia, Ib. injection Ia as <-. injection Ib as <-.
  cbn [major minor patch lexicographic].
  assert (Hstep : forall x y,
            Number.eqb (Number.Finite x) (Number.Finite y)
            = match x ?= y with Eq => true | _ => false end)
    by reflexivity.
  assert (Hsub : forall x y,
            Number.compare (Number.sub (Number.Finite x) (Number.Finite y))
                           Number.zero = Some (x ?= y)).
  { intros x y. cbn. rewrite round_compare_zero. f_equal.
    symmetry. apply Z.compare_sub. }
  rewrite !Hstep.
  destruct (x1 ?= x2) eqn:Ex; cbn [negb]; try (rewrite Hsub, Ex; reflexivity).
  destruct (y1 ?= y2) eqn:Ey; cbn [negb]; try (rewrite Hsub, Ey; reflexivity).
  apply Hsub.
Qed.

End ParsedOrder.

(** X8.  On labels that parse to finite numbers, [compareVersions] is a
    total preorder read on the three numbers alone, whatever the collator: a
    label compares equal to itself, swapping the arguments flips the sign,
    two labels compare equal exactly when their numbers agree (so a suffix
    never matters), the order is transitive, and [isVersionNewer] is its
    strict part. *)
Theorem compareVersions_orders_parsed `{Collator}
    (a b c : string) (va vb vc : VersionUtils.SemVer) (pa pb pc : Z * Z * Z) :
  VersionUtils.parseVersion a = Some va ->
  VersionUtils.parseVersion b = Some vb ->
  VersionUtils.parseVersion c = Some vc ->
  VersionUtils.integers va = Some pa ->
  VersionUtils.integers vb = Some pb ->
  VersionUtils.integers vc = Some pc ->
  VersionUtils.compareVersions a a = Number.zero
  /\ Number.compare (VersionUtils.compareVersions b a) Number.zero
     = CompOpp <$> Number.compare (VersionUtils.compareVersions a b) Number.zero
  /\ (VersionUtils.compareVersions a b = Number.zero <-> va = vb)
  /\ (Number.leb (VersionUtils.compareVersions a b) Number.zero = true ->
      Number.leb (VersionUtils.compareVersions b c) Number.zero = true ->
      Number.leb (VersionUtils.compareVersions a c) Number.zero = true)
  /\ VersionUtils.isVersionNewer a b
     = negb (Number.leb (VersionUtils.compareVersions a b) Number.zero)
  /\ (VersionUtils.isVersionNewer a b = true ->
      VersionUtils.isVersionNewer b c = true ->
      VersionUtils.isVersionNewer a c = true).
Proof.
  intros Ha Hb Hc Ia Ib Ic.
  pose proof (compareVersions_lex a a va va pa pa Ha Ha Ia Ia) as Caa.
  pose proof (compareVersions_lex a b va vb pa pb Ha Hb Ia Ib) as Cab.
  pose proof (compareVersions_lex b a vb va pb pa Hb Ha Ib Ia) as Cba.
  pose proof (compareVersions_lex b c vb vc pb pc Hb Hc Ib Ic) as Cbc.
  pose proof (compareVersions_lex a c va vc pa pc Ha Hc Ia Ic) as Cac.
  unfold VersionUtils.isVersionNewer, Number.leb, Number.gtb.
  rewrite Cab, Cba, Cbc, Cac.
  split; [|split; [|split; [|split; [|split]]]].
  - apply number_compare_zero_eq. now rewrite Caa, lexicographic_refl.
  - cbn. now rewrite lexicographic_antisym.
  - rewrite <- number_compare_zero_eq, Cab. split.
    + intros [= Heq]. apply lexicographic_eq in Heq. subst pb.
      unfold VersionUtils.integers in Ia, Ib.
      destruct va as [[| |x1] [| |y1] [| |z1]]; try discriminate.
      destruct vb as [[| |x2] [| |y2] [| |z2]]; try discriminate.
      cbn in Ia, Ib. congruence.
    + intros <-. f_equal. apply lexicographic_eq. congruence.
  - pose proof (lexicographic_trans pa pb pc) as Ht.
    destruct (VersionUtils.lexicographic pa pb),
             (VersionUtils.lexicographic pb pc),
             (VersionUtils.lexicographic pa pc);
      intros H1 H2; try discriminate; try reflexivity;
      exfalso; apply Ht; discriminate || reflexivity.
  - destruct (VersionUtils.lexicographic pa pb); reflexivity.
  - pose proof (lexicographic_strict_trans pa pb pc) as Ht.
    destruct (VersionUtils.lexicographic pa pb),
             (VersionUtils.lexicographic pb pc); try discriminate.
    intros _ _. now rewrite Ht.
Qed.

Lemma compareVersions_orders_parsed_witness :
  @VersionUtils.isVersionNewer codeUnitCollator "1.10.0" "1.9.3-rc.1" = true
  /\ @VersionUtils.isVersionNewer codeUnitCollator "1.10.0" "1.2.0" = true.
Proof.
  pose proof (@compareVersions_orders_parsed codeUnitCollator
                "1.10.0" "1.9.3-rc.1" "1.2.0" _ _ _ (1, 10, 0) (1, 9, 3) (1, 2, 0)
                eq_refl eq_refl eq_refl eq_refl eq_refl eq_refl)
    as (_ & _ & _ & _ & _ & Htrans).
  split; [reflexivity|]. apply Htrans; reflexivity.
Defined.

(** X9.  For labels that parse to finite numbers, [isVersionInRange] is
    membership in the closed interval between the two bounds, whichever way
    round they are given: both bounds are inside, and a label is inside
    exactly when it lies between them. *)
Theorem isVersionInRange_closed_interval `{Collator}
    (v lo hi : string) (pv plo phi : VersionUtils.SemVer) (iv ilo ihi : Z * Z * Z) :
  VersionUtils.parseVersion v = Some pv ->
  VersionUtils.parseVersion lo = Some plo ->
  VersionUtils.parseVersion hi = Some phi ->
  VersionUtils.integers pv = Some iv ->
  VersionUtils.integers plo = Some ilo ->
  VersionUtils.integers phi = Some ihi ->
  (VersionUtils.isVersionInRange v lo hi = true
   <-> (Number.leb (VersionUtils.compareVersions lo v) Number.zero = true
        /\ Number.leb (VersionUtils.compareVersions v hi) Number.zero = true)
       \/ (Number.leb (VersionUtils.compareVersions hi v) Number.zero = true
           /\ Number.leb (VersionUtils.compareVersions v lo) Number.zero = true))
  /\ VersionUtils.isVersionInRange lo lo hi = true
  /\ VersionUtils.isVersionInRange hi lo hi = true
  /\ VersionUtils.isVersionInRange v hi lo = VersionUtils.isVersionInRange v lo hi.
Proof.
  intros Hv Hlo Hhi Iv Ilo Ihi.
  assert (Hin : forall x px ix,
            VersionUtils.parseVersion x = Some px ->
            VersionUtils.integers px = Some ix ->
            VersionUtils.isVersionInRange x lo hi
            = match VersionUtils.lexicographic ilo ihi with
              | Gt => match VersionUtils.lexicographic ix ihi,
                            VersionUtils.lexicographic ix ilo with
                      | (Gt | Eq), (Lt | Eq) => true
                      | _, _ => false
                      end
              | _ => match VersionUtils.lexicographic ix ilo,
                           VersionUtils.lexicographic ix ihi with
                     | (Gt | Eq), (Lt | Eq) => true
                     | _, _ => false
                     end
              end
            /\ VersionUtils.isVersionInRange x hi lo
               = match VersionUtils.lexicographic ihi ilo with
                 | Gt => match VersionUtils.lexicographic ix ilo,
                               VersionUtils.lexicographic ix ihi with
                         | (Gt | Eq), (Lt | Eq) => true
                         | _, _ => false
                         end
                 | _ => match VersionUtils.lexicographic ix ihi,
                              VersionUtils.lexicographic ix ilo with
                        | (Gt | Eq), (Lt | Eq) => true
                        | _, _ => false
                        end
                 end).
  { intros x px ix Hx Ix.
    pose proof (compareVersions_lex lo hi plo phi ilo ihi Hlo Hhi Ilo Ihi) as Clh.
    pose proof (compareVersions_lex hi lo phi plo ihi ilo Hhi Hlo Ihi Ilo) as Chl.
    pose proof (compareVersions_lex x lo px plo ix ilo Hx Hlo Ix Ilo) as Cxl.
    pose proof (compareVersions_lex x hi px phi ix ihi Hx Hhi Ix Ihi) as Cxh.
    unfold VersionUtils.isVersionInRange, Number.leb, Number.geb.
    rewrite Clh, Chl.
    split.
    - destruct (VersionUtils.lexicographic ilo ihi); cbv zeta;
        rewrite Cxl, Cxh;
        destruct (VersionUtils.lexicographic ix ilo),
                 (VersionUtils.lexicographic ix ihi); reflexivity.
    - destruct (VersionUtils.lexicographic ihi ilo); cbv zeta;
        rewrite Cxl, Cxh;
        destruct (VersionUtils.lexicographic ix ilo),
                 (VersionUtils.lexicographic ix ihi); reflexivity. }
  pose proof (compareVersions_lex lo v plo pv ilo iv Hlo Hv Ilo Iv) as Clv.
  pose proof (compareVersions_lex v hi pv phi iv ihi Hv Hhi Iv Ihi) as Cvh.
  pose proof (compareVersions_lex hi v phi pv ihi iv Hhi Hv Ihi Iv) as Chv.
  pose proof (compareVersions_lex v lo pv plo iv ilo Hv Hlo Iv Ilo) as Cvl.
  destruct (Hin v pv iv Hv Iv) as [Hv1 Hv2].
  destruct (Hin lo plo ilo Hlo Ilo) as [Hl1 _].
  destruct (Hin hi phi ihi Hhi Ihi) as [Hh1 _].
  rewrite Hv1, Hv2, Hl1, Hh1. clear Hin Hv1 Hv2 Hl1 Hh1.
  unfold Number.leb. rewrite Clv, Cvh, Chv, Cvl.
  rewrite (lexicographic_antisym iv ilo), (lexicographic_antisym iv ihi),
          (lexicographic_antisym ilo ihi), !lexicographic_refl.
  pose proof (lexicographic_spec iv ilo) as Svl.
  pose proof (lexicographic_spec iv ihi) as Svh.
  pose proof (lexicographic_spec ilo ihi) as Slh.
  destruct ilo as [[l1 l2] l3], ihi as [[h1 h2] h3], iv as [[v1 v2] v3].
  destruct (VersionUtils.lexicographic (v1, v2, v3) (l1, l2, l3)),
           (VersionUtils.lexicographic (v1, v2, v3) (h1, h2, h3)),
           (VersionUtils.lexicographic (l1, l2, l3) (h1, h2, h3));
    cbn [CompOpp];
    first [ exfalso; lia
          | split; [split; [intros; first [now left; split | now right; split
                                           | discriminate]
                           |intros [[? ?]|[? ?]]; first [reflexivity|discriminate]]
                   |split; [reflexivity|split; reflexivity]] ].
Qed.

Lemma isVersionInRange_closed_interval_witness :
  @VersionUtils.isVersionInRange codeUnitCollator "1.5.0" "2.0.0" "1.0.0" = true.
Proof.
  pose proof (@isVersionInRange_closed_interval codeUnitCollator
                "1.5.0" "1.0.0" "2.0.0" _ _ _ (1, 5, 0) (1, 0, 0) (2, 0, 0)
                eq_refl eq_refl eq_refl eq_refl eq_refl eq_refl)
    as (_ & _ & _ & Hswap).
  rewrite Hswap. reflexivity.
Defined.

(** ** utils.ts: TitleUtils *)

Section TitleFacts.
Import TitleUtils.

Lemma all_removeAll p s :
  Str.all (fun c => negb (p c)) (removeAll p s) = true.
Proof.
  induction s as [|c r IH]; [reflexivity|]. cbn.
  destruct (p c) eqn:Hc; [assumption|]. cbn. now rewrite Hc.
Qed.

Lemma all_keeps_removeAll P p s :
  Str.all P s = true -> Str.all P (removeAll p s) = true.
Proof.
  induction s as [|c r IH]; [reflexivity|]. cbn.
  intros [Hc Hr]%andb_true_iff.
  destruct (p c); [auto|]. cbn. now rewrite Hc, IH.
Qed.

Lemma all_keeps_collapseFrom P b s :
  P " "%char = true ->
  Str.all P s = true -> Str.all P (collapseFrom b s) = true.
Proof.
  intros Hsp. revert b. induction s as [|c r IH]; intros b; [reflexivity|].
  cbn. intros [Hc Hr]%andb_true_iff.
  destruct (Str.isWhiteSpace c), b; cbn; rewrite ?Hsp, ?Hc, ?IH; auto.
Qed.

Lemma all_keeps_trimStart P s :
  Str.all P s = true -> Str.all P (Str.trimStart s) = true.
Proof.
  induction s as [|c r IH]; [reflexivity|]. cbn.
  intros [Hc Hr]%andb_true_iff.
  destruct (Str.isWhiteSpace c); [auto|]. cbn. now rewrite Hc, Hr.
Qed.

Lemma all_keeps_trimEnd P s :
  Str.all P s = true -> Str.all P (Str.trimEnd s) = true.
Proof.
  induction s as [|c r IH]; [reflexivity|]. cbn.
  intros [Hc Hr]%andb_true_iff.
  destruct (Str.isWhiteSpace c && Str.isEmpty (Str.trimEnd r)); [reflexivity|].
  cbn. now rewrite Hc, IH.
Qed.

Lemma all_keeps_trim P s :
  Str.all P s = true -> Str.all P (Str.trim s) = true.
Proof. intros Hs. now apply all_keeps_trimEnd, all_keeps_trimStart. Qed.

Lemma all_keeps_substring0 P n s :
  Str.all P s = true -> Str.all P (Str.substring0 n s) = true.
Proof.
  revert s. induction n as [|n IH]; intros [|c r]; try reflexivity. cbn.
  intros [Hc Hr]%andb_true_iff. now rewrite Hc, IH.
Qed.

Lemma singleSpaced_collapseFrom b s :
  singleSpaced (collapseFrom b s) = true
  /\ headIsText (collapseFrom true s) = true.
Proof.
  revert b. induction s as [|c r IH]; intros b; [now split|].
  cbn [collapseFrom]. destruct (Str.isWhiteSpace c) eqn:Hc.
  - destruct (IH true) as [Hs Hh]. split; [|exact Hh].
    destruct b; [exact Hs|]. cbn. now rewrite Hh, Hs.
  - destruct (IH false) as [Hs _]. cbn. rewrite Hc, Hs. now split.
Qed.

Lemma singleSpaced_tail c r :
  singleSpaced (String c r) = true -> singleSpaced r = true.
Proof. cbn. now intros [_ Hr]%andb_true_iff. Qed.

Lemma singleSpaced_trimStart s :
  singleSpaced s = true -> singleSpaced (Str.trimStart s) = true.
Proof.
  induction s as [|c r IH]; [reflexivity|]. intros Hs. cbn [Str.trimStart].
  destruct (Str.isWhiteSpace c); [|exact Hs].
  apply IH. exact (singleSpaced_tail _ _ Hs).
Qed.

(** A prefix starts as the whole does. *)
Lemma headIsText_trimEnd s :
  headIsText s = true -> headIsText (Str.trimEnd s) = true.
Proof.
  destruct s as [|c r]; [reflexivity|]. cbn. intros Hc.
  apply negb_true_iff in Hc. rewrite Hc. cbn. now rewrite Hc.
Qed.

Lemma headIsText_substring0 n s :
  headIsText s = true -> headIsText (Str.substring0 n s) = true.
Proof. destruct n, s; auto. Qed.

Lemma singleSpaced_trimEnd s :
  singleSpaced s = true -> singleSpaced (Str.trimEnd s) = true.
Proof.
  induction s as [|c r IH]; [reflexivity|]. cbn [singleSpaced Str.trimEnd].
  intros [Hc Hr]%andb_true_iff.
  destruct (Str.isWhiteSpace c && Str.isEmpty (Str.trimEnd r)); [reflexivity|].
  cbn [singleSpaced]. rewrite (IH Hr), andb_true_r.
  apply orb_true_iff in Hc as [Hc|[Hc Hh]%andb_true_iff];
    [now rewrite Hc|].
  rewrite Hc, (headIsText_trimEnd _ Hh). apply orb_true_r.
Qed.

Lemma singleSpaced_substring0 n s :
  singleSpaced s = true -> singleSpaced (Str.substring0 n s) = true.
Proof.
  revert s. induction n as [|n IH]; intros [|c r]; try reflexivity.
  cbn [singleSpaced Str.substring0].
  intros [Hc Hr]%andb_true_iff. rewrite (IH _ Hr), andb_true_r.
  apply orb_true_iff in Hc as [Hc|[Hc Hh]%andb_true_iff];
    [now rewrite Hc|].
  rewrite Hc, (headIsText_substring0 n _ Hh). apply orb_true_r.
Qed.

Lemma length_trimStart s : (String.length (Str.trimStart s) <= String.length s)%nat.
Proof.
  induction s as [|c r IH]; [reflexivity|]. cbn [Str.trimStart].
  destruct (Str.isWhiteSpace c); cbn; lia.
Qed.

Lemma length_trimEnd s : (String.length (Str.trimEnd s) <= String.length s)%nat.
Proof.
  induction s as [|c r IH]; [reflexivity|]. cbn [Str.trimEnd].
  destruct (Str.isWhiteSpace c && Str.isEmpty (Str.trimEnd r)); cbn; lia.
Qed.

Lemma length_substring0 n s : (String.length (Str.substring0 n s) <= n)%nat.
Proof.
  revert s. induction n as [|n IH]; intros [|c r]; cbn; try lia.
  specialize (IH r). lia.
Qed.

Lemma removeAll_fixed p s :
  Str.all (fun c => negb (p c)) s = true -> removeAll p s = s.
Proof.
  induction s as [|c r IH]; [reflexivity|]. cbn.
  intros [Hc Hr]%andb_true_iff. apply negb_true_iff in Hc.
  now rewrite Hc, IH.
Qed.

Lemma collapseFrom_fixed s :
  singleSpaced s = true ->
  collapseFrom false s = s
  /\ (headIsText s = true -> collapseFrom true s = s).
Proof.
  induction s as [|c r IH]; [now split|]. cbn [singleSpaced collapseFrom headIsText].
  intros [Hc Hr]%andb_true_iff. destruct (IH Hr) as [Hf Ht].
  destruct (Str.isWhiteSpace c) eqn:Hw; cbn in Hc |- *.
  - apply andb_true_iff in Hc as [->%Ascii.eqb_eq Hh].
    rewrite (Ht Hh). split; [reflexivity|discriminate].
  - rewrite Hf. now split.
Qed.

Lemma all_weaken (P Q : ascii -> bool) s :
  (forall c, P c = true -> Q c = true) ->
  Str.all P s = true -> Str.all Q s = true.
Proof.
  intros HPQ. induction s as [|c r IH]; [reflexivity|]. cbn.
  intros [Hc Hr]%andb_true_iff. now rewrite (HPQ _ Hc), IH.
Qed.

Lemma sanitizeTitle_isClean t : isClean (sanitizeTitle t) = true.
Proof.
  unfold sanitizeTitle. destruct (Str.isEmpty t); [reflexivity|]. cbv zeta.
  set (stripped := removeAll isAngleBracket (removeAll isMarkdownChar t)).
  set (spaced := normalizeWhitespace stripped).
  assert (Hplain : Str.all isPlainChar spaced = true).
  { apply all_keeps_collapseFrom; [reflexivity|].
    assert (Hmd : Str.all (fun c => negb (isMarkdownChar c)) stripped = true)
      by apply all_keeps_removeAll, all_removeAll.
    pose proof (all_removeAll isAngleBracket (removeAll isMarkdownChar t)) as Han.
    fold stripped in Han. clearbody stripped. clear spaced.
    induction stripped as [|c r IH]; [reflexivity|]. cbn [Str.all] in *.
    apply andb_true_iff in Hmd as [Hc1 Hr1].
    apply andb_true_iff in Han as [Hc2 Hr2].
    unfold isPlainChar at 1. rewrite negb_orb, Hc1, Hc2. cbn [andb]. auto. }
  assert (Hspaced : singleSpaced spaced = true)
    by apply (singleSpaced_collapseFrom false).
  clearbody spaced. clear stripped.
  assert (Htrim : forall s, Str.all isPlainChar s = true ->
                            singleSpaced s = true ->
                            (String.length s <= 128)%nat ->
                            isClean (Str.trim s) = true).
  { intros s Hp Hs Hl. unfold isClean.
    rewrite (all_keeps_trim _ _ Hp), trim_trim, String.eqb_refl.
    unfold Str.trim at 1.
    rewrite (singleSpaced_trimEnd _ (singleSpaced_trimStart _ Hs)). cbn.
    apply Nat.leb_le. unfold Str.trim.
    pose proof (length_trimEnd (Str.trimStart s)).
    pose proof (length_trimStart s). lia. }
  destruct (Nat.ltb_spec 128 (String.length (Str.trim spaced))) as [Hlong|Hshort].
  - apply Htrim.
    + now apply all_keeps_substring0, all_keeps_trim.
    + apply singleSpaced_substring0. unfold Str.trim.
      now apply singleSpaced_trimEnd, singleSpaced_trimStart.
    + apply length_substring0.
  - unfold isClean.
    rewrite (all_keeps_trim _ _ Hplain), trim_trim, String.eqb_refl.
    unfold Str.trim at 1.
    rewrite (singleSpaced_trimEnd _ (singleSpaced_trimStart _ Hspaced)). cbn.
    now apply Nat.leb_le.
Qed.

Lemma sanitizeTitle_fixed s : isClean s = true -> sanitizeTitle s = s.
Proof.
  unfold isClean.
  intros [[[Hp Hs]%andb_true_iff Ht%String.eqb_eq]%andb_true_iff
            Hl%Nat.leb_le]%andb_true_iff.
  unfold sanitizeTitle. destruct s as [|c r] eqn:Es; [reflexivity|].
  rewrite <- Es in *. cbn [Str.isEmpty]. replace (Str.isEmpty s) with false by now rewrite Es.
  cbv zeta.
  rewrite (removeAll_fixed isMarkdownChar s).
  2:{ eapply all_weaken; [|exact Hp]. intros x. unfold isPlainChar.
      rewrite negb_orb. now intros [? _]%andb_true_iff. }
  rewrite (removeAll_fixed isAngleBracket s).
  2:{ eapply all_weaken; [|exact Hp]. intros x. unfold isPlainChar.
      rewrite negb_orb. now intros [_ ?]%andb_true_iff. }
  unfold normalizeWhitespace.
  destruct (collapseFrom_fixed s Hs) as [-> _]. rewrite Ht.
  destruct (Nat.ltb_spec 128 (String.length s)); [lia|reflexivity].
Qed.

End TitleFacts.

(** X10.  What [sanitizeTitle] returns is always a clean title: it holds none
    of the removed characters, no white space but single spaces between other
    characters, none at either end, and at most 128 characters.  The clean
    titles are exactly the ones it leaves as they are, so sanitizing twice
    is sanitizing once. *)
Theorem sanitizeTitle_clean (title : string) :
  TitleUtils.isClean (TitleUtils.sanitizeTitle title) = true
  /\ (TitleUtils.isClean title = true <-> TitleUtils.sanitizeTitle title = title)
  /\ TitleUtils.sanitizeTitle (TitleUtils.sanitizeTitle title)
     = TitleUtils.sanitizeTitle title.
Proof.
  split; [apply sanitizeTitle_isClean|]. split.
  - split; [apply sanitizeTitle_fixed|].
    intros <-. apply sanitizeTitle_isClean.
  - apply sanitizeTitle_fixed, sanitizeTitle_isClean.
Qed.

(** ** utils.ts: the rendered document *)

Section DocumentFacts.
Import ChangelogDiffUtils.
Context `{Calendar}.

Lemma sectionLines_nil withDates (changes : VersionChangesWithVersion) k :
  sectionLines withDates changes k = []
  <-> getSection changes k = None \/ getSection changes k = Some [].
Proof.
  unfold sectionLines.
  destruct (getSection changes k) as [[|e es]|]; split; auto;
    try discriminate; intros [|]; discriminate.
Qed.

(** What the sections add starts with a heading. *)
Lemma body_starts_with_heading withDates (changes : VersionChangesWithVersion) ks :
  match flat_map (sectionLines withDates changes) ks with
  | [] => True
  | line :: rest => exists k, line = "## " ++ sectionTitle k /\ rest <> []
  end.
Proof.
  induction ks as [|k ks IH]; [exact I|]. cbn [flat_map].
  unfold sectionLines at 1.
  destruct (getSection changes k) as [[|e es]|]; try exact IH.
  cbn. exists k. split; [reflexivity|discriminate].
Qed.

Lemma body_nil withDates (changes : VersionChangesWithVersion) :
  flat_map (sectionLines withDates changes) sections = []
  <-> forall k, getSection changes k = None \/ getSection changes k = Some [].
Proof.
  split.
  - intros Hb k. apply (sectionLines_nil withDates).
    assert (Hin : In k sections) by (destruct k; cbn; tauto).
    revert Hb Hin. generalize sections.
    induction l as [|k' ks IH]; [intros _ []|].
    cbn [flat_map]. intros [H1 H2]%app_eq_nil [<-|Hin]; auto.
  - intros Hall. generalize sections.
    induction l as [|k ks IH]; [reflexivity|]. cbn [flat_map].
    rewrite IH. now rewrite (proj2 (sectionLines_nil withDates changes k) (Hall k)).
Qed.

End DocumentFacts.

(** X11.  The rendered document says that no changes were found exactly when
    the changes it is given hold no entry under any of the six categories:
    then it is the title line, a blank line, the notice and a blank line, and
    in no other case.  For changes combined from versions, that is when none
    of the versions lists an entry. *)
Theorem no_changes_notice `{Calendar}
    (repoName title : string) (withDates : bool)
    (combined : VersionChangesWithVersion) (vs : list Version) :
  (content (ChangelogDiffUtils.formatMarkdownDiff repoName combined title withDates)
   = Str.joinLines ["# " ++ title; "";
                    "No changes found in the specified version range."; ""]
   <-> forall k, getSection combined k = None \/ getSection combined k = Some [])
  /\ (content (ChangelogDiffUtils.formatMarkdownDiff repoName
                 (ChangelogDiffUtils.combineChangesWithVersions vs) title withDates)
      = Str.joinLines ["# " ++ title; "";
                       "No changes found in the specified version range."; ""]
      <-> forall v k, In v vs ->
            getSection (changes v) k = None \/ getSection (changes v) k = Some []).
Proof.
  assert (Hgen : forall c : VersionChangesWithVersion,
            content (ChangelogDiffUtils.formatMarkdownDiff repoName c title withDates)
            = Str.joinLines ["# " ++ title; "";
                             "No changes found in the specified version range."; ""]
            <-> forall k, getSection c k = None \/ getSection c k = Some []).
  { intros c. rewrite <- (body_nil withDates c).
    unfold ChangelogDiffUtils.formatMarkdownDiff. cbn [content].
    pose proof (body_starts_with_heading withDates c sections) as Hhead.
    destruct (flat_map (ChangelogDiffUtils.sectionLines withDates c) sections)
      as [|line rest]; [split; reflexivity|].
    split; [|discriminate].
    destruct Hhead as (k & -> & Hrest). intros Heq. exfalso.
    destruct rest as [|l2 rest]; [now apply Hrest|].
    cbn [app Str.joinLines] in Heq.
    apply String.app_inj in Heq.
    change (String "010" ("" ++ String "010" (("## " ++ ChangelogDiffUtils.sectionTitle k)
                                               ++ String "010" (Str.joinLines (l2 :: rest))))
            = String "010" ("" ++ String "010"
                 ("No changes found in the specified version range." ++ String "010" "")))
      in Heq.
    discriminate Heq. }
  split; [apply Hgen|].
  rewrite Hgen. split.
  - intros Hall v k Hin. specialize (Hall k).
    rewrite getSection_combine in Hall.
    assert (He : ChangelogDiffUtils.entriesOf k vs = []).
    { destruct (ChangelogDiffUtils.entriesOf k vs); [reflexivity|].
      destruct Hall; discriminate. }
    unfold ChangelogDiffUtils.entriesOf in He.
    assert (Hv : ChangelogDiffUtils.entriesOfVersion k v = []).
    { clear Hall. induction vs as [|w ws IH]; [destruct Hin|].
      cbn [flat_map] in He. apply app_eq_nil in He as [Hw Hws].
      destruct Hin as [<-|Hin]; auto. }
    unfold ChangelogDiffUtils.entriesOfVersion in Hv.
    destruct (getSection (changes v) k) as [[|e es]|]; auto. discriminate.
  - intros Hall k. left. rewrite getSection_combine.
    replace (ChangelogDiffUtils.entriesOf k vs) with (@nil ChangelogEntryWithVersion);
      [reflexivity|].
    symmetry. unfold ChangelogDiffUtils.entriesOf.
    induction vs as [|w ws IH]; [reflexivity|]. cbn [flat_map].
    rewrite IH by (intros; apply Hall; now right).
    rewrite (entriesOfVersion_empty k w); [reflexivity|].
    destruct (Hall w k (or_introl eq_refl)); auto.
Qed.

(** ** utils.ts: looking a version up *)

Lemma find_label vs label :
  (is_Some (List.find (fun v => String.eqb (version v) label) vs)
   <-> In label (map version vs))
  /\ forall v, List.find (fun v => String.eqb (version v) label) vs = Some v ->
       version v = label /\ In v vs.
Proof.
  induction vs as [|w ws [IHs IHv]]; cbn.
  - split; [split; [intros [? [=]]|intros []]|intros ? [=]].
  - destruct (String.eqb_spec (version w) label) as [Heq|Hne].
    + split; [split; eauto|]. intros v [= <-]. auto.
    + split.
      * rewrite IHs. split; [auto|]. intros [?|?]; [contradiction|assumption].
      * intros v Hv. destruct (IHv v Hv). auto.
Qed.

(** X12.  In the repository parsed from a text, [findVersionInRepository]
    finds a label exactly when the text has a version header with that
    label, trimmed, other than the headers labelled "unreleased"; what it
    returns carries the label asked for.  So a label written with white
    space at an end, and the label "unreleased" in any case, are never
    found. *)
Theorem findVersion_in_parsed_repository (n p content label : string) :
  let r := ChangelogParser.parseContent n p content in
  (is_Some (ChangelogDiffUtils.findVersionInRepository r label)
   <-> In label (map fst (ChangelogParser.releasedHeaders (Str.splitLines content))))
  /\ (forall v, ChangelogDiffUtils.findVersionInRepository r label = Some v ->
        version v = label
        /\ In (label, date v)
              (ChangelogParser.releasedHeaders (Str.splitLines content)))
  /\ (Str.toLowerCase label = "unreleased" ->
      ChangelogDiffUtils.findVersionInRepository r label = None)
  /\ (Str.trim label <> label ->
      ChangelogDiffUtils.findVersionInRepository r label = None).
Proof.
  intros r.
  assert (Hheaders : map (fun v => (version v, date v)) (versions r)
                     = ChangelogParser.releasedHeaders (Str.splitLines content)).
  { unfold r, ChangelogParser.parseContent, ChangelogParser.parseLines.
    rewrite fold_headers; [reflexivity|].
    split; [constructor|]. intros v [=]. }
  assert (Hwf : ChangelogParser.wellFormedRepository r).
  { unfold r, ChangelogParser.parseContent, ChangelogParser.parseLines.
    apply wellFormed_saveCurrent, wellFormed_fold.
    split; [split|]; cbn.
    - apply Forall_nil_2.
    - intros c [=].
    - intros v [=]. }
  pose proof (versions_never_unreleased n p (Str.splitLines content)) as Hun.
  fold (ChangelogParser.parseContent n p content) in Hun. fold r in Hun.
  destruct (find_label (versions r) label) as [Hsome Hfound].
  unfold ChangelogDiffUtils.findVersionInRepository.
  split; [|split; [|split]].
  - rewrite Hsome, <- Hheaders, map_map. reflexivity.
  - intros v Hv. destruct (Hfound v Hv) as [Hl Hin]. split; [assumption|].
    rewrite <- Hheaders, <- Hl.
    apply (in_map (fun v => (version v, date v))), Hin.
  - intros Hlow.
    destruct (List.find _ (versions r)) as [v|] eqn:Hv; [|reflexivity].
    destruct (Hfound v eq_refl) as [Hl Hin]. exfalso.
    rewrite List.Forall_forall in Hun. apply (Hun v); [assumption|].
    now rewrite Hl.
  - intros Htrim.
    destruct (List.find _ (versions r)) as [v|] eqn:Hv; [|reflexivity].
    destruct (Hfound v eq_refl) as [Hl Hin]. exfalso.
    destruct Hwf as [Hvs _]. rewrite List.Forall_forall in Hvs.
    destruct (Hvs v) as [Ht _]; [assumption|].
    apply Htrim. now rewrite <- Hl.
Qed.

Lemma findVersion_in_parsed_repository_witness :
  ChangelogDiffUtils.findVersionInRepository
    (ChangelogParser.parseContent "r" "/r"
       (text ["## [Unreleased]"; "### Added"; "- x"; "## [1.0.0] - 2024-01-01"]))
    "Unreleased" = None
  /\ ChangelogDiffUtils.findVersionInRepository
       (ChangelogParser.parseContent "r" "/r"
          (text ["## [Unreleased]"; "### Added"; "- x"; "## [1.0.0] - 2024-01-01"]))
       "1.0.0 " = None.
Proof.
  pose proof (findVersion_in_parsed_repository "r" "/r"
                (text ["## [Unreleased]"; "### Added"; "- x";
                       "## [1.0.0] - 2024-01-01"]) "Unreleased")
    as (_ & _ & Hun & _).
  pose proof (findVersion_in_parsed_repository "r" "/r"
                (text ["## [Unreleased]"; "### Added"; "- x";
                       "## [1.0.0] - 2024-01-01"]) "1.0.0 ")
    as (_ & _ & _ & Htrim).
  split; [apply Hun; reflexivity|apply Htrim; discriminate].
Defined.

(** ** utils.ts: selecting versions *)

Lemma parseVersion_not_blank s v :
  VersionUtils.parseVersion s = Some v -> ChangelogDiffUtils.noVersion (Some s) = false.
Proof.
  intros Hs. rewrite noVersion_Some.
  unfold VersionUtils.parseVersion, VersionUtils.numberDot in Hs.
  destruct s as [|c r]; [discriminate|]. cbn [Str.all].
  destruct (Str.isWhiteSpace c) eqn:Hw; [|reflexivity].
  exfalso. cbn [Str.span] in Hs.
  destruct (Str.isDigit c) eqn:Hd; [|discriminate].
  destruct c as [[] [] [] [] [] [] [] []]; discriminate.
Qed.

(** X13.  A diff since a version leaves that version out, a diff between two
    versions takes both of them in.  With labels that parse to finite
    numbers: a version of the repository with the same three numbers as the
    base is never among the versions selected since the base, and a version
    with the same three numbers as one of the two bounds is always among the
    versions selected between them, in whichever order the bounds are
    given. *)
Theorem since_excludes_between_includes `{Collator}
    (repository : Repository) (v : Version) (base other : string)
    (numbers pother : VersionUtils.SemVer) (triple tother : Z * Z * Z) :
  In v (versions repository) ->
  VersionUtils.parseVersion (version v) = Some numbers ->
  VersionUtils.parseVersion base = Some numbers ->
  VersionUtils.parseVersion other = Some pother ->
  VersionUtils.integers numbers = Some triple ->
  VersionUtils.integers pother = Some tother ->
  ~ In v (ChangelogDiffUtils.filterVersionsSince repository (Some base))
  /\ In v (ChangelogDiffUtils.filterVersionsBetween repository base other)
  /\ In v (ChangelogDiffUtils.filterVersionsBetween repository other base).
Proof.
  intros Hin Hv Hbase Hother It Io.
  pose proof (compareVersions_lex (version v) base _ _ _ _ Hv Hbase It It) as Cvb.
  pose proof (compareVersions_lex (version v) other _ _ _ _ Hv Hother It Io) as Cvo.
  pose proof (compareVersions_lex base other _ _ _ _ Hbase Hother It Io) as Cbo.
  pose proof (compareVersions_lex other base _ _ _ _ Hother Hbase Io It) as Cob.
  rewrite lexicographic_refl in Cvb.
  rewrite (lexicographic_antisym triple tother) in Cob.
  split; [|split].
  - unfold ChangelogDiffUtils.filterVersionsSince.
    rewrite (parseVersion_not_blank base numbers Hbase).
    rewrite filter_In. intros [_ Hnew].
    unfold VersionUtils.isVersionNewer, Number.gtb in Hnew.
    rewrite Cvb in Hnew. discriminate.
  - unfold ChangelogDiffUtils.filterVersionsBetween. apply filter_In.
    split; [assumption|].
    unfold VersionUtils.isVersionInRange, Number.leb, Number.geb.
    rewrite Cbo.
    destruct (VersionUtils.lexicographic triple tother); cbv zeta;
      rewrite Cvb, Cvo; reflexivity.
  - unfold ChangelogDiffUtils.filterVersionsBetween. apply filter_In.
    split; [assumption|].
    unfold VersionUtils.isVersionInRange, Number.leb, Number.geb.
    rewrite Cob.
    destruct (VersionUtils.lexicographic triple tother); cbn [CompOpp];
      cbv zeta; rewrite Cvb, Cvo; reflexivity.
Qed.

Lemma since_excludes_between_includes_witness :
  In {| version := "1.5.2"; date := Some "2024-02-01"; changes := noChanges |}
     (@ChangelogDiffUtils.filterVersionsBetween codeUnitCollator
        {| name := "r"; path := "/r";
           versions := [{| version := "1.5.2"; date := Some "2024-02-01";
                           changes := noChanges |}];
           unreleased := None |}
        "2.0.0" "1.5.2-rc.1").
Proof.
  apply (@since_excludes_between_includes codeUnitCollator
           {| name := "r"; path := "/r";
              versions := [{| version := "1.5.2"; date := Some "2024-02-01";
                              changes := noChanges |}];
              unreleased := None |}
           {| version := "1.5.2"; date := Some "2024-02-01"; changes := noChanges |}
           "1.5.2-rc.1" "2.0.0"
           {| VersionUtils.major := Number.Finite 1; VersionUtils.minor := Number.Finite 5;
              VersionUtils.patch := Number.Finite 2 |}
           {| VersionUtils.major := Number.Finite 2; VersionUtils.minor := Number.Finite 0;
              VersionUtils.patch := Number.Finite 0 |}
           (1, 5, 2) (2, 0, 0)).
  - left. reflexivity.
  - reflexivity.
  - reflexivity.
  - reflexivity.
  - reflexivity.
  - reflexivity.
Defined.

(** ** cache.ts: the cache on the reference database *)

Section MemoryCacheRuns.
Context `{Json}.
#[local] Existing Instance memoryStorage.
#[local] Existing Instance memoryMaintenance.

(** What [get] computes on the reference database. *)
Lemma get_memory this env repo repoPath operation params (db : gmap string Row) :
  CacheManager.get this env repo repoPath operation params db
  = (Ok (if CacheManager.enabled this && CacheManager.hasDb this
         then match fileMtime env repoPath with
              | Some m =>
                  match db !! CacheManager.generateCacheKey repo m operation params with
                  | Some r => match JSON_parse (data r) with
                              | Ok d => Some d
                              | Throw _ => None
                              end
                  | None => None
                  end
              | None => None
              end
         else None), db).
Proof.
  unfold CacheManager.get, CacheManager.getFileMtime, tryCatch, bind, lift, ret.
  destruct (CacheManager.enabled this), (CacheManager.hasDb this);
    cbn [negb orb andb]; try reflexivity.
  destruct (fileMtime env repoPath) as [m|]; [|reflexivity].
  cbv beta zeta.
  rewrite (selectByKey_memory
             (CacheManager.generateCacheKey repo m operation params) db).
  destruct (db !! CacheManager.generateCacheKey repo m operation params) as [r|];
    [|reflexivity].
  cbn. destruct (JSON_parse (data r)); reflexivity.
Qed.

(** What [set] computes on the reference database. *)
Lemma set_memory this env repo repoPath operation params payload
    (db : gmap string Row) :
  CacheManager.set this env repo repoPath operation params payload db
  = (Ok tt,
     if CacheManager.enabled this && CacheManager.hasDb this
     then match fileMtime env repoPath, JSON_stringify payload with
          | Some m, Ok t =>
              <[CacheManager.generateCacheKey repo m operation params :=
                  {| key := CacheManager.generateCacheKey repo m operation params;
                     repo := repo; file_mtime := m; data := t;
                     created_at := now env |}]> db
          | _, _ => db
          end
     else db).
Proof.
  unfold CacheManager.set, CacheManager.getFileMtime, tryCatch, bind, lift, ret.
  destruct (CacheManager.enabled this), (CacheManager.hasDb this);
    cbn [negb orb andb]; try reflexivity.
  destruct (fileMtime env repoPath) as [m|]; [|reflexivity].
  cbv beta zeta. destruct (JSON_stringify payload); reflexivity.
Qed.

Lemma invalidateRepo_memory this r (db : gmap string Row) :
  CacheManager.invalidateRepo this r db
  = (Ok tt,
     if CacheManager.enabled this && CacheManager.hasDb this
     then filter (fun kv : string * Row => repo kv.2 <> r) db
     else db).
Proof.
  unfold CacheManager.invalidateRepo, tryCatch, ret.
  destruct (CacheManager.enabled this), (CacheManager.hasDb this); reflexivity.
Qed.

Lemma cleanup_memory this env (db : gmap string Row) :
  CacheManager.cleanup this env db
  = (Ok tt,
     if CacheManager.enabled this && CacheManager.hasDb this
     then filter (fun kv : string * Row =>
                    now env - CacheManager.ttlMs this <= created_at kv.2) db
     else db).
Proof.
  unfold CacheManager.cleanup, tryCatch, bind, ret.
  destruct (CacheManager.enabled this), (CacheManager.hasDb this); reflexivity.
Qed.

End MemoryCacheRuns.

(** X14.  Invalidating a repository drops what was cached for it and nothing
    else.  With the cache enabled on the reference database: a payload
    written for the repository is no longer served after the invalidation,
    and a payload written for any other repository still is. *)
Theorem invalidateRepo_drops_that_repository `{Json} `{!JsonRoundTrip}
    (this : CacheManager.t) (env : Env)
    (repo other repoPath otherPath operation params : string)
    (payload : VersionChangesWithVersion) (m m' : Z) (db : gmap string Row) :
  CacheManager.enabled this = true -> CacheManager.hasDb this = true ->
  fileMtime env repoPath = Some m ->
  fileMtime env otherPath = Some m' ->
  other <> repo ->
  fst (@CacheManager.get _ memoryStorage this env repo repoPath operation params
         (snd (@CacheManager.invalidateRepo _ memoryStorage memoryMaintenance this repo
                 (snd (@CacheManager.set _ memoryStorage this env repo repoPath
                         operation params payload db)))))
  = Ok None
  /\ fst (@CacheManager.get _ memoryStorage this env other otherPath operation params
            (snd (@CacheManager.invalidateRepo _ memoryStorage memoryMaintenance this repo
                    (snd (@CacheManager.set _ memoryStorage this env other otherPath
                            operation params payload db)))))
     = Ok (Some payload).
Proof.
  intros He Hd Hm Hm' Hne.
  destruct (json_round_trip payload) as (t & Hs & Hp).
  rewrite !get_memory, !invalidateRepo_memory, !set_memory.
  rewrite He, Hd, Hm, Hm', Hs. cbn [andb fst snd]. split.
  - rewrite map_lookup_filter, lookup_insert_eq. cbn.
    rewrite option_guard_False; [reflexivity|]. intros Hr. now apply Hr.
  - rewrite map_lookup_filter, lookup_insert_eq. cbn.
    rewrite option_guard_True by exact Hne. cbn. now rewrite Hp.
Qed.

Lemma invalidateRepo_drops_that_repository_witness :
  let cm := {| CacheManager.enabled := true; CacheManager.hasDb := true;
               CacheManager.ttlMs := 3600000 |} in
  fst (@CacheManager.get idealJson memoryStorage cm (envAt 100 5)
         "other" "./other" "since" "1.0.0"
         (snd (@CacheManager.invalidateRepo idealJson memoryStorage memoryMaintenance
                 cm "test-repo"
                 (snd (@CacheManager.set idealJson memoryStorage cm (envAt 100 5)
                         "other" "./other" "since" "1.0.0"
                         (samplePayload "2.0.0") ∅)))))
  = Ok (Some (samplePayload "2.0.0")).
Proof.
  intros cm.
  apply (@invalidateRepo_drops_that_repository idealJson idealJson_round_trip
           cm (envAt 100 5) "test-repo" "other" "./test-cache-repo" "./other"
           "since" "1.0.0" (samplePayload "2.0.0") 100 100 ∅);
    [reflexivity|reflexivity|reflexivity|reflexivity|discriminate].
Defined.

(** X15.  It is [cleanup] that makes a record expire.  With the cache enabled
    on the reference database: a payload written at one time, after a cleanup
    run at a later time, is served exactly when its age at the cleanup is at
    most the time to live, whenever it is then asked for; an older one is
    gone. *)
Theorem cleanup_expires_old_records `{Json} `{!JsonRoundTrip}
    (this : CacheManager.t) (written sweep read : Env)
    (repo repoPath operation params : string)
    (payload : VersionChangesWithVersion) (m : Z) (db : gmap string Row) :
  CacheManager.enabled this = true -> CacheManager.hasDb this = true ->
  fileMtime written repoPath = Some m ->
  fileMtime read repoPath = Some m ->
  fst (@CacheManager.get _ memoryStorage this read repo repoPath operation params
         (snd (@CacheManager.cleanup _ memoryStorage memoryMaintenance this sweep
                 (snd (@CacheManager.set _ memoryStorage this written repo repoPath
                         operation params payload db)))))
  = Ok (if now sweep - now written <=? CacheManager.ttlMs this
        then Some payload else None).
Proof.
  intros He Hd Hw Hr.
  destruct (json_round_trip payload) as (t & Hs & Hp).
  rewrite get_memory, cleanup_memory, set_memory.
  rewrite He, Hd, Hw, Hr, Hs. cbn [andb fst snd].
  rewrite map_lookup_filter, lookup_insert_eq. cbn.
  destruct (Z.leb_spec (now sweep - now written) (CacheManager.ttlMs this)).
  - rewrite option_guard_True by lia. cbn. now rewrite Hp.
  - rewrite option_guard_False by lia. reflexivity.
Qed.

Lemma cleanup_expires_old_records_witness :
  let cm := {| CacheManager.enabled := true; CacheManager.hasDb := true;
               CacheManager.ttlMs := 1000 |} in
  fst (@CacheManager.get idealJson memoryStorage cm (envAt 100 6000)
         "test-repo" "./test-cache-repo" "since" "1.0.0"
         (snd (@CacheManager.cleanup idealJson memoryStorage memoryMaintenance
                 cm (envAt 100 5000)
                 (snd (@CacheManager.set idealJson memoryStorage cm (envAt 100 0)
                         "test-repo" "./test-cache-repo" "since" "1.0.0"
                         (samplePayload "2.0.0") ∅)))))
  = Ok None.
Proof.
  intros cm.
  apply (@cleanup_expires_old_records idealJson idealJson_round_trip
           cm (envAt 100 0) (envAt 100 5000) (envAt 100 6000)
           "test-repo" "./test-cache-repo" "since" "1.0.0"
           (samplePayload "2.0.0") 100 ∅); reflexivity.
Defined.

(** X16.  Writing touches one record and reading none.  With the cache
    enabled on the reference database: of two payloads written one after the
    other under the same repository, operation and parameters, the file
    unchanged, the second is the one served; a [set] changes no [get] whose
    derived key is another one; and a [get] leaves the database as it found
    it, whatever it finds. *)
Theorem set_overwrites_one_record `{Json} `{!JsonRoundTrip}
    (this : CacheManager.t) (first second read : Env)
    (repo repoPath operation params : string)
    (earlier later : VersionChangesWithVersion) (m : Z) (db : gmap string Row) :
  CacheManager.enabled this = true -> CacheManager.hasDb this = true ->
  fileMtime first repoPath = Some m ->
  fileMtime second repoPath = Some m ->
  fileMtime read repoPath = Some m ->
  fst (@CacheManager.get _ memoryStorage this read repo repoPath operation params
         (snd (@CacheManager.set _ memoryStorage this second repo repoPath
                 operation params later
                 (snd (@CacheManager.set _ memoryStorage this first repo repoPath
                         operation params earlier db)))))
  = Ok (Some later)
  /\ (forall (env' : Env) (repo' repoPath' operation' params' : string),
        (forall m', fileMtime env' repoPath' = Some m' ->
           CacheManager.generateCacheKey repo' m' operation' params'
           <> CacheManager.generateCacheKey repo m operation params) ->
        fst (@CacheManager.get _ memoryStorage this env' repo' repoPath'
               operation' params'
               (snd (@CacheManager.set _ memoryStorage this first repo repoPath
                       operation params earlier db)))
        = fst (@CacheManager.get _ memoryStorage this env' repo' repoPath'
                 operation' params' db))
  /\ (forall (env' : Env) (repo' repoPath' operation' params' : string)
             (db' : gmap string Row),
        snd (@CacheManager.get _ memoryStorage this env' repo' repoPath'
               operation' params' db') = db').
Proof.
  intros He Hd Hf Hs Hr.
  destruct (json_round_trip earlier) as (t1 & Hs1 & Hp1).
  destruct (json_round_trip later) as (t2 & Hs2 & Hp2).
  split; [|split].
  - rewrite get_memory, !set_memory.
    rewrite He, Hd, Hf, Hs, Hr, Hs1, Hs2. cbn [andb fst snd].
    rewrite lookup_insert_eq. cbn. now rewrite Hp2.
  - intros env' repo' repoPath' operation' params' Hkey.
    rewrite !get_memory, set_memory.
    rewrite He, Hd, Hf, Hs1. cbn [andb fst snd].
    destruct (fileMtime env' repoPath') as [m'|]; [|reflexivity].
    rewrite lookup_insert_ne; [reflexivity|].
    intros Heq. now apply (Hkey m' eq_refl).
  - intros. now rewrite get_memory.
Qed.

Lemma set_overwrites_one_record_witness :
  let cm := {| CacheManager.enabled := true; CacheManager.hasDb := true;
               CacheManager.ttlMs := 3600000 |} in
  fst (@CacheManager.get idealJson memoryStorage cm (envAt 100 2)
         "test-repo" "./test-cache-repo" "since" "1.0.0"
         (snd (@CacheManager.set idealJson memoryStorage cm (envAt 100 1)
                 "test-repo" "./test-cache-repo" "since" "1.0.0"
                 (samplePayload "second")
                 (snd (@CacheManager.set idealJson memoryStorage cm (envAt 100 0)
                         "test-repo" "./test-cache-repo" "since" "1.0.0"
                         (samplePayload "first") ∅)))))
  = Ok (Some (samplePayload "second")).
Proof.
  intros cm.
  apply (@set_overwrites_one_record idealJson idealJson_round_trip
           cm (envAt 100 0) (envAt 100 1) (envAt 100 2)
           "test-repo" "./test-cache-repo" "since" "1.0.0"
           (samplePayload "first") (samplePayload "second") 100 ∅); reflexivity.
Defined.

(** ** cache.ts: the derived keys *)

Lemma pretty_N_go_all (P : ascii -> bool) x s :
  (forall n, P (pretty_N_char n) = true) ->
  Str.all P s = true -> Str.all P (pretty_N_go x s) = true.
Proof.
  intros Hchar. revert s.
  induction (N.lt_wf_0 x) as [x _ IH]; intros s Hs.
  assert (x = 0 \/ 0 < x)%N as [->|Hpos] by lia.
  - now rewrite pretty_N_go_0.
  - rewrite pretty_N_go_step by assumption. apply IH.
    + now apply N.div_lt.
    + cbn. now rewrite Hchar, Hs.
Qed.

Lemma pretty_Z_noUnderscore (z : Z) : CacheManager.noUnderscore (pretty z) = true.
Proof.
  assert (Hchar : forall n, negb (Ascii.eqb (pretty_N_char n) "_") = true).
  { intros n. unfold pretty_N_char.
    repeat (match goal with |- context [match ?x with _ => _ end] => destruct x end;
            try reflexivity). }
  assert (HN : forall n : N, CacheManager.noUnderscore (pretty n) = true).
  { intros n. unfold pretty, pretty_N, CacheManager.noUnderscore.
    destruct (decide (n = 0%N)); [reflexivity|].
    now apply pretty_N_go_all. }
  destruct z as [|q|q]; [reflexivity|apply (HN (Npos q))|].
  unfold pretty, pretty_Z.
  change ("-" +:+ pretty q) with (String "-" (pretty (Npos q))).
  unfold CacheManager.noUnderscore. cbn [Str.all]. apply (HN (Npos q)).
Qed.

(** The first underscore of a text splits it in one way. *)
Lemma split_at_underscore a b x y :
  CacheManager.noUnderscore a = true -> CacheManager.noUnderscore b = true ->
  a ++ "_" ++ x = b ++ "_" ++ y -> a = b /\ x = y.
Proof.
  unfold CacheManager.noUnderscore. revert b.
  induction a as [|c a IH]; intros [|d b] Ha Hb Heq.
  - change (String "_" x = String "_" y) in Heq. now injection Heq.
  - change (String "_" x = String d (b ++ "_" ++ y)) in Heq.
    injection Heq as <- _. cbn in Hb. discriminate.
  - change (String c (a ++ "_" ++ x) = String "_" y) in Heq.
    injection Heq as -> _. cbn in Ha. discriminate.
  - change (String c (a ++ "_" ++ x) = String d (b ++ "_" ++ y)) in Heq.
    injection Heq as <- Heq. cbn [Str.all] in Ha, Hb.
    apply andb_true_iff in Ha as [_ Ha]. apply andb_true_iff in Hb as [_ Hb].
    destruct (IH b Ha Hb Heq) as [-> ->]. now split.
Qed.

(** X17.  The derived key tells its four parts apart as long as the
    repository names and the operations hold no underscore: two keys are then
    equal only when the repository, the modification time, the operation and
    the parameters all are.  (The parameters may hold underscores.) *)
Theorem generateCacheKey_injective
    (repo repo' operation operation' params params' : string) (m m' : Z) :
  CacheManager.noUnderscore repo = true ->
  CacheManager.noUnderscore repo' = true ->
  CacheManager.noUnderscore operation = true ->
  CacheManager.noUnderscore operation' = true ->
  CacheManager.generateCacheKey repo m operation params
  = CacheManager.generateCacheKey repo' m' operation' params' ->
  repo = repo' /\ m = m' /\ operation = operation' /\ params = params'.
Proof.
  intros Hr Hr' Ho Ho'. unfold CacheManager.generateCacheKey. intros Heq.
  apply split_at_underscore in Heq as [-> Heq]; try assumption.
  apply split_at_underscore in Heq as [Hm Heq];
    try apply pretty_Z_noUnderscore.
  apply (inj pretty) in Hm as ->.
  apply split_at_underscore in Heq as [-> ->]; try assumption.
  auto.
Qed.

Lemma generateCacheKey_injective_witness :
  "test-repo" = "test-repo" /\ 100 = 100 /\ "since" = "since"
  /\ "1.0.0_beta" = "1.0.0_beta".
Proof.
  apply (generateCacheKey_injective "test-repo" "test-repo" "since" "since"
           "1.0.0_beta" "1.0.0_beta" 100 100); reflexivity.
Defined.

(** X18.  With an underscore in a repository name the keys run together: what
    was written for a repository, under parameters that spell a modification
    time, the operation and further parameters, is served to the repository
    whose name is the first one's followed by its modification time and the
    operation, when that one asks with the further parameters and its file
    has the spelled modification time. *)
Theorem keys_run_together `{Json} `{!JsonRoundTrip}
    (this : CacheManager.t) (env : Env)
    (repo repoPath longerPath operation params : string) (m m2 : Z)
    (payload : VersionChangesWithVersion) (db : gmap string Row) :
  CacheManager.enabled this = true -> CacheManager.hasDb this = true ->
  fileMtime env repoPath = Some m ->
  fileMtime env longerPath = Some m2 ->
  fst (@CacheManager.get _ memoryStorage this env
         (repo ++ "_" ++ pretty m ++ "_" ++ operation) longerPath operation params
         (snd (@CacheManager.set _ memoryStorage this env repo repoPath operation
                 (pretty m2 ++ "_" ++ operation ++ "_" ++ params) payload db)))
  = Ok (Some payload).
Proof.
  intros He Hd Hm Hm2.
  destruct (json_round_trip payload) as (t & Hs & Hp).
  rewrite get_memory, set_memory.
  rewrite He, Hd, Hm, Hm2, Hs. cbn [andb fst snd].
  assert (Hkey : CacheManager.generateCacheKey
                   (repo ++ "_" ++ pretty m ++ "_" ++ operation) m2 operation params
                 = CacheManager.generateCacheKey repo m operation
                     (pretty m2 ++ "_" ++ operation ++ "_" ++ params)).
  { unfold CacheManager.generateCacheKey.
    rewrite <- !append_assoc. reflexivity. }
  rewrite Hkey, lookup_insert_eq. cbn. now rewrite Hp.
Qed.

Lemma keys_run_together_witness :
  let cm := {| CacheManager.enabled := true; CacheManager.hasDb := true;
               CacheManager.ttlMs := 3600000 |} in
  fst (@CacheManager.get idealJson memoryStorage cm (envAt 100 5)
         "app_100_since" "./app_100_since" "since" "1.0.0"
         (snd (@CacheManager.set idealJson memoryStorage cm (envAt 100 5)
                 "app" "./app" "since" "100_since_1.0.0"
                 (samplePayload "2.0.0") ∅)))
  = Ok (Some (samplePayload "2.0.0")).
Proof.
  intros cm.
  apply (@keys_run_together idealJson idealJson_round_trip cm (envAt 100 5)
           "app" "./app" "./app_100_since" "since" "1.0.0" 100 100
           (samplePayload "2.0.0") ∅); reflexivity.
Defined.

(** ** utils.ts: asking twice *)

Section Repeats.
Context `{Json} `{!JsonRoundTrip}.
#[local] Existing Instance memoryStorage.
Local Open Scope cache_scope.

(** The pattern of both cached diffs: look the payload up, else compute it
    and write it through. *)
Lemma through_cache_repeats {A} (cm : CacheManager.t) (env env' : Env)
    (repo repoPath operation params : string)
    (computed : VersionChangesWithVersion)
    (finish : VersionChangesWithVersion -> A) (db : gmap string Row) :
  fileMtime env' repoPath = fileMtime env repoPath ->
  let run (e : Env) : M A :=
    let! cached := CacheManager.get cm e repo repoPath operation params in
    let! combinedChanges :=
      match cached with
      | Some c => ret c
      | None =>
          let! _ := CacheManager.set cm e repo repoPath operation params computed in
          ret computed
      end in
    ret (finish combinedChanges) in
  run env' (snd (run env db)) = run env db.
Proof.
  intros Hm run. unfold run, bind, ret.
  destruct (json_round_trip computed) as (t & Hs & Hp).
  rewrite (get_memory cm env).
  set (found := if CacheManager.enabled cm && CacheManager.hasDb cm
                then match fileMtime env repoPath with
                     | Some m =>
                         match db !! CacheManager.generateCacheKey repo m operation params with
                         | Some r => match JSON_parse (data r) with
                                     | Ok d => Some d
                                     | Throw _ => None
                                     end
                         | None => None
                         end
                     | None => None
                     end
                else None).
  destruct found as [c|] eqn:Hfound.
  - cbn [snd]. rewrite (get_memory cm env'), Hm. fold found. now rewrite Hfound.
  - rewrite (set_memory cm env). cbn [snd].
    rewrite (get_memory cm env'), Hm, Hs. clear Hfound found.
    destruct (CacheManager.enabled cm && CacheManager.hasDb cm) eqn:Hen.
    + destruct (fileMtime env repoPath) as [m|] eqn:Hmt.
      * rewrite lookup_insert_eq. cbn [data]. rewrite Hp. reflexivity.
      * rewrite (set_memory cm env'), Hen, Hm. reflexivity.
    + rewrite (set_memory cm env'), Hen. reflexivity.
Qed.

End Repeats.

(** X19.  Asking twice gives the same answer.  On the reference database,
    whatever it holds and whether the cache is enabled or not: a since-diff
    or a range-diff asked for a second time, the file unchanged in between,
    is the diff returned the first time, and the second request leaves the
    database as the first one left it. *)
Theorem cached_diffs_repeat `{Collator} `{Calendar} `{Json} `{!JsonRoundTrip}
    (cm : CacheManager.t) (env env' : Env) (repository : Repository)
    (sinceVersion customTitle : option string) (version1 version2 : string)
    (withDates : bool) (db : gmap string Row) :
  fileMtime env' (path repository) = fileMtime env (path repository) ->
  @ChangelogDiffUtils.createSinceDiff _ _ _ memoryStorage cm env' repository
    sinceVersion customTitle withDates
    (snd (@ChangelogDiffUtils.createSinceDiff _ _ _ memoryStorage cm env repository
            sinceVersion customTitle withDates db))
  = @ChangelogDiffUtils.createSinceDiff _ _ _ memoryStorage cm env repository
      sinceVersion customTitle withDates db
  /\ @ChangelogDiffUtils.createRangeDiff _ _ _ memoryStorage cm env' repository
       version1 version2 withDates
       (snd (@ChangelogDiffUtils.createRangeDiff _ _ _ memoryStorage cm env repository
               version1 version2 withDates db))
     = @ChangelogDiffUtils.createRangeDiff _ _ _ memoryStorage cm env repository
         version1 version2 withDates db.
Proof.
  intros Hm. split.
  - exact (through_cache_repeats cm env env' (name repository) (path repository)
             "since" (ChangelogDiffUtils.sinceCacheKey sinceVersion)
             (ChangelogDiffUtils.combineChangesWithVersions
                (ChangelogDiffUtils.filterVersionsSince repository sinceVersion))
             (fun c => ChangelogDiffUtils.formatMarkdownDiff (name repository) c
                         (@ChangelogDiffUtils.sinceTitle sinceVersion customTitle)
                         withDates)
             db Hm).
  - exact (through_cache_repeats cm env env' (name repository) (path repository)
             "diff" (ChangelogDiffUtils.rangeCacheKey version1 version2)
             (ChangelogDiffUtils.combineChangesWithVersions
                (ChangelogDiffUtils.filterVersionsBetween repository version1 version2))
             (fun c =>
                let diff :=
                  ChangelogDiffUtils.formatMarkdownDiff (name repository) c
                    (ChangelogDiffUtils.rangeTitle repository version1 version2)
                    withDates in
                {| content := content diff; title := title diff;
                   fromVersion := Some (ChangelogDiffUtils.rangeMin version1 version2);
                   toVersion := Some (ChangelogDiffUtils.rangeMax version1 version2) |})
             db Hm).
Qed.

Lemma cached_diffs_repeat_witness :
  let cm := {| CacheManager.enabled := true; CacheManager.hasDb := true;
               CacheManager.ttlMs := 3600000 |} in
  let repository :=
    ChangelogParser.parseLines "r" "/r"
      ["## [2.0.0] - 2024-02-01"; "### Added"; "- New feature A";
       "## [1.0.0] - 2024-01-01"; "### Fixed"; "- A fix"] in
  @ChangelogDiffUtils.createSinceDiff codeUnitCollator noCalendar idealJson
    memoryStorage cm (envAt 100 9) repository (Some "1.0.0") None false
    (snd (@ChangelogDiffUtils.createSinceDiff codeUnitCollator noCalendar idealJson
            memoryStorage cm (envAt 100 0) repository (Some "1.0.0") None false ∅))
  = @ChangelogDiffUtils.createSinceDiff codeUnitCollator noCalendar idealJson
      memoryStorage cm (envAt 100 0) repository (Some "1.0.0") None false ∅.
Proof.
  intros cm repository.
  apply (@cached_diffs_repeat codeUnitCollator noCalendar idealJson
           idealJson_round_trip cm (envAt 100 0) (envAt 100 9) repository
           (Some "1.0.0") None "1.0.0" "2.0.0" false ∅).
  reflexivity.
Defined.

(** ** server.ts: the configuration *)

Lemma split_without sep s :
  Str.without sep s = true -> Str.split sep s = [s].
Proof.
  unfold Str.without. induction s as [|c r IH]; [reflexivity|].
  cbn. intros [Hc Hr]%andb_true_iff. apply negb_true_iff in Hc.
  now rewrite Hc, (IH Hr).
Qed.

Lemma split_app sep x r :
  Str.without sep x = true ->
  Str.split sep (x ++ String sep r) = x :: Str.split sep r.
Proof.
  unfold Str.without. induction x as [|c x IH].
  - intros _. change ("" ++ String sep r) with (String sep r).
    cbn. now rewrite Ascii.eqb_refl.
  - cbn [Str.all]. intros [Hc Hx]%andb_true_iff. apply negb_true_iff in Hc.
    change (String c x ++ String sep r) with (String c (x ++ String sep r)).
    cbn [Str.split]. now rewrite Hc, (IH Hx).
Qed.

Lemma split_joinWith sep parts :
  Forall (fun p => Str.without sep p = true) parts ->
  Str.split sep (Str.joinWith (String sep "") parts)
  = match parts with [] => [""] | _ => parts end.
Proof.
  induction 1 as [|x l Hx Hl IH]; [reflexivity|].
  destruct l as [|y l]; [now apply split_without|].
  change (Str.joinWith (String sep "") (x :: y :: l))
    with (x ++ String sep "" ++ Str.joinWith (String sep "") (y :: l)).
  change (String sep "" ++ Str.joinWith (String sep "") (y :: l))
    with (String sep (Str.joinWith (String sep "") (y :: l))).
  rewrite (split_app sep x _ Hx), IH. reflexivity.
Qed.

Lemma split_parts_without sep s :
  Forall (fun p => Str.without sep p = true) (Str.split sep s).
Proof.
  induction s as [|c r IH]; [repeat constructor|]. cbn [Str.split].
  destruct (Ascii.eqb c sep) eqn:Hc; [now constructor|].
  destruct (Str.split sep r) as [|h t].
  - repeat constructor. unfold Str.without. cbn. now rewrite Hc.
  - apply Forall_cons in IH as [Hh Ht]. constructor; [|assumption].
    unfold Str.without in *. cbn. now rewrite Hc, Hh.
Qed.

(** X20.  The repositories of the configuration are the items of [REPOS]
    between commas, trimmed, the blank ones left out, in their order: each
    configured name is non-empty, has no white space at its ends and no
    comma; items that hold no comma, joined with commas, are read back as
    they are once trimmed; and without [REPOS] no repository is
    configured. *)
Theorem configured_repositories (env : ProcessEnv) (items : list string) :
  Forall (fun name => ChangelogParser.isTrimmedText name = true
                      /\ Str.without "," name = true)
         (ChangelogServer.repos (ChangelogServer.loadConfig env))
  /\ (Forall (fun item => Str.without "," item = true) items ->
      REPOS env = Some (Str.joinWith "," items) ->
      ChangelogServer.repos (ChangelogServer.loadConfig env)
      = List.filter (fun item => negb (Str.isEmpty item)) (map Str.trim items))
  /\ (REPOS env = None ->
      ChangelogServer.repos (ChangelogServer.loadConfig env) = []).
Proof.
  assert (Hlen : forall l,
            List.filter (fun repo => (0 <? String.length repo)%nat) l
            = List.filter (fun item => negb (Str.isEmpty item)) l).
  { intros l. apply filter_ext. now intros [|c r]. }
  split; [|split].
  - unfold ChangelogServer.loadConfig. cbn [ChangelogServer.repos].
    rewrite Hlen.
    pose proof (split_parts_without ","
                  (ChangelogServer.orDefault (REPOS env) "")) as Hparts.
    induction Hparts as [|x l Hx Hl IH]; [constructor|].
    cbn [map List.filter].
    destruct (Str.isEmpty (Str.trim x)) eqn:He; cbn [negb]; [exact IH|].
    constructor; [|exact IH]. split.
    + now apply isTrimmedText_trim.
    + now apply all_keeps_trim.
  - intros Hitems Hrepos.
    unfold ChangelogServer.loadConfig. cbn [ChangelogServer.repos].
    rewrite Hlen, Hrepos. unfold ChangelogServer.orDefault.
    cbn [ChangelogDiffUtils.truthy default].
    destruct (Str.isEmpty (Str.joinWith "," items)) eqn:He; cbn [negb].
    + destruct items as [|x [|y l]]; [reflexivity| |].
      * cbn in He. destruct x; [reflexivity|discriminate].
      * exfalso.
        change (Str.joinWith "," (x :: y :: l))
          with (x ++ "," ++ Str.joinWith "," (y :: l)) in He.
        destruct x; discriminate.
    + unfold id. rewrite (split_joinWith "," items Hitems).
      destruct items; [discriminate|reflexivity].
  - intros Hrepos. unfold ChangelogServer.loadConfig.
    cbn [ChangelogServer.repos]. now rewrite Hrepos.
Qed.

Lemma configured_repositories_witness :
  ChangelogServer.repos
    (ChangelogServer.loadConfig
       {| PORT := None; REPOS := Some " app ,, lib-core,"; REPOS_BASE_PATH := None;
          WITH_DATES := Some "TRUE" |})
  = ["app"; "lib-core"].
Proof.
  apply (configured_repositories
           {| PORT := None; REPOS := Some " app ,, lib-core,"; REPOS_BASE_PATH := None;
              WITH_DATES := Some "TRUE" |}
           [" app "; ""; " lib-core"; ""]).
  - repeat constructor.
  - reflexivity.
Defined.

(** ** server.ts: the handlers *)

Lemma includes_In names repoName :
  ChangelogServer.includes names repoName = true <-> In repoName names.
Proof.
  unfold ChangelogServer.includes. rewrite existsb_exists. split.
  - intros (x & Hin & Heq). apply String.eqb_eq in Heq. now subst.
  - intros Hin. exists repoName. split; [assumption|apply String.eqb_refl].
Qed.

Lemma findVersion_headers n p content label :
  is_Some (ChangelogDiffUtils.findVersionInRepository
             (ChangelogParser.parseContent n p content) label)
  <-> In label (map fst (ChangelogParser.releasedHeaders (Str.splitLines content))).
Proof.
  unfold ChangelogDiffUtils.findVersionInRepository.
  destruct (find_label (versions (ChangelogParser.parseContent n p content)) label)
    as [-> _].
  assert (Hheaders : map (fun v => (version v, date v))
                         (versions (ChangelogParser.parseContent n p content))
                     = ChangelogParser.releasedHeaders (Str.splitLines content)).
  { unfold ChangelogParser.parseContent, ChangelogParser.parseLines.
    rewrite fold_headers; [reflexivity|].
    split; [constructor|]. intros v [=]. }
  now rewrite <- Hheaders, map_map.
Qed.

Section ReadingFacts.
Context `{FileSystem} `{!JoinNested}.

Lemma parseChangelog_reads repoName basePath content :
  readFileSync (join [basePath; repoName; "CHANGELOG.md"]) = Ok content ->
  ChangelogParser.validateRepository repoName basePath = true
  /\ ChangelogParser.parseChangelog repoName basePath
     = Ok (ChangelogParser.parseContent repoName (join [basePath; repoName]) content).
Proof.
  intros Hr.
  unfold ChangelogParser.validateRepository, ChangelogParser.parseChangelog,
    ChangelogParser.repoPathOf.
  rewrite join_nested, Hr. now split.
Qed.

Lemma parseChangelog_fails repoName basePath message :
  readFileSync (join [basePath; repoName; "CHANGELOG.md"]) = Throw message ->
  ChangelogParser.validateRepository repoName basePath = false
  /\ ChangelogParser.parseChangelog repoName basePath
     = Throw ("Failed to read changelog for " ++ repoName ++ ": " ++ message).
Proof.
  intros Hr.
  unfold ChangelogParser.validateRepository, ChangelogParser.parseChangelog,
    ChangelogParser.repoPathOf.
  rewrite join_nested, Hr. now split.
Qed.

End ReadingFacts.

(** X21.  What the since route answers for a configured repository whose
    changelog can be read.  Without a base version, or with a base version
    that is the label of a released version header of the text, it answers
    the content of the since-diff of the parsed text, as markdown.  With any
    other base version (a label of no header, or "unreleased") it answers
    404 with the code [VERSION_NOT_FOUND] and does not touch the cache. *)
Theorem since_route_answers
    `{FileSystem} `{!JoinNested} `{Collator} `{Calendar} `{Json} `{!Storage}
    (this : ChangelogServer.t) (cm : CacheManager.t) (env : Env)
    (repoName fileText : string) (sinceVersion customTitle : option string)
    (db : Database) :
  In repoName (ChangelogServer.repos (ChangelogServer.config this)) ->
  readFileSync (join [ChangelogServer.reposBasePath (ChangelogServer.config this);
                      repoName; "CHANGELOG.md"]) = Ok fileText ->
  (ChangelogDiffUtils.noVersion sinceVersion = true
   \/ In (default "" sinceVersion)
         (map fst (ChangelogParser.releasedHeaders (Str.splitLines fileText))) ->
   exists diff db',
     ChangelogDiffUtils.createSinceDiff cm env
       (ChangelogParser.parseContent repoName
          (join [ChangelogServer.reposBasePath (ChangelogServer.config this); repoName])
          fileText)
       sinceVersion customTitle
       (ChangelogServer.withDates (ChangelogServer.config this)) db
     = (Ok diff, db')
     /\ ChangelogServer.handleGetSince this cm env repoName sinceVersion customTitle db
        = (Ok (ChangelogServer.markdownResponse (content diff)), db'))
  /\ (ChangelogDiffUtils.noVersion sinceVersion = false ->
      ~ In (default "" sinceVersion)
           (map fst (ChangelogParser.releasedHeaders (Str.splitLines fileText))) ->
      ChangelogServer.handleGetSince this cm env repoName sinceVersion customTitle db
      = (Ok (ChangelogServer.errorResponse 404
               ("Base version '" ++ default "" sinceVersion
                ++ "' not found in repository '" ++ repoName ++ "'")
               "VERSION_NOT_FOUND"), db)).
Proof.
  intros Hin Hread.
  destruct (parseChangelog_reads repoName _ fileText Hread) as [Hvalid Hparse].
  apply includes_In in Hin.
  pose proof (findVersion_headers repoName
                (join [ChangelogServer.reposBasePath (ChangelogServer.config this);
                       repoName])
                fileText (default "" sinceVersion)) as Hfind.
  split.
  - intros Hok.
    destruct (createSinceDiff_returns cm env
                (ChangelogParser.parseContent repoName
                   (join [ChangelogServer.reposBasePath (ChangelogServer.config this);
                          repoName]) fileText)
                sinceVersion customTitle
                (ChangelogServer.withDates (ChangelogServer.config this)) db)
      as (diff & db' & Hdiff & _).
    exists diff, db'. split; [exact Hdiff|].
    unfold ChangelogServer.handleGetSince, tryCatch.
    rewrite Hin, Hvalid, Hparse. cbn [negb]. unfold bind at 1, lift at 1.
    destruct (ChangelogDiffUtils.noVersion sinceVersion) eqn:Hno; cbn [negb].
    + unfold bind. rewrite Hdiff. reflexivity.
    + destruct Hok as [Hok|Hok]; [discriminate|].
      apply Hfind in Hok as [v Hv]. rewrite Hv.
      unfold bind. rewrite Hdiff. reflexivity.
  - intros Hno Hnot.
    unfold ChangelogServer.handleGetSince, tryCatch.
    rewrite Hin, Hvalid, Hparse, Hno. cbn [negb]. unfold bind at 1, lift at 1.
    destruct (ChangelogDiffUtils.findVersionInRepository _ (default "" sinceVersion))
      as [v|] eqn:Hv; [|reflexivity].
    exfalso. apply Hnot, Hfind. now exists v.
Qed.

Lemma since_route_answers_witness :
  let files := [("./app/CHANGELOG.md",
                 text ["# Changelog"; "## [Unreleased]"; "### Added"; "- next";
                       "## [1.0.0] - 2024-01-01"; "### Added"; "- first"])] in
  let this :=
    {| ChangelogServer.config :=
         {| ChangelogServer.port := Number.Finite 3000; ChangelogServer.repos := ["app"];
            ChangelogServer.reposBasePath := ".";
            ChangelogServer.withDates := false |} |} in
  let cm := {| CacheManager.enabled := true; CacheManager.hasDb := true;
               CacheManager.ttlMs := 3600000 |} in
  @ChangelogServer.handleGetSince (listedFiles files) codeUnitCollator noCalendar
    idealJson memoryStorage this cm (envAt 100 0) "app" (Some "Unreleased") None ∅
  = (Ok (ChangelogServer.errorResponse 404
           "Base version 'Unreleased' not found in repository 'app'"
           "VERSION_NOT_FOUND"), ∅).
Proof.
  intros files this cm.
  apply (@since_route_answers (listedFiles files) (slashJoin_nested files)
           codeUnitCollator noCalendar idealJson memoryStorage this cm (envAt 100 0)
           "app"
           (text ["# Changelog"; "## [Unreleased]"; "### Added"; "- next";
                  "## [1.0.0] - 2024-01-01"; "### Added"; "- first"])
           (Some "Unreleased") None ∅).
  - left. reflexivity.
  - reflexivity.
  - reflexivity.
  - vm_compute. intros [Heq|[]]. discriminate Heq.
Defined.

(** X22.  What the diff route answers for a configured repository whose
    changelog can be read.  Two equal labels get 400 with the code
    [IDENTICAL_VERSIONS], whether or not the label exists.  Two different
    labels that both are labels of released version headers of the text get
    the content of the range-diff of the parsed text, as markdown.  Otherwise
    the answer is 404 with the code [VERSION_NOT_FOUND], naming the first
    label when it is missing and else the second, and the cache is not
    touched. *)
Theorem diff_route_answers
    `{FileSystem} `{!JoinNested} `{Collator} `{Calendar} `{Json} `{!Storage}
    (this : ChangelogServer.t) (cm : CacheManager.t) (env : Env)
    (repoName fileText version1 version2 : string) (db : Database) :
  In repoName (ChangelogServer.repos (ChangelogServer.config this)) ->
  readFileSync (join [ChangelogServer.reposBasePath (ChangelogServer.config this);
                      repoName; "CHANGELOG.md"]) = Ok fileText ->
  let labels :=
    map fst (ChangelogParser.releasedHeaders (Str.splitLines fileText)) in
  (version1 = version2 ->
   ChangelogServer.handleGetDiff this cm env repoName version1 version2 db
   = (Ok (ChangelogServer.errorResponse 400
            "Cannot generate diff between identical versions"
            "IDENTICAL_VERSIONS"), db))
  /\ (version1 <> version2 -> In version1 labels -> In version2 labels ->
      exists diff db',
        ChangelogDiffUtils.createRangeDiff cm env
          (ChangelogParser.parseContent repoName
             (join [ChangelogServer.reposBasePath (ChangelogServer.config this);
                    repoName])
             fileText)
          version1 version2
          (ChangelogServer.withDates (ChangelogServer.config this)) db
        = (Ok diff, db')
        /\ ChangelogServer.handleGetDiff this cm env repoName version1 version2 db
           = (Ok (ChangelogServer.markdownResponse (content diff)), db'))
  /\ (version1 <> version2 -> ~ In version1 labels ->
      ChangelogServer.handleGetDiff this cm env repoName version1 version2 db
      = (Ok (ChangelogServer.errorResponse 404
               ("Version '" ++ version1 ++ "' not found in repository '"
                ++ repoName ++ "'")
               "VERSION_NOT_FOUND"), db))
  /\ (version1 <> version2 -> In version1 labels -> ~ In version2 labels ->
      ChangelogServer.handleGetDiff this cm env repoName version1 version2 db
      = (Ok (ChangelogServer.errorResponse 404
               ("Version '" ++ version2 ++ "' not found in repository '"
                ++ repoName ++ "'")
               "VERSION_NOT_FOUND"), db)).
Proof.
  intros Hin Hread labels.
  destruct (parseChangelog_reads repoName _ fileText Hread) as [Hvalid Hparse].
  apply includes_In in Hin.
  pose proof (findVersion_headers repoName
                (join [ChangelogServer.reposBasePath (ChangelogServer.config this);
                       repoName]) fileText) as Hfind.
  assert (Hrun : version1 <> version2 ->
            ChangelogServer.handleGetDiff this cm env repoName version1 version2 db
            = match ChangelogDiffUtils.findVersionInRepository
                      (ChangelogParser.parseContent repoName
                         (join [ChangelogServer.reposBasePath
                                  (ChangelogServer.config this); repoName])
                         fileText) version1,
                    ChangelogDiffUtils.findVersionInRepository
                      (ChangelogParser.parseContent repoName
                         (join [ChangelogServer.reposBasePath
                                  (ChangelogServer.config this); repoName])
                         fileText) version2 with
              | None, _ =>
                  (Ok (ChangelogServer.errorResponse 404
                         ("Version '" ++ version1 ++ "' not found in repository '"
                          ++ repoName ++ "'") "VERSION_NOT_FOUND"), db)
              | Some _, None =>
                  (Ok (ChangelogServer.errorResponse 404
                         ("Version '" ++ version2 ++ "' not found in repository '"
                          ++ repoName ++ "'") "VERSION_NOT_FOUND"), db)
              | Some _, Some _ =>
                  match ChangelogDiffUtils.createRangeDiff cm env
                          (ChangelogParser.parseContent repoName
                             (join [ChangelogServer.reposBasePath
                                      (ChangelogServer.config this); repoName])
                             fileText)
                          version1 version2
                          (ChangelogServer.withDates (ChangelogServer.config this)) db
                  with
                  | (Ok diff, db') =>
                      (Ok (ChangelogServer.markdownResponse (content diff)), db')
                  | (Throw message, db') =>
                      (Ok (ChangelogServer.errorResponse 500
                             ("Failed to generate diff between '" ++ version1
                              ++ "' and '" ++ version2 ++ "' for repository '"
                              ++ repoName ++ "': " ++ message)
                             "RANGE_DIFF_ERROR"), db')
                  end
              end).
  { intros Hne. apply String.eqb_neq in Hne.
    unfold ChangelogServer.handleGetDiff, tryCatch.
    rewrite Hin, Hvalid, Hne, Hparse. cbn [negb]. unfold bind at 1, lift at 1.
    cbv zeta.
    destruct (ChangelogDiffUtils.findVersionInRepository _ version1);
      [|reflexivity].
    destruct (ChangelogDiffUtils.findVersionInRepository _ version2);
      [|reflexivity].
    unfold bind.
    destruct (ChangelogDiffUtils.createRangeDiff _ _ _ _ _ _ db) as [[diff|e] db'];
      reflexivity. }
  split; [|split; [|split]].
  - intros <-. unfold ChangelogServer.handleGetDiff, tryCatch.
    now rewrite Hin, Hvalid, String.eqb_refl.
  - intros Hne [v1 Hv1]%Hfind [v2 Hv2]%Hfind.
    destruct (createRangeDiff_returns cm env
                (ChangelogParser.parseContent repoName
                   (join [ChangelogServer.reposBasePath (ChangelogServer.config this);
                          repoName]) fileText)
                version1 version2
                (ChangelogServer.withDates (ChangelogServer.config this)) db)
      as (diff & db' & Hdiff & _).
    exists diff, db'. split; [exact Hdiff|].
    rewrite (Hrun Hne), Hv1, Hv2, Hdiff. reflexivity.
  - intros Hne Hnot. rewrite (Hrun Hne).
    destruct (ChangelogDiffUtils.findVersionInRepository _ version1) as [v|] eqn:Hv;
      [|reflexivity].
    exfalso. apply Hnot, Hfind. now exists v.
  - intros Hne [v1 Hv1]%Hfind Hnot. rewrite (Hrun Hne), Hv1.
    destruct (ChangelogDiffUtils.findVersionInRepository _ version2) as [v|] eqn:Hv;
      [|reflexivity].
    exfalso. apply Hnot, Hfind. now exists v.
Qed.

Lemma diff_route_answers_witness :
  let files := [("./app/CHANGELOG.md",
                 text ["# Changelog"; "## [2.0.0] - 2024-02-01"; "### Added"; "- second";
                       "## [1.0.0] - 2024-01-01"; "### Added"; "- first"])] in
  let this :=
    {| ChangelogServer.config :=
         {| ChangelogServer.port := Number.Finite 3000; ChangelogServer.repos := ["app"];
            ChangelogServer.reposBasePath := ".";
            ChangelogServer.withDates := false |} |} in
  let cm := {| CacheManager.enabled := true; CacheManager.hasDb := true;
               CacheManager.ttlMs := 3600000 |} in
  @ChangelogServer.handleGetDiff (listedFiles files) codeUnitCollator noCalendar
    idealJson memoryStorage this cm (envAt 100 0) "app" "1.0.0" "3.0.0" ∅
  = (Ok (ChangelogServer.errorResponse 404
           "Version '3.0.0' not found in repository 'app'"
           "VERSION_NOT_FOUND"), ∅).
Proof.
  intros files this cm.
  apply (@diff_route_answers (listedFiles files) (slashJoin_nested files)
           codeUnitCollator noCalendar idealJson memoryStorage this cm (envAt 100 0)
           "app"
           (text ["# Changelog"; "## [2.0.0] - 2024-02-01"; "### Added"; "- second";
                  "## [1.0.0] - 2024-01-01"; "### Added"; "- first"])
           "1.0.0" "3.0.0" ∅).
  - left. reflexivity.
  - reflexivity.
  - discriminate.
  - vm_compute. right. left. reflexivity.
  - vm_compute. intros [Heq|[Heq|[]]]; discriminate Heq.
Defined.

(** X23.  The since route and the diff route always answer, and never with
    500: whatever the configuration, the files, the cache and its storage do
    (the file being the same when it is validated and when it is parsed),
    the since route answers 200 or 404 and the diff route 200, 400 or
    404. *)
Theorem since_and_diff_routes_do_not_fail
    `{FileSystem} `{!JoinNested} `{Collator} `{Calendar} `{Json} `{!Storage}
    (this : ChangelogServer.t) (cm : CacheManager.t) (env : Env)
    (repoName version1 version2 : string) (sinceVersion customTitle : option string)
    (db : Database) :
  (exists response db',
     ChangelogServer.handleGetSince this cm env repoName sinceVersion customTitle db
     = (Ok response, db')
     /\ (ChangelogServer.status response = 200
         \/ ChangelogServer.status response = 404))
  /\ (exists response db',
        ChangelogServer.handleGetDiff this cm env repoName version1 version2 db
        = (Ok response, db')
        /\ (ChangelogServer.status response = 200
            \/ ChangelogServer.status response = 400
            \/ ChangelogServer.status response = 404)).
Proof.
  split.
  - unfold ChangelogServer.handleGetSince, tryCatch.
    destruct (ChangelogServer.includes _ repoName); cbn [negb];
      [|eexists _, _; split; [reflexivity|now right]].
    destruct (readFileSync
                (join [ChangelogServer.reposBasePath (ChangelogServer.config this);
                       repoName; "CHANGELOG.md"])) as [fileText|message] eqn:Hread.
    + destruct (parseChangelog_reads repoName _ fileText Hread) as [-> ->].
      cbn [negb]. unfold bind at 1, lift at 1.
      destruct (createSinceDiff_returns cm env
                  (ChangelogParser.parseContent repoName
                     (join [ChangelogServer.reposBasePath
                              (ChangelogServer.config this); repoName]) fileText)
                  sinceVersion customTitle
                  (ChangelogServer.withDates (ChangelogServer.config this)) db)
        as (diff & db' & Hdiff & _).
      destruct (negb (ChangelogDiffUtils.noVersion sinceVersion)).
      * destruct (ChangelogDiffUtils.findVersionInRepository _ _).
        -- unfold bind. rewrite Hdiff.
           eexists _, _; split; [reflexivity|now left].
        -- eexists _, _; split; [reflexivity|now right].
      * unfold bind. rewrite Hdiff.
        eexists _, _; split; [reflexivity|now left].
    + destruct (parseChangelog_fails repoName _ message Hread) as [-> _].
      eexists _, _; split; [reflexivity|now right].
  - unfold ChangelogServer.handleGetDiff, tryCatch.
    destruct (ChangelogServer.includes _ repoName); cbn [negb];
      [|eexists _, _; split; [reflexivity|now right; right]].
    destruct (readFileSync
                (join [ChangelogServer.reposBasePath (ChangelogServer.config this);
                       repoName; "CHANGELOG.md"])) as [fileText|message] eqn:Hread.
    + destruct (parseChangelog_reads repoName _ fileText Hread) as [-> ->].
      cbn [negb].
      destruct (String.eqb version1 version2);
        [eexists _, _; split; [reflexivity|now right; left]|].
      unfold bind at 1, lift at 1. cbv zeta.
      destruct (createRangeDiff_returns cm env
                  (ChangelogParser.parseContent repoName
                     (join [ChangelogServer.reposBasePath
                              (ChangelogServer.config this); repoName]) fileText)
                  version1 version2
                  (ChangelogServer.withDates (ChangelogServer.config this)) db)
        as (diff & db' & Hdiff & _).
      destruct (ChangelogDiffUtils.findVersionInRepository _ version1);
        [|eexists _, _; split; [reflexivity|now right; right]].
      destruct (ChangelogDiffUtils.findVersionInRepository _ version2);
        [|eexists _, _; split; [reflexivity|now right; right]].
      unfold bind. rewrite Hdiff.
      eexists _, _; split; [reflexivity|now left].
    + destruct (parseChangelog_fails repoName _ message Hread) as [-> _].
      eexists _, _; split; [reflexivity|now right; right].
Qed.

Lemma since_and_diff_routes_do_not_fail_witness :
  exists response db',
    @ChangelogServer.handleGetSince (listedFiles []) codeUnitCollator noCalendar
      idealJson memoryStorage
      {| ChangelogServer.config :=
           {| ChangelogServer.port := Number.Finite 3000; ChangelogServer.repos := ["app"];
              ChangelogServer.reposBasePath := ".";
              ChangelogServer.withDates := false |} |}
      {| CacheManager.enabled := true; CacheManager.hasDb := true;
         CacheManager.ttlMs := 3600000 |}
      (envAt 100 0) "app" None None ∅
    = (Ok response, db')
    /\ (ChangelogServer.status response = 200
        \/ ChangelogServer.status response = 404).
Proof.
  apply (@since_and_diff_routes_do_not_fail (listedFiles []) (slashJoin_nested [])
           codeUnitCollator noCalendar idealJson memoryStorage
           {| ChangelogServer.config :=
                {| ChangelogServer.port := Number.Finite 3000; ChangelogServer.repos := ["app"];
                   ChangelogServer.reposBasePath := ".";
                   ChangelogServer.withDates := false |} |}
           {| CacheManager.enabled := true; CacheManager.hasDb := true;
              CacheManager.ttlMs := 3600000 |}
           (envAt 100 0) "app" "1.0.0" "2.0.0" None None ∅).
Defined.

(** X24.  What the routes that answer JSON give for a configured repository
    whose changelog can be read.  The repository route gives the parsed
    repository.  The latest route gives the first released version header of
    the text, with its label and date, whatever the numbers of the headers
    after it, and 404 with [NO_VERSIONS_FOUND] when the text has none.  The
    version route gives a version carrying the label asked for when the text
    has a released header with that label, and 404 with [VERSION_NOT_FOUND]
    when it has none. *)
Theorem json_routes_answer `{FileSystem} `{!JoinNested}
    (this : ChangelogServer.t) (repoName fileText versionName : string) :
  In repoName (ChangelogServer.repos (ChangelogServer.config this)) ->
  readFileSync (join [ChangelogServer.reposBasePath (ChangelogServer.config this);
                      repoName; "CHANGELOG.md"]) = Ok fileText ->
  let headers := ChangelogParser.releasedHeaders (Str.splitLines fileText) in
  ChangelogServer.handleGetRepo this repoName
  = ChangelogServer.jsonResponse
      (ChangelogServer.createResponse
         (ChangelogServer.RepositoryData
            (ChangelogParser.parseContent repoName
               (join [ChangelogServer.reposBasePath (ChangelogServer.config this);
                      repoName])
               fileText)))
  /\ match headers with
     | [] =>
         ChangelogServer.handleGetLatestVersion this repoName
         = ChangelogServer.errorResponse 404
             ("No versions found in repository '" ++ repoName ++ "'")
             "NO_VERSIONS_FOUND"
     | (label, day) :: _ =>
         exists info,
           ChangelogServer.handleGetLatestVersion this repoName
           = ChangelogServer.jsonResponse
               (ChangelogServer.createResponse (ChangelogServer.VersionInfoData info))
           /\ ChangelogServer.vi_version info = label
           /\ ChangelogServer.vi_date info = day
     end
  /\ (In versionName (map fst headers) ->
      exists info,
        ChangelogServer.handleGetVersion this repoName versionName
        = ChangelogServer.jsonResponse
            (ChangelogServer.createResponse (ChangelogServer.VersionInfoData info))
        /\ ChangelogServer.vi_version info = versionName
        /\ In (versionName, ChangelogServer.vi_date info) headers)
  /\ (~ In versionName (map fst headers) ->
      ChangelogServer.handleGetVersion this repoName versionName
      = ChangelogServer.errorResponse 404
          ("Version '" ++ versionName ++ "' not found in repository '"
           ++ repoName ++ "'")
          "VERSION_NOT_FOUND").
Proof.
  intros Hin Hread headers.
  destruct (parseChangelog_reads repoName _ fileText Hread) as [Hvalid Hparse].
  apply includes_In in Hin.
  set (r := ChangelogParser.parseContent repoName
              (join [ChangelogServer.reposBasePath (ChangelogServer.config this);
                     repoName]) fileText) in *.
  assert (Hheaders : map (fun v => (version v, date v)) (versions r) = headers).
  { unfold r, headers, ChangelogParser.parseContent, ChangelogParser.parseLines.
    rewrite fold_headers; [reflexivity|].
    split; [constructor|]. intros v [=]. }
  destruct (find_label (versions r) versionName) as [Hsome Hfound].
  split; [|split; [|split]].
  - unfold ChangelogServer.handleGetRepo. now rewrite Hin, Hvalid, Hparse.
  - unfold ChangelogServer.handleGetLatestVersion. rewrite Hin, Hparse. cbn [negb].
    rewrite <- Hheaders. destruct (versions r) as [|v vs]; [reflexivity|].
    cbn [map]. eexists. split; [reflexivity|]. now split.
  - intros Hlabel.
    unfold ChangelogServer.handleGetVersion. rewrite Hin, Hparse. cbn [negb].
    rewrite <- Hheaders, map_map in Hlabel. apply Hsome in Hlabel as [v Hv].
    rewrite Hv. destruct (Hfound v Hv) as [Hl Hinv].
    eexists. split; [reflexivity|]. cbn. split; [assumption|].
    rewrite <- Hheaders, <- Hl.
    apply (in_map (fun v => (version v, date v))), Hinv.
  - intros Hnot.
    unfold ChangelogServer.handleGetVersion. rewrite Hin, Hparse. cbn [negb].
    destruct (List.find _ (versions r)) as [v|] eqn:Hv; [|reflexivity].
    exfalso. apply Hnot. rewrite <- Hheaders, map_map. apply Hsome. now exists v.
Qed.

Lemma json_routes_answer_witness :
  let files := [("./app/CHANGELOG.md",
                 text ["# Changelog"; "## [1.0.0] - 2024-01-01"; "### Added"; "- first";
                       "## [2.0.0] - 2024-02-01"; "### Added"; "- second"])] in
  let this :=
    {| ChangelogServer.config :=
         {| ChangelogServer.port := Number.Finite 3000; ChangelogServer.repos := ["app"];
            ChangelogServer.reposBasePath := ".";
            ChangelogServer.withDates := false |} |} in
  exists info,
    @ChangelogServer.handleGetLatestVersion (listedFiles files) this "app"
    = ChangelogServer.jsonResponse
        (ChangelogServer.createResponse (ChangelogServer.VersionInfoData info))
    /\ ChangelogServer.vi_version info = "1.0.0"
    /\ ChangelogServer.vi_date info = Some "2024-01-01".
Proof.
  intros files this.
  refine (proj1 (proj2
    (@json_routes_answer (listedFiles files) (slashJoin_nested files) this "app"
       (text ["# Changelog"; "## [1.0.0] - 2024-01-01"; "### Added"; "- first";
              "## [2.0.0] - 2024-02-01"; "### Added"; "- second"])
       "1.0.0" _ _))).
  - left. reflexivity.
  - reflexivity.
Defined.

(** X25.  A configured repository whose changelog cannot be read is answered
    differently by the routes.  The repository route, the since route and
    the diff route check the file first and answer 404 with
    [CHANGELOG_NOT_FOUND]; the version route and the latest route do not,
    and answer 500, with [GET_VERSION_ERROR] and [GET_LATEST_ERROR] and the
    reason of the read failure in the message. *)
Theorem unreadable_changelog_answers
    `{FileSystem} `{!JoinNested} `{Collator} `{Calendar} `{Json} `{!Storage}
    (this : ChangelogServer.t) (cm : CacheManager.t) (env : Env)
    (repoName reason versionName version1 version2 : string)
    (sinceVersion customTitle : option string) (db : Database) :
  In repoName (ChangelogServer.repos (ChangelogServer.config this)) ->
  readFileSync (join [ChangelogServer.reposBasePath (ChangelogServer.config this);
                      repoName; "CHANGELOG.md"]) = Throw reason ->
  ChangelogServer.handleGetRepo this repoName
  = ChangelogServer.changelogNotFound repoName
  /\ ChangelogServer.handleGetSince this cm env repoName sinceVersion customTitle db
     = (Ok (ChangelogServer.changelogNotFound repoName), db)
  /\ ChangelogServer.handleGetDiff this cm env repoName version1 version2 db
     = (Ok (ChangelogServer.changelogNotFound repoName), db)
  /\ ChangelogServer.status (ChangelogServer.changelogNotFound repoName) = 404
  /\ ChangelogServer.handleGetVersion this repoName versionName
     = ChangelogServer.errorResponse 500
         ("Failed to get version '" ++ versionName ++ "' for repository '"
          ++ repoName ++ "': Failed to read changelog for " ++ repoName ++ ": "
          ++ reason)
         "GET_VERSION_ERROR"
  /\ ChangelogServer.handleGetLatestVersion this repoName
     = ChangelogServer.errorResponse 500
         ("Failed to get latest version for repository '" ++ repoName
          ++ "': Failed to read changelog for " ++ repoName ++ ": " ++ reason)
         "GET_LATEST_ERROR".
Proof.
  intros Hin Hread.
  destruct (parseChangelog_fails repoName _ reason Hread) as [Hvalid Hparse].
  apply includes_In in Hin.
  unfold ChangelogServer.handleGetRepo, ChangelogServer.handleGetSince,
    ChangelogServer.handleGetDiff, ChangelogServer.handleGetVersion,
    ChangelogServer.handleGetLatestVersion, tryCatch.
  rewrite Hin, Hvalid, Hparse. cbn [negb].
  repeat split; reflexivity.
Qed.

Lemma unreadable_changelog_answers_witness :
  let this :=
    {| ChangelogServer.config :=
         {| ChangelogServer.port := Number.Finite 3000; ChangelogServer.repos := ["app"];
            ChangelogServer.reposBasePath := ".";
            ChangelogServer.withDates := false |} |} in
  @ChangelogServer.handleGetRepo (listedFiles []) this "app"
  = ChangelogServer.changelogNotFound "app".
Proof.
  intros this.
  refine (proj1
    (@unreadable_changelog_answers (listedFiles []) (slashJoin_nested [])
       codeUnitCollator noCalendar idealJson memoryStorage this
       {| CacheManager.enabled := true; CacheManager.hasDb := true;
          CacheManager.ttlMs := 3600000 |}
       (envAt 100 0) "app" _ "1.0.0" "1.0.0" "2.0.0" None None ∅ _ eq_refl)).
  left. reflexivity.
Defined.

(** X26.  The list of repositories holds exactly the configured names whose
    repository route answers 200, in the order of the configuration. *)
Theorem listed_repositories_are_served `{FileSystem} `{!JoinNested}
    (this : ChangelogServer.t) :
  exists listed,
    ChangelogServer.handleGetRepos this
    = ChangelogServer.jsonResponse
        (ChangelogServer.createResponse (ChangelogServer.RepositoryListData listed))
    /\ listed
       = List.filter
           (fun repoName =>
              ChangelogServer.status (ChangelogServer.handleGetRepo this repoName)
              =? 200)
           (ChangelogServer.repos (ChangelogServer.config this)).
Proof.
  eexists. split; [reflexivity|].
  apply filter_ext_in. intros repoName Hin. apply includes_In in Hin.
  unfold ChangelogServer.handleGetRepo. rewrite Hin. cbn [negb].
  destruct (readFileSync
              (join [ChangelogServer.reposBasePath (ChangelogServer.config this);
                     repoName; "CHANGELOG.md"])) as [fileText|message] eqn:Hread.
  - destruct (parseChangelog_reads repoName _ fileText Hread) as [-> ->].
    reflexivity.
  - destruct (parseChangelog_fails repoName _ message Hread) as [-> _].
    reflexivity.
Qed.

Lemma listed_repositories_are_served_witness :
  let files := [("./app/CHANGELOG.md", text ["# Changelog"; "## [1.0.0]"])] in
  let this :=
    {| ChangelogServer.config :=
         {| ChangelogServer.port := Number.Finite 3000;
            ChangelogServer.repos := ["missing"; "app"];
            ChangelogServer.reposBasePath := ".";
            ChangelogServer.withDates := false |} |} in
  exists listed,
    @ChangelogServer.handleGetRepos (listedFiles files) this
    = ChangelogServer.jsonResponse
        (ChangelogServer.createResponse (ChangelogServer.RepositoryListData listed))
    /\ listed
       = List.filter
           (fun repoName =>
              ChangelogServer.status
                (@ChangelogServer.handleGetRepo (listedFiles files) this repoName)
              =? 200)
           ["missing"; "app"].
Proof.
  intros files this.
  apply (@listed_repositories_are_served (listedFiles files)
           (slashJoin_nested files) this).
Defined.

(** ** server.ts: the requests *)

Section HeaderFacts.
Import ChangelogServer.

Lemma getHeader_setHeader hs name value :
  getHeader (setHeader hs name value) name = Some value.
Proof.
  induction hs as [|[n v] rest IH]; cbn.
  - now rewrite String.eqb_refl.
  - destruct (String.eqb (Str.toLowerCase n) (Str.toLowerCase name)) eqn:Hn; cbn;
      now rewrite Hn.
Qed.

Lemma getHeader_setHeader_other hs name value other :
  String.eqb (Str.toLowerCase name) (Str.toLowerCase other) = false ->
  getHeader (setHeader hs name value) other = getHeader hs other.
Proof.
  intros Hne. induction hs as [|[n v] rest IH]; cbn.
  - now rewrite Hne.
  - destruct (String.eqb (Str.toLowerCase n) (Str.toLowerCase name)) eqn:Hn; cbn.
    + apply String.eqb_eq in Hn. rewrite Hn, Hne. reflexivity.
    + now rewrite IH.
Qed.

Lemma withCorsHeaders_allows response :
  Forall (fun kv => getHeader (headers (withCorsHeaders response)) (fst kv)
                    = Some (snd kv))
         corsHeaders
  /\ status (withCorsHeaders response) = status response
  /\ body (withCorsHeaders response) = body response
  /\ getHeader (headers (withCorsHeaders response)) "Content-Type"
     = getHeader (headers response) "Content-Type".
Proof.
  unfold withCorsHeaders, corsHeaders. cbn [headers status body fold_left fst snd].
  split; [|split; [reflexivity|split; [reflexivity|]]].
  - repeat constructor; cbn [fst snd].
    + rewrite !getHeader_setHeader_other by reflexivity.
      apply getHeader_setHeader.
    + rewrite !getHeader_setHeader_other by reflexivity.
      apply getHeader_setHeader.
    + apply getHeader_setHeader.
  - now rewrite !getHeader_setHeader_other by reflexivity.
Qed.

End HeaderFacts.

(** X27.  Every response of [handleRequest] carries the three headers that
    allow cross-origin requests, whatever the request, the route taken and
    the answer of the handler; adding them changes neither the status, nor
    the body, nor the content type.  A method other than GET and OPTIONS is
    answered 405 with [METHOD_NOT_ALLOWED] whatever the path, without
    reading a file or the cache. *)
Theorem every_response_allows_cross_origin
    `{FileSystem} `{Collator} `{Calendar} `{Json} `{!Storage}
    (this : ChangelogServer.t) (cm : CacheManager.t) (env : Env)
    (handleHealthCheck : M ChangelogServer.Response)
    (request : ChangelogServer.Request) (db : Database) :
  (forall response db',
     ChangelogServer.handleRequest this cm env handleHealthCheck request db
     = (Ok response, db') ->
     Forall (fun kv =>
               ChangelogServer.getHeader (ChangelogServer.headers response) (fst kv)
               = Some (snd kv))
            ChangelogServer.corsHeaders)
  /\ (forall response,
        let sent := ChangelogServer.withCorsHeaders response in
        ChangelogServer.status sent = ChangelogServer.status response
        /\ ChangelogServer.body sent = ChangelogServer.body response
        /\ ChangelogServer.getHeader (ChangelogServer.headers sent) "Content-Type"
           = ChangelogServer.getHeader (ChangelogServer.headers response)
               "Content-Type")
  /\ (ChangelogServer.method request <> "OPTIONS" ->
      ChangelogServer.method request <> "GET" ->
      ChangelogServer.handleRequest this cm env handleHealthCheck request db
      = (Ok {| ChangelogServer.status := 405;
               ChangelogServer.headers :=
                 (ChangelogServer.corsHeaders ++ ChangelogServer.jsonHeaders)%list;
               ChangelogServer.body :=
                 ChangelogServer.JsonBody
                   (ChangelogServer.createErrorResponse
                      ("Method " ++ ChangelogServer.method request ++ " not allowed")
                      (Some "METHOD_NOT_ALLOWED")) |}, db)).
Proof.
  split; [|split].
  - intros response db'. unfold ChangelogServer.handleRequest.
    destruct (String.eqb (ChangelogServer.method request) "OPTIONS").
    { intros [= <- _]. repeat constructor. }
    destruct (String.eqb (ChangelogServer.method request) "GET"); cbn [negb].
    2:{ intros [= <- _]. repeat constructor. }
    unfold bind at 1.
    match goal with
    | |- context [match ?m db with _ => _ end] => destruct (m db) as [[r|e] db1]
    end; [|discriminate].
    intros [= <- _]. apply withCorsHeaders_allows.
  - intros response sent.
    destruct (withCorsHeaders_allows response) as (_ & Hs & Hb & Hc). auto.
  - intros Ho Hg. apply String.eqb_neq in Ho, Hg.
    unfold ChangelogServer.handleRequest. now rewrite Ho, Hg.
Qed.

Lemma every_response_allows_cross_origin_witness :
  @ChangelogServer.handleRequest (listedFiles []) codeUnitCollator noCalendar
    idealJson memoryStorage
    {| ChangelogServer.config :=
         {| ChangelogServer.port := Number.Finite 3000; ChangelogServer.repos := ["app"];
            ChangelogServer.reposBasePath := ".";
            ChangelogServer.withDates := false |} |}
    {| CacheManager.enabled := true; CacheManager.hasDb := true;
       CacheManager.ttlMs := 3600000 |}
    (envAt 100 0)
    (ret (ChangelogServer.markdownResponse "ok"))
    {| ChangelogServer.method := "POST"; ChangelogServer.pathname := "/repos";
       ChangelogServer.titleParam := None |} ∅
  = (Ok {| ChangelogServer.status := 405;
           ChangelogServer.headers :=
             (ChangelogServer.corsHeaders ++ ChangelogServer.jsonHeaders)%list;
           ChangelogServer.body :=
             ChangelogServer.JsonBody
               (ChangelogServer.createErrorResponse "Method POST not allowed"
                  (Some "METHOD_NOT_ALLOWED")) |}, ∅).
Proof.
  apply (@every_response_allows_cross_origin (listedFiles []) codeUnitCollator
           noCalendar idealJson memoryStorage
           {| ChangelogServer.config :=
                {| ChangelogServer.port := Number.Finite 3000; ChangelogServer.repos := ["app"];
                   ChangelogServer.reposBasePath := ".";
                   ChangelogServer.withDates := false |} |}
           {| CacheManager.enabled := true; CacheManager.hasDb := true;
              CacheManager.ttlMs := 3600000 |}
           (envAt 100 0)
           (ret (ChangelogServer.markdownResponse "ok"))
           {| ChangelogServer.method := "POST"; ChangelogServer.pathname := "/repos";
              ChangelogServer.titleParam := None |} ∅);
    discriminate.
Defined.

Lemma segments_joinWith parts :
  Forall (fun s => ChangelogServer.isSegment s = true) parts ->
  List.filter (fun part => negb (Str.isEmpty part))
              (Str.split "/" (Str.joinWith "/" parts))
  = parts.
Proof.
  intros Hparts.
  rewrite split_joinWith.
  - destruct parts as [|x l]; [reflexivity|].
    clear -Hparts. induction Hparts as [|y l' Hy _ IH]; [reflexivity|].
    cbn [List.filter]. unfold ChangelogServer.isSegment in Hy.
    apply andb_true_iff in Hy as [-> _]. now rewrite IH.
  - eapply Forall_impl; [exact Hparts|]. cbn.
    unfold ChangelogServer.isSegment. now intros s [_ ?]%andb_true_iff.
Qed.

Lemma repos_path_segments parts :
  Forall (fun s => ChangelogServer.isSegment s = true) parts ->
  parts <> [] ->
  String.eqb ("/repos/" ++ Str.joinWith "/" parts) "/health" = false
  /\ String.eqb ("/repos/" ++ Str.joinWith "/" parts) "/repos" = false
  /\ Str.startsWith ("/repos/" ++ Str.joinWith "/" parts) "/repos/" = true
  /\ List.filter (fun part => negb (Str.isEmpty part))
                 (Str.split "/" ("/repos/" ++ Str.joinWith "/" parts))
     = "repos" :: parts.
Proof.
  intros Hparts Hne.
  change ("/repos/" ++ Str.joinWith "/" parts)
    with (String "/" (String "r" (String "e" (String "p" (String "o" (String "s"
            (String "/" (Str.joinWith "/" parts)))))))).
  split; [reflexivity|]. split; [reflexivity|]. split; [reflexivity|].
  change (String "/" (String "r" (String "e" (String "p" (String "o" (String "s"
            (String "/" (Str.joinWith "/" parts))))))))
    with (Str.joinWith "/" [""; "repos"] ++ String "/" (Str.joinWith "/" parts)).
  assert (Hjoin : Str.joinWith "/" [""; "repos"]
                  ++ String "/" (Str.joinWith "/" parts)
                  = Str.joinWith "/" ("" :: "repos" :: parts)).
  { destruct parts as [|x l]; [contradiction|]. reflexivity. }
  rewrite Hjoin, split_joinWith.
  - cbn [List.filter Str.isEmpty negb].
    clear -Hparts. f_equal. induction Hparts as [|y l' Hy _ IH]; [reflexivity|].
    cbn [List.filter]. unfold ChangelogServer.isSegment in Hy.
    apply andb_true_iff in Hy as [-> _]. now rewrite IH.
  - repeat constructor.
    eapply Forall_impl; [exact Hparts|]. cbn.
    unfold ChangelogServer.isSegment. now intros s [_ ?]%andb_true_iff.
Qed.

(** X28.  The paths reach their handlers.  For a GET request and names that
    are segments (not empty, without a slash): [/repos/r] is answered by the
    repository route, [/repos/r/latest] by the latest route, [/repos/r/since]
    and [/repos/r/since/v] by the since route without and with the base
    version, [/repos/r/diff/v1/v2] by the diff route, and [/repos/r/v] by the
    version route unless [v] is "latest" or "since", which therefore cannot
    be asked for as versions; each answer is sent with the cross-origin
    headers added. *)
Theorem paths_reach_their_handlers
    `{FileSystem} `{Collator} `{Calendar} `{Json} `{!Storage}
    (this : ChangelogServer.t) (cm : CacheManager.t) (env : Env)
    (handleHealthCheck : M ChangelogServer.Response)
    (repoName version1 version2 : string) (titleParam : option string)
    (db : Database) :
  ChangelogServer.isSegment repoName = true ->
  ChangelogServer.isSegment version1 = true ->
  ChangelogServer.isSegment version2 = true ->
  let get (path : string) :=
    ChangelogServer.handleRequest this cm env handleHealthCheck
      {| ChangelogServer.method := "GET"; ChangelogServer.pathname := path;
         ChangelogServer.titleParam := titleParam |} db in
  let sent (handler : M ChangelogServer.Response) :=
    bind handler (fun response => ret (ChangelogServer.withCorsHeaders response)) db in
  get ("/repos/" ++ repoName)
  = sent (ret (ChangelogServer.handleGetRepo this repoName))
  /\ get ("/repos/" ++ repoName ++ "/latest")
     = sent (ret (ChangelogServer.handleGetLatestVersion this repoName))
  /\ get ("/repos/" ++ repoName ++ "/since")
     = sent (ChangelogServer.handleGetSince this cm env repoName None
               (ChangelogServer.titleOrUndefined titleParam))
  /\ get ("/repos/" ++ repoName ++ "/since/" ++ version1)
     = sent (ChangelogServer.handleGetSince this cm env repoName (Some version1)
               (ChangelogServer.titleOrUndefined titleParam))
  /\ get ("/repos/" ++ repoName ++ "/diff/" ++ version1 ++ "/" ++ version2)
     = sent (ChangelogServer.handleGetDiff this cm env repoName version1 version2)
  /\ (version1 <> "latest" -> version1 <> "since" ->
      get ("/repos/" ++ repoName ++ "/" ++ version1)
      = sent (ret (ChangelogServer.handleGetVersion this repoName version1))).
Proof.
  intros Hr Hv1 Hv2 get sent.
  assert (Hroute : forall parts,
            Forall (fun s => ChangelogServer.isSegment s = true) parts ->
            parts <> [] ->
            get ("/repos/" ++ Str.joinWith "/" parts)
            = sent (match "repos" :: parts with
                    | [_; repoName] => ret (ChangelogServer.handleGetRepo this repoName)
                    | [_; repoName; identifier] =>
                        if String.eqb identifier "latest"
                        then ret (ChangelogServer.handleGetLatestVersion this repoName)
                        else if String.eqb identifier "since"
                        then ChangelogServer.handleGetSince this cm env repoName None
                               (ChangelogServer.titleOrUndefined titleParam)
                        else ret (ChangelogServer.handleGetVersion this repoName
                                    identifier)
                    | [_; repoName; operation; versionParam] =>
                        if String.eqb operation "since"
                        then ChangelogServer.handleGetSince this cm env repoName
                               (Some versionParam)
                               (ChangelogServer.titleOrUndefined titleParam)
                        else ret ChangelogServer.invalidPath
                    | [_; repoName; operation; v1; v2] =>
                        if String.eqb operation "diff"
                        then ChangelogServer.handleGetDiff this cm env repoName v1 v2
                        else ret ChangelogServer.invalidPath
                    | _ => ret ChangelogServer.invalidPath
                    end)).
  { intros parts Hparts Hne.
    destruct (repos_path_segments parts Hparts Hne) as (Hh & Hs & Hp & Hseg).
    unfold get, sent, ChangelogServer.handleRequest.
    cbn [ChangelogServer.method ChangelogServer.pathname ChangelogServer.titleParam].
    change (String.eqb "GET" "OPTIONS") with false.
    change (String.eqb "GET" "GET") with true. cbn [negb].
    rewrite Hh, Hs, Hp, Hseg. reflexivity. }
  assert (Hlit : forall s, s = "since" \/ s = "latest" \/ s = "diff" ->
                           ChangelogServer.isSegment s = true).
  { intros s [->|[->| ->]]; reflexivity. }
  split; [|split; [|split; [|split; [|split]]]].
  - apply (Hroute [repoName]); [repeat constructor; assumption|discriminate].
  - apply (Hroute [repoName; "latest"]);
      [repeat constructor; auto|discriminate].
  - apply (Hroute [repoName; "since"]);
      [repeat constructor; auto|discriminate].
  - apply (Hroute [repoName; "since"; version1]);
      [repeat constructor; auto|discriminate].
  - apply (Hroute [repoName; "diff"; version1; version2]);
      [repeat constructor; auto|discriminate].
  - intros Hl Hs. apply String.eqb_neq in Hl, Hs.
    change (get ("/repos/" ++ Str.joinWith "/" [repoName; version1])
            = sent (ret (ChangelogServer.handleGetVersion this repoName version1))).
    rewrite (Hroute [repoName; version1]);
      [|repeat constructor; auto|discriminate].
    now rewrite Hl, Hs.
Qed.

Lemma paths_reach_their_handlers_witness :
  let this :=
    {| ChangelogServer.config :=
         {| ChangelogServer.port := Number.Finite 3000; ChangelogServer.repos := ["app"];
            ChangelogServer.reposBasePath := ".";
            ChangelogServer.withDates := false |} |} in
  let cm := {| CacheManager.enabled := true; CacheManager.hasDb := true;
               CacheManager.ttlMs := 3600000 |} in
  @ChangelogServer.handleRequest (listedFiles []) codeUnitCollator noCalendar
    idealJson memoryStorage this cm (envAt 100 0)
    (ret (ChangelogServer.markdownResponse "ok"))
    {| ChangelogServer.method := "GET"; ChangelogServer.pathname := "/repos/app";
       ChangelogServer.titleParam := None |} ∅
  = (Ok (ChangelogServer.withCorsHeaders
           (@ChangelogServer.handleGetRepo (listedFiles []) this "app")), ∅).
Proof.
  intros this cm.
  exact (proj1
    (@paths_reach_their_handlers (listedFiles []) codeUnitCollator noCalendar
       idealJson memoryStorage this cm (envAt 100 0)
       (ret (ChangelogServer.markdownResponse "ok"))
       "app" "1.0.0" "2.0.0" None ∅ eq_refl eq_refl eq_refl)).
Defined.
